(** * Task lifecycle and time tracking: the Task model and its controller

    A shallow embedding of [src/models/Task.js] (the Mongoose schema, its
    virtuals, its two [pre('save')] hooks and its instance methods) and of
    [src/controllers/taskController.js] (the request handlers), followed by
    the properties of the specification stated over them.

    Documents live in a store keyed by [ObjectId]; handlers are computations
    in a small state-and-exception monad over that store, so that a thrown
    [Error] keeps the writes made before it, as in JavaScript. *)

From stdpp Require Import base gmap strings list pretty.
From Stdlib Require Import ZArith.
From Stdlib Require QArith.

Local Open Scope Z_scope.

(** ** Constants of [config/constants.js] *)

Module TASK_STATUS.
(** Modelled from the spec: [config/constants.js], which defines
  [TASK_STATUS], is not among the source files; the five statuses are
  those of the data model ("status in Pending, InProgress, Completed,
  Cancelled, Overdue"), under the names the code gives them
  ([TASK_STATUS.PENDING] and so on). *)
Inductive t := PENDING | IN_PROGRESS | COMPLETED | CANCELLED | OVERDUE.
#[global] Instance eq_dec : EqDecision t.
Proof. solve_decision. Defined.
End TASK_STATUS.

Module USER_ROLES.
(** Modelled from the spec: [config/constants.js], which defines
  [USER_ROLES], is not among the source files; the roles are those of
  the authorization policy (Admin, ProjectManager, Employee). *)
Inductive t := ADMIN | PROJECT_MANAGER | EMPLOYEE.
#[global] Instance eq_dec : EqDecision t.
Proof. solve_decision. Defined.
End USER_ROLES.

Module HTTP_STATUS.
(** The status codes the handlers name. *)
Inductive t :=
OK | CREATED | BAD_REQUEST | FORBIDDEN | NOT_FOUND | INTERNAL_SERVER_ERROR.
#[global] Instance eq_dec : EqDecision t.
Proof. solve_decision. Defined.

(** Modelled from the spec: the numbers of [HTTP_STATUS] are in
  [config/constants.js], which is not among the source files ("200
  success-read/mutate, 201 created, 400 validation/domain-conflict, 403
  forbidden, 404 not found, 500 unexpected"). *)
Definition code (s : t) : Z :=
match s with
| OK => 200 | CREATED => 201 | BAD_REQUEST => 400
| FORBIDDEN => 403 | NOT_FOUND => 404 | INTERNAL_SERVER_ERROR => 500
end.
End HTTP_STATUS.

(** The message constants the handlers name; their texts are in
    [config/constants.js] and stay abstract here. *)
Module ERROR_MESSAGES.
Inductive t :=
TASK_NOT_FOUND | INSUFFICIENT_PERMISSIONS | SERVER_ERROR
| VALIDATION_ERROR | TASK_NOT_ASSIGNED | TASK_ALREADY_STARTED.
End ERROR_MESSAGES.

Module SUCCESS_MESSAGES.
Inductive t :=
TASK_CREATED | TASK_UPDATED | TASK_DELETED | TASK_STARTED | TASK_COMPLETED.
End SUCCESS_MESSAGES.

(** ** Data model *)

(** A Mongo [ObjectId]; two ids are compared through [toString()], that is
    by value. *)
Abbreviation ObjectId := N.

(** A [Date] is its number of milliseconds since the epoch. *)
Abbreviation Date := Z.

Record Session := {
  startTime : option Date;      (* required by the schema, checked on save *)
  endTime : option Date;
  duration : Z;                 (* in milliseconds *)
  notes : string
}.

Record TimeTracking := {
  totalTimeSpent : Z;           (* in milliseconds *)
  sessions : list Session;
  isActive : bool;
  currentSessionStart : option Date
}.

Module StatusEntry.
Record t := {
status : TASK_STATUS.t;
changedBy : ObjectId;
changedAt : Date;
reason : string
}.
End StatusEntry.

(** The paths of [taskSchema] that the operations below read or write;
    the [_id] of a document is its key in the collection. [priority] is
    not declared by the schema but is queried by the controller, so a
    stored document may or may not carry one. *)
Record Task := {
  title : string;
  description : string;
  assignedTo : ObjectId;
  assignedBy : ObjectId;
  status : TASK_STATUS.t;
  priority : option string;
  dueDate : option Date;
  startDate : option Date;
  completedDate : option Date;
  timeTracking : TimeTracking;
  statusHistory : list StatusEntry.t;
  createdAt : Date
}.

Record User := {
  user_id : ObjectId;
  role : USER_ROLES.t;
  designation : string;
  userIsActive : bool
}.

(** Field updates, written out once. *)
Definition with_status (s : TASK_STATUS.t) (t : Task) : Task :=
  {| title := title t; description := description t;
     assignedTo := assignedTo t; assignedBy := assignedBy t; status := s;
     priority := priority t; dueDate := dueDate t; startDate := startDate t;
     completedDate := completedDate t; timeTracking := timeTracking t;
     statusHistory := statusHistory t; createdAt := createdAt t |}.

Definition with_startDate (d : option Date) (t : Task) : Task :=
  {| title := title t; description := description t;
     assignedTo := assignedTo t; assignedBy := assignedBy t;
     status := status t; priority := priority t; dueDate := dueDate t;
     startDate := d; completedDate := completedDate t;
     timeTracking := timeTracking t; statusHistory := statusHistory t;
     createdAt := createdAt t |}.

Definition with_completedDate (d : option Date) (t : Task) : Task :=
  {| title := title t; description := description t;
     assignedTo := assignedTo t; assignedBy := assignedBy t;
     status := status t; priority := priority t; dueDate := dueDate t;
     startDate := startDate t; completedDate := d;
     timeTracking := timeTracking t; statusHistory := statusHistory t;
     createdAt := createdAt t |}.

Definition with_timeTracking (tt : TimeTracking) (t : Task) : Task :=
  {| title := title t; description := description t;
     assignedTo := assignedTo t; assignedBy := assignedBy t;
     status := status t; priority := priority t; dueDate := dueDate t;
     startDate := startDate t; completedDate := completedDate t;
     timeTracking := tt; statusHistory := statusHistory t;
     createdAt := createdAt t |}.

Definition with_statusHistory (h : list StatusEntry.t) (t : Task) : Task :=
  {| title := title t; description := description t;
     assignedTo := assignedTo t; assignedBy := assignedBy t;
     status := status t; priority := priority t; dueDate := dueDate t;
     startDate := startDate t; completedDate := completedDate t;
     timeTracking := timeTracking t; statusHistory := h;
     createdAt := createdAt t |}.

Definition with_createdAt (c : Date) (t : Task) : Task :=
  {| title := title t; description := description t;
     assignedTo := assignedTo t; assignedBy := assignedBy t;
     status := status t; priority := priority t; dueDate := dueDate t;
     startDate := startDate t; completedDate := completedDate t;
     timeTracking := timeTracking t; statusHistory := statusHistory t;
     createdAt := c |}.

(** ** JavaScript errors and the handler monad *)

Module JsError.
Record t := {
name : string;                       (* error.name *)
message : string;                    (* error.message *)
errors : list (string * string)      (* error.errors: path and message *)
}.
End JsError.

Definition Error (msg : string) : JsError.t :=
  {| JsError.name := "Error"; JsError.message := msg; JsError.errors := [] |}.

Definition ValidationError (errs : list (string * string)) : JsError.t :=
  {| JsError.name := "ValidationError";
     JsError.message := "Task validation failed"; JsError.errors := errs |}.

Definition TypeError (msg : string) : JsError.t :=
  {| JsError.name := "TypeError"; JsError.message := msg;
     JsError.errors := [] |}.

(** The world a request runs in: the two collections and the clock.
    [clock n] is what the [n]-th coming [new Date()] returns. *)
Record World := {
  tasks : gmap N Task;
  users : gmap N User;
  clock : nat -> Date
}.

Inductive outcome (A : Type) :=
| Return (a : A)
| Throw (e : JsError.t).
Arguments Return {A} a.
Arguments Throw {A} e.

Definition M (A : Type) : Type := World -> outcome A * World.

Definition ret {A} (a : A) : M A := fun w => (Return a, w).

Definition bind {A B} (c : M A) (k : A -> M B) : M B :=
  fun w =>
    match c w with
    | (Return a, w') => k a w'
    | (Throw e, w') => (Throw e, w')
    end.

Definition throw {A} (e : JsError.t) : M A := fun w => (Throw e, w).

(** [try { c } catch (error) { h error }] *)
Definition try_catch {A} (c : M A) (h : JsError.t -> M A) : M A :=
  fun w =>
    match c w with
    | (Return a, w') => (Return a, w')
    | (Throw e, w') => h e w'
    end.

Declare Scope js_scope.
Delimit Scope js_scope with js.
Notation "x <- c ;; k" := (bind c (fun x => k))
  (at level 100, c at next level, right associativity) : js_scope.
Local Open Scope js_scope.

(** [new Date()]: read the clock; the next reading is the following one. *)
Definition new_Date : M Date :=
  fun w =>
    (Return (clock w 0%nat),
     {| tasks := tasks w; users := users w;
        clock := fun n => clock w (S n) |}).

Definition with_tasks (m : gmap N Task) (w : World) : World :=
  {| tasks := m; users := users w; clock := clock w |}.

(** ** Request bodies and the helpers of the controller *)

(** A JSON value of a request body. [JStatus s] is the string that
    [config/constants.js] gives to [TASK_STATUS.s]; [JStr] carries any
    other string. *)
Inductive jsval :=
| JStr (s : string)
| JNum (n : Z)
| JBool (b : bool)
| JNull
| JStatus (s : TASK_STATUS.t).

(** A JavaScript object used as a record of fields: keys in insertion
    order. *)
Abbreviation Body := (list (string * jsval)).

(** [Object.keys(o)] *)
Definition Object_keys (o : Body) : list string := o.*1.

(** [String.prototype.trim], which the schema option [trim: true] applies
    when a value is assigned to the path. The strings of the model are
    strings of ASCII characters; the white space and the line terminators
    of ECMAScript among these are the tab, the line feed, the vertical
    tab, the form feed, the carriage return and the space. *)
Definition is_space (c : Ascii.ascii) : bool :=
  let n := Ascii.nat_of_ascii c in
  bool_decide (9 <= n <= 13)%nat || bool_decide (n = 32)%nat.

Fixpoint trimStart (s : string) : string :=
  match s with
  | String c s' => if is_space c then trimStart s' else s
  | EmptyString => EmptyString
  end.

Fixpoint trimEnd (s : string) : string :=
  match s with
  | String c s' =>
      match trimEnd s' with
      | EmptyString => if is_space c then EmptyString else String c EmptyString
      | kept => String c kept
      end
  | EmptyString => EmptyString
  end.

Definition String_trim (s : string) : string := trimEnd (trimStart s).

(** What the controller imports from [utils/validation.js], which is
    not among the source files, and the parts of the Mongoose and
    JavaScript runtimes it relies on:
    - [sanitizeInput] and [validatePagination] of [utils/validation.js];
    - [RegExp_i s] is [new RegExp(s, 'i')]: [None] when the constructor
      throws a [SyntaxError], otherwise the [test] function of the
      expression;
    - [castUpdate k v t] is what a Mongoose [$set] of the path [k] other
      than [status], with [runValidators], makes of the stored document
      [t], or the error it rejects the update with. *)
Class Externals := {
  sanitizeInput : Body -> Body;
  validatePagination : Z -> Z -> nat * nat * nat;
  RegExp_i : string -> option (string -> bool);
  castUpdate : string -> jsval -> Task -> JsError.t + Task
}.

(** ** [models/Task.js] *)

(** A Mongoose document in memory: the values of its paths, what Mongoose
    tracks about it, and the two properties the methods attach to the
    object ([modifiedBy], [statusChangeReason]), which are no schema paths
    and are therefore never stored. *)
Record Doc := {
  _id : ObjectId;
  doc : Task;
  isNew : bool;
  status_modified : bool;             (* this.isModified('status') *)
  modifiedBy : option ObjectId;
  statusChangeReason : option string
}.

(** A document as a query returns it. *)
Definition hydrate (id : ObjectId) (t : Task) : Doc :=
  {| _id := id; doc := t; isNew := false; status_modified := false;
     modifiedBy := None; statusChangeReason := None |}.

(** [new Task(data)], with the [ObjectId] generated for it. *)
Definition new_Task (id : ObjectId) (t : Task) : Doc :=
  {| _id := id; doc := t; isNew := true; status_modified := true;
     modifiedBy := None; statusChangeReason := None |}.

(** Assignment to a path other than [status]. *)
Definition set_doc (f : Task -> Task) (d : Doc) : Doc :=
  {| _id := _id d; doc := f (doc d); isNew := isNew d;
     status_modified := status_modified d;
     modifiedBy := modifiedBy d;
     statusChangeReason := statusChangeReason d |}.

(** [this.status = s]: Mongoose marks the path modified when the value
    differs from the current one. *)
Definition set_status (s : TASK_STATUS.t) (d : Doc) : Doc :=
  if bool_decide (status (doc d) = s) then d
  else
    {| _id := _id d; doc := with_status s (doc d); isNew := isNew d;
       status_modified := true;
       modifiedBy := modifiedBy d;
       statusChangeReason := statusChangeReason d |}.

(** [this.modifiedBy = userId] *)
Definition set_modifiedBy (u : ObjectId) (d : Doc) : Doc :=
  {| _id := _id d; doc := doc d; isNew := isNew d;
     status_modified := status_modified d;
     modifiedBy := Some u;
     statusChangeReason := statusChangeReason d |}.

(** The document after a successful write. *)
Definition saved (d : Doc) : Doc :=
  {| _id := _id d; doc := doc d; isNew := false; status_modified := false;
     modifiedBy := modifiedBy d;
     statusChangeReason := statusChangeReason d |}.

(** *** Virtuals *)

(** [isOverdue], at the time [now] of the [new Date()] it takes. *)
Definition isOverdue (now : Date) (t : Task) : bool :=
  if bool_decide (status t = TASK_STATUS.COMPLETED)
     || bool_decide (status t = TASK_STATUS.CANCELLED)
  then false
  else
    match dueDate t with
    | Some due => bool_decide (due < now)
    | None => false
    end.

(** [isBeingTracked] *)
Definition isBeingTracked (t : Task) : bool :=
  isActive (timeTracking t)
  && bool_decide (is_Some (currentSessionStart (timeTracking t))).

(** *** Schema validation, run by [save] before the hooks *)

Definition required_string (path msg : string) (max : nat) (msg_max : string)
    (s : string) : list (string * string) :=
  if bool_decide (s = "") then [(path, msg)]
  else if bool_decide (max < String.length s)%nat then [(path, msg_max)]
  else [].

Definition validate_session (s : Session) : list (string * string) :=
  match startTime s with
  | Some _ => []
  | None => [("timeTracking.sessions.startTime",
              "Path `startTime` is required.")]
  end.

Definition validate (t : Task) : list (string * string) :=
  required_string "title" "Task title is required" 200
    "Task title cannot exceed 200 characters" (title t)
  ++ required_string "description" "Task description is required" 2000
       "Task description cannot exceed 2000 characters" (description t)
  ++ match dueDate t with
     | Some _ => []
     | None => [("dueDate", "Due date is required")]
     end
  ++ concat (validate_session <$> sessions (timeTracking t)).

(** [timestamps: true]: a new document gets its [createdAt] when saved. *)
Definition timestamps (d : Doc) : M Doc :=
  if isNew d then
    (now <- new_Date ;; ret (set_doc (with_createdAt now) d))%js
  else ret d.

(** *** Time tracking: the statements of [stopTimeTracking] before its
    [await this.save()] *)

(** [endTime - startTime] on dates: a [null] start counts as 0. *)
Definition date_minus (a : Date) (b : option Date) : Z :=
  a - default 0 b.

(** The session that is pushed has its [notes] trimmed: the path has
    [trim: true]. *)
Definition stop_session (notes : string) (now : Date) (tt : TimeTracking)
    : TimeTracking :=
  let endTime := now in
  let startTime := currentSessionStart tt in
  let duration := date_minus endTime startTime in
  {| totalTimeSpent := totalTimeSpent tt + duration;
     sessions := sessions tt ++
       [ {| startTime := startTime; endTime := Some endTime;
            duration := duration; notes := String_trim notes |} ];
     isActive := false;
     currentSessionStart := None |}.

Definition stopTimeTracking_sync (notes : string) (d : Doc) : M Doc :=
  if negb (isActive (timeTracking (doc d))) then
    throw (Error "No active time tracking session for this task")
  else
    (endTime <- new_Date ;;
     ret (set_doc (fun t =>
            with_timeTracking (stop_session notes endTime (timeTracking t)) t)
          d))%js.

(** *** The two [pre('save')] hooks, in the order they are registered *)

(** [a || b] on a string property that may be undefined or empty. *)
Definition or_string (a : option string) (b : string) : string :=
  match a with
  | Some s => if bool_decide (s = "") then b else s
  | None => b
  end.

(** Pre-save middleware to update status history. The call
    [this.stopTimeTracking()] in it is not awaited: its statements up to
    its own [save()] run on the document being saved, and the promise it
    returns is dropped. The reason of the entry is stored trimmed, the
    path having [trim: true]. *)
Definition pre_save_history (d : Doc) : M Doc :=
  if status_modified d && negb (isNew d) then
    (changedAt <- new_Date ;;
     let d1 :=
       set_doc (fun t =>
         with_statusHistory
           (statusHistory t ++
            [ {| StatusEntry.status := status t;
                 StatusEntry.changedBy := default (assignedBy t) (modifiedBy d);
                 StatusEntry.changedAt := changedAt;
                 StatusEntry.reason :=
                   String_trim
                     (or_string (statusChangeReason d) "Status updated") |} ])
           t) d in
     d2 <-
       (if bool_decide (status (doc d1) = TASK_STATUS.COMPLETED) then
          now <- new_Date ;;
          let d' := set_doc (with_completedDate (Some now)) d1 in
          if isActive (timeTracking (doc d')) then
            stopTimeTracking_sync "" d'
          else ret d'
        else ret d1) ;;
     if bool_decide (status (doc d2) = TASK_STATUS.IN_PROGRESS)
        && bool_decide (startDate (doc d2) = None) then
       now <- new_Date ;;
       ret (set_doc (with_startDate (Some now)) d2)
     else ret d2)%js
  else ret d.

(** Pre-save middleware to handle overdue tasks. *)
Definition pre_save_overdue (d : Doc) : M Doc :=
  match dueDate (doc d) with
  | Some due =>
      (now <- new_Date ;;
       if bool_decide (due < now)
          && bool_decide (status (doc d) ≠ TASK_STATUS.COMPLETED)
          && bool_decide (status (doc d) ≠ TASK_STATUS.CANCELLED)
          && bool_decide (status (doc d) ≠ TASK_STATUS.OVERDUE)
       then ret (set_status TASK_STATUS.OVERDUE d)
       else ret d)%js
  | None => ret d
  end.

(** The write itself. *)
Definition persist (d : Doc) : M Doc :=
  fun w =>
    (Return (saved d),
     with_tasks (<[ _id d := doc d ]> (tasks w)) w).

(** [doc.save()] *)
Definition save (d : Doc) : M Doc :=
  match validate (doc d) with
  | [] =>
      (d0 <- timestamps d ;;
       d1 <- pre_save_history d0 ;;
       d2 <- pre_save_overdue d1 ;;
       persist d2)%js
  | errs => throw (ValidationError errs)
  end.

(** *** Instance methods *)

Definition startTimeTracking (d : Doc) : M Doc :=
  if isActive (timeTracking (doc d)) then
    throw (Error "Time tracking is already active for this task")
  else
    (now <- new_Date ;;
     let d1 :=
       set_doc (fun t =>
         with_timeTracking
           {| totalTimeSpent := totalTimeSpent (timeTracking t);
              sessions := sessions (timeTracking t);
              isActive := true;
              currentSessionStart := Some now |} t) d in
     let d2 :=
       if bool_decide (status (doc d1) = TASK_STATUS.PENDING)
       then set_status TASK_STATUS.IN_PROGRESS d1
       else d1 in
     save d2)%js.

Definition stopTimeTracking (notes : string) (d : Doc) : M Doc :=
  (d' <- stopTimeTracking_sync notes d ;; save d')%js.

Definition markAsCompleted (userId : ObjectId) (d : Doc) : M Doc :=
  let d1 := set_status TASK_STATUS.COMPLETED d in
  (now <- new_Date ;;
   let d2 := set_doc (with_completedDate (Some now)) d1 in
   let d3 := set_modifiedBy userId d2 in
   d4 <- (if isActive (timeTracking (doc d3))
          then stopTimeTracking "Task completed" d3
          else ret d3) ;;
   save d4)%js.

(** *** Queries of the store ([Task.find], [Task.findById], ...) *)

(** One alternative of a [$or]. *)
Inductive Clause :=
| TitleRegex (test : string -> bool)          (* { title: /re/i } *)
| DescriptionRegex (test : string -> bool)    (* { description: /re/i } *)
| AssignedToIs (u : ObjectId)                 (* { assignedTo: u } *)
| AssignedByIs (u : ObjectId).                (* { assignedBy: u } *)

(** The [filter] object that [getAllTasks] builds, key by key. *)
Record Filter := {
  f_status : option TASK_STATUS.t;
  f_priority : option string;
  f_assignedTo : option ObjectId;
  f_assignedBy : option ObjectId;
  f_createdAt_gte : option Date;
  f_createdAt_lte : option Date;
  f_or : option (list Clause)
}.

Definition clause_matches (t : Task) (c : Clause) : bool :=
  match c with
  | TitleRegex test => test (title t)
  | DescriptionRegex test => test (description t)
  | AssignedToIs u => bool_decide (assignedTo t = u)
  | AssignedByIs u => bool_decide (assignedBy t = u)
  end.

(** A key that is absent from the filter constrains nothing. *)
Definition criterion {A} (o : option A) (P : A -> bool) : bool :=
  match o with
  | Some a => P a
  | None => true
  end.

(** Whether the store returns the document for the filter: all the keys
    of the filter hold together. *)
Definition matches (f : Filter) (t : Task) : bool :=
  criterion (f_status f) (fun s => bool_decide (status t = s))
  && criterion (f_priority f) (fun p => bool_decide (priority t = Some p))
  && criterion (f_assignedTo f) (fun u => bool_decide (assignedTo t = u))
  && criterion (f_assignedBy f) (fun u => bool_decide (assignedBy t = u))
  && criterion (f_createdAt_gte f) (fun d => bool_decide (d <= createdAt t))
  && criterion (f_createdAt_lte f) (fun d => bool_decide (createdAt t <= d))
  && criterion (f_or f) (fun cs => existsb (clause_matches t) cs).

(** [cursor.sort({[path]: dir})], as a stable insertion sort; how two
    documents compare at a path is the store's business. *)
Section Sort.
Context (cmp : Task -> Task -> comparison) (desc : bool).

Definition before (a b : Task) : bool :=
match (if desc then cmp b a else cmp a b) with
| Gt => false
| _ => true
end.

Fixpoint insert_sorted (x : Task) (l : list Task) : list Task :=
match l with
| [] => [x]
| y :: l' => if before x y then x :: l else y :: insert_sorted x l'
end.

Definition sort_tasks (l : list Task) : list Task :=
foldr insert_sorted [] l.
End Sort.

(** [cursor.limit(n)]: a limit of 0 is no limit. *)
Definition limit_tasks (n : nat) (l : list Task) : list Task :=
  if bool_decide (n = 0%nat) then l else take n l.

Definition Task_find (f : Filter) (cmp : Task -> Task -> comparison)
    (desc : bool) (skip lim : nat) : M (list Task) :=
  fun w =>
    (Return
       (limit_tasks lim
          (drop skip
             (sort_tasks cmp desc
                (List.filter (matches f) (map_to_list (tasks w)).*2)))),
     w).

Definition Task_countDocuments (f : Filter) : M nat :=
  fun w =>
    (Return (length (List.filter (matches f) (map_to_list (tasks w)).*2)), w).

Definition Task_findById (id : ObjectId) : M (option Doc) :=
  fun w => (Return (hydrate id <$> tasks w !! id), w).

Definition User_findById (id : ObjectId) : M (option User) :=
  fun w => (Return (users w !! id), w).

Definition Task_findByIdAndDelete (id : ObjectId) : M unit :=
  fun w => (Return (), with_tasks (delete id (tasks w)) w).

Section Update.
Context `{Externals}.

(** The [$set] of one key of an update, with [runValidators]: the
  [status] path accepts the values of its [enum] only; [updatedAt] is
  no path of the documents as modelled. *)
Definition set_path (k : string) (v : jsval) (t : Task)
  : JsError.t + Task :=
if bool_decide (k = "status") then
  match v with
  | JStatus s => inr (with_status s t)
  | _ => inl (ValidationError
                [("status", "not a valid enum value for path `status`.")])
  end
else if bool_decide (k = "updatedAt") then inr t
else castUpdate k v t.

Fixpoint apply_update (upd : Body) (t : Task) : JsError.t + Task :=
match upd with
| [] => inr t
| (k, v) :: upd' =>
    match set_path k v t with
    | inr t' => apply_update upd' t'
    | inl e => inl e
    end
end.

(** [Task.findByIdAndUpdate(id, update, { new: true, runValidators:
  true })]: a query, not a [save]: the [pre('save')] hooks do not run.
  A rejected update writes nothing. *)
Definition Task_findByIdAndUpdate (id : ObjectId) (upd : Body)
  : M (option Task) :=
fun w =>
  match tasks w !! id with
  | None => (Return None, w)
  | Some t =>
      match apply_update upd t with
      | inl e => (Throw e, w)
      | inr t' => (Return (Some t'), with_tasks (<[ id := t' ]> (tasks w)) w)
      end
  end.
End Update.

(** ** [controllers/taskController.js]

    The routes put middleware in front of the handlers ([authenticate],
    [canPerformAction], [isAdminOrPM], [canCreateTasks], the validators);
    it lives in [middleware/auth.js] and [utils/validation.js], which are
    not among the source files. A handler is modelled as it runs once the
    middleware has let the request through, with [req.user] as [user]. *)

Inductive Message :=
| Err (m : ERROR_MESSAGES.t)
| Succ (m : SUCCESS_MESSAGES.t)
| Text (s : string).

(** A JavaScript number that a division may produce. *)
Inductive jsnum := Fin (n : nat) | Infinity | NaN.

Record Pagination := {
  currentPage : nat;
  totalPages : jsnum;
  totalItems : nat;
  itemsPerPage : nat;
  hasNextPage : bool;
  hasPrevPage : bool
}.

Inductive Data :=
| NoData                                        (* no [data] key *)
| Null                                          (* data: null *)
| TaskData (t : option Task)                    (* data: { task } *)
| TasksData (ts : list Task) (p : Pagination).  (* data: { tasks, pagination } *)

(** The envelope every handler answers with, and its status code: the
    argument of [res.status(...).json(...)] as the handler builds it.
    What [res.json] makes of it is [Sent], further down. *)
Record Response := {
  statusCode : HTTP_STATUS.t;
  success : bool;
  message : Message;
  error : option string;
  errors : list (string * string);
  data : Data
}.

Definition respond (c : HTTP_STATUS.t) (m : Message) (d : Data) : Response :=
  {| statusCode := c; success := true; message := m; error := None;
     errors := []; data := d |}.

Definition fail (c : HTTP_STATUS.t) (m : ERROR_MESSAGES.t) (e : string)
    : Response :=
  {| statusCode := c; success := false; message := Err m; error := Some e;
     errors := []; data := NoData |}.

(** The answer to a Mongoose [ValidationError]. *)
Definition fail_validation (e : JsError.t) : Response :=
  {| statusCode := HTTP_STATUS.BAD_REQUEST; success := false;
     message := Err ERROR_MESSAGES.VALIDATION_ERROR; error := None;
     errors := JsError.errors e; data := NoData |}.

(** [s.includes(sub)] *)
Fixpoint includes (sub s : string) : bool :=
  String.prefix sub s
  || match s with
     | EmptyString => false
     | String _ s' => includes sub s'
     end.

(** [if (s)] on a query value: absent and empty are both false. *)
Definition truthy (o : option string) : option string :=
  match o with
  | Some s => if bool_decide (s = "") then None else Some s
  | None => None
  end.

(** [Math.ceil(total / limit)] *)
Definition ceil_div (total lim : nat) : jsnum :=
  if bool_decide (lim = 0%nat) then
    if bool_decide (total = 0%nat) then NaN else Infinity
  else Fin ((total + lim - 1) / lim)%nat.

(** [page < totalPages] *)
Definition lt_jsnum (page : nat) (n : jsnum) : bool :=
  match n with
  | Fin k => bool_decide (page < k)%nat
  | Infinity => true
  | NaN => false
  end.

(** [req.query] of the listing, its values already of the type of the
    path they are compared with. *)
Record Query := {
  q_page : option Z;
  q_limit : option Z;
  q_status : option TASK_STATUS.t;
  q_priority : option string;
  q_assignedTo : option ObjectId;
  q_assignedBy : option ObjectId;
  q_search : option string;
  q_sortBy : option string;
  q_sortOrder : option string;
  q_startDate : option Date;
  q_endDate : option Date
}.

Definition with_or (cs : list Clause) (f : Filter) : Filter :=
  {| f_status := f_status f; f_priority := f_priority f;
     f_assignedTo := f_assignedTo f; f_assignedBy := f_assignedBy f;
     f_createdAt_gte := f_createdAt_gte f;
     f_createdAt_lte := f_createdAt_lte f; f_or := Some cs |}.

Definition with_assignedTo (u : ObjectId) (f : Filter) : Filter :=
  {| f_status := f_status f; f_priority := f_priority f;
     f_assignedTo := Some u; f_assignedBy := f_assignedBy f;
     f_createdAt_gte := f_createdAt_gte f;
     f_createdAt_lte := f_createdAt_lte f; f_or := f_or f |}.

(** [{ ...o, [k]: v }]: the key keeps its place when [o] has it. *)
Fixpoint spread_set (o : Body) (k : string) (v : jsval) : Body :=
  match o with
  | [] => [(k, v)]
  | (k', v') :: o' =>
      if bool_decide (k' = k) then (k, v) :: o'
      else (k', v') :: spread_set o' k v
  end.

Section Controller.
Context `{Externals}.

(** How the store orders two documents at the path [sortBy]. *)
Context (compare_at : string -> Task -> Task -> comparison).

(** The filter of [getAllTasks] up to the free-text search. *)
Definition query_filter (q : Query) : Filter :=
{| f_status := q_status q;
   f_priority := truthy (q_priority q);
   f_assignedTo := q_assignedTo q;
   f_assignedBy := q_assignedBy q;
   f_createdAt_gte := q_startDate q;
   f_createdAt_lte := q_endDate q;
   f_or := None |}.

(** [if (search) filter.$or = [...]] *)
Definition search_filter (q : Query) (f : Filter) : M Filter :=
match truthy (q_search q) with
| Some search =>
    match RegExp_i search with
    | Some test => ret (with_or [TitleRegex test; DescriptionRegex test] f)
    | None =>
        throw {| JsError.name := "SyntaxError";
                 JsError.message := "Invalid regular expression";
                 JsError.errors := [] |}
    end
| None => ret f
end.

(** [if (req.user.role === USER_ROLES.EMPLOYEE) { ... }] *)
Definition role_filter (user : User) (f : Filter) : Filter :=
if bool_decide (role user = USER_ROLES.EMPLOYEE) then
  if bool_decide (designation user = "project_manager") then
    with_or [AssignedToIs (user_id user); AssignedByIs (user_id user)] f
  else with_assignedTo (user_id user) f
else f.

Definition getAllTasks (user : User) (q : Query) : M Response :=
try_catch
  (let page := default 1 (q_page q) in
   let limit := default 10 (q_limit q) in
   let sortBy := default "createdAt" (q_sortBy q) in
   let sortOrder := default "desc" (q_sortOrder q) in
   let '(validPage, validLimit, skip) := validatePagination page limit in
   filter <- search_filter q (query_filter q) ;;
   let filter := role_filter user filter in
   let desc := bool_decide (sortOrder = "desc") in
   tasks <- Task_find filter (compare_at sortBy) desc skip validLimit ;;
   total <- Task_countDocuments filter ;;
   let totalPages := ceil_div total validLimit in
   ret (respond HTTP_STATUS.OK (Text "Tasks retrieved successfully")
          (TasksData tasks
             {| currentPage := validPage; totalPages := totalPages;
                totalItems := total; itemsPerPage := validLimit;
                hasNextPage := lt_jsnum validPage totalPages;
                hasPrevPage := bool_decide (1 < validPage)%nat |})))%js
  (fun _ =>
     ret (fail HTTP_STATUS.INTERNAL_SERVER_ERROR ERROR_MESSAGES.SERVER_ERROR
            "Failed to retrieve tasks")).

(** [populate('assignedTo', ...)] puts the user of that id in the place
  of the id, or [null] where the user is gone, and
  [task.assignedTo._id] then throws. *)
Definition populated_assignedTo (t : Task) : M ObjectId :=
(u <- User_findById (assignedTo t) ;;
 match u with
 | Some _ => ret (assignedTo t)
 | None => throw (TypeError "Cannot read properties of null (reading '_id')")
 end)%js.

Definition getTaskById (user : User) (id : ObjectId) : M Response :=
try_catch
  (task <- Task_findById id ;;
   match task with
   | None =>
       ret (fail HTTP_STATUS.NOT_FOUND ERROR_MESSAGES.TASK_NOT_FOUND
              "Task not found")
   | Some task =>
       denied <-
         (if bool_decide (role user = USER_ROLES.EMPLOYEE) then
            a <- populated_assignedTo (doc task) ;;
            ret (bool_decide (a ≠ user_id user))
          else ret false) ;;
       if denied : bool then
         ret (fail HTTP_STATUS.FORBIDDEN
                ERROR_MESSAGES.INSUFFICIENT_PERMISSIONS
                "You can only view your own tasks")
       else
         ret (respond HTTP_STATUS.OK (Text "Task retrieved successfully")
                (TaskData (Some (doc task))))
   end)%js
  (fun _ =>
     ret (fail HTTP_STATUS.INTERNAL_SERVER_ERROR ERROR_MESSAGES.SERVER_ERROR
            "Failed to retrieve task")).

Definition updateTask (user : User) (id : ObjectId) (body : Body)
  : M Response :=
try_catch
  (let sanitizedData := sanitizeInput body in
   task <- Task_findById id ;;
   match task with
   | None =>
       ret (fail HTTP_STATUS.NOT_FOUND ERROR_MESSAGES.TASK_NOT_FOUND
              "Task not found")
   | Some task =>
       if bool_decide (role user = USER_ROLES.EMPLOYEE)
          && bool_decide (assignedTo (doc task) ≠ user_id user)
       then
         ret (fail HTTP_STATUS.FORBIDDEN
                ERROR_MESSAGES.INSUFFICIENT_PERMISSIONS
                "You can only update your own tasks")
       else
         let allowedFields := ["status"; "comments"] in
         let requestedFields := Object_keys sanitizedData in
         let unauthorizedFields :=
           filter (fun field => field ∉ allowedFields) requestedFields in
         if bool_decide (role user = USER_ROLES.EMPLOYEE)
            && bool_decide (0 < length unauthorizedFields)%nat
         then
           ret (fail HTTP_STATUS.FORBIDDEN
                  ERROR_MESSAGES.INSUFFICIENT_PERMISSIONS
                  "Employees can only update: status, comments")
         else
           now <- new_Date ;;
           updatedTask <-
             Task_findByIdAndUpdate id
               (spread_set sanitizedData "updatedAt" (JNum now)) ;;
           ret (respond HTTP_STATUS.OK
                  (Succ SUCCESS_MESSAGES.TASK_UPDATED)
                  (TaskData updatedTask))
   end)%js
  (fun error =>
     if bool_decide (JsError.name error = "ValidationError") then
       ret (fail_validation error)
     else
       ret (fail HTTP_STATUS.INTERNAL_SERVER_ERROR
              ERROR_MESSAGES.SERVER_ERROR "Failed to update task")).

Definition deleteTask (user : User) (id : ObjectId) : M Response :=
try_catch
  (task <- Task_findById id ;;
   match task with
   | None =>
       ret (fail HTTP_STATUS.NOT_FOUND ERROR_MESSAGES.TASK_NOT_FOUND
              "Task not found")
   | Some task =>
       let canDeleteTasks :=
         bool_decide (role user = USER_ROLES.ADMIN)
         || bool_decide (role user = USER_ROLES.PROJECT_MANAGER)
         || (bool_decide (role user = USER_ROLES.EMPLOYEE)
             && bool_decide (designation user = "project_manager")) in
       if negb canDeleteTasks then
         ret (fail HTTP_STATUS.FORBIDDEN
                ERROR_MESSAGES.INSUFFICIENT_PERMISSIONS
                "Only administrators and project managers can delete tasks")
       else
         _ <- Task_findByIdAndDelete id ;;
         ret (respond HTTP_STATUS.OK (Succ SUCCESS_MESSAGES.TASK_DELETED)
                Null)
   end)%js
  (fun _ =>
     ret (fail HTTP_STATUS.INTERNAL_SERVER_ERROR ERROR_MESSAGES.SERVER_ERROR
            "Failed to delete task")).
End Controller.

(** The handlers below also tell [Notification] and [emailService] of
    the event, inside a [try] of their own whose [catch] only logs: that
    part neither touches the task collection nor the answer, and is left
    out. *)

Definition startTask (user : User) (id : ObjectId) : M Response :=
  try_catch
    (task <- Task_findById id ;;
     match task with
     | None =>
         ret (fail HTTP_STATUS.NOT_FOUND ERROR_MESSAGES.TASK_NOT_FOUND
                "Task not found")
     | Some task =>
         if bool_decide (assignedTo (doc task) ≠ user_id user) then
           ret (fail HTTP_STATUS.FORBIDDEN ERROR_MESSAGES.TASK_NOT_ASSIGNED
                  "You can only start tasks assigned to you")
         else
           task <- startTimeTracking task ;;
           ret (respond HTTP_STATUS.OK (Succ SUCCESS_MESSAGES.TASK_STARTED)
                  (TaskData (Some (doc task))))
     end)%js
    (fun error =>
       if includes "already active" (JsError.message error) then
         ret (fail HTTP_STATUS.BAD_REQUEST ERROR_MESSAGES.TASK_ALREADY_STARTED
                (JsError.message error))
       else
         ret (fail HTTP_STATUS.INTERNAL_SERVER_ERROR ERROR_MESSAGES.SERVER_ERROR
                "Failed to start task")).

(** [notes] is [req.body.notes]; when it is absent the default value of
    the parameter of [stopTimeTracking] applies. *)
Definition stopTask (user : User) (id : ObjectId) (notes : option string)
    : M Response :=
  try_catch
    (task <- Task_findById id ;;
     match task with
     | None =>
         ret (fail HTTP_STATUS.NOT_FOUND ERROR_MESSAGES.TASK_NOT_FOUND
                "Task not found")
     | Some task =>
         if bool_decide (assignedTo (doc task) ≠ user_id user) then
           ret (fail HTTP_STATUS.FORBIDDEN ERROR_MESSAGES.TASK_NOT_ASSIGNED
                  "You can only stop tasks assigned to you")
         else
           task <- stopTimeTracking (default "" notes) task ;;
           ret (respond HTTP_STATUS.OK (Text "Task timer stopped successfully")
                  (TaskData (Some (doc task))))
     end)%js
    (fun error =>
       if includes "No active time tracking" (JsError.message error) then
         ret (fail HTTP_STATUS.BAD_REQUEST ERROR_MESSAGES.VALIDATION_ERROR
                (JsError.message error))
       else
         ret (fail HTTP_STATUS.INTERNAL_SERVER_ERROR ERROR_MESSAGES.SERVER_ERROR
                "Failed to stop task timer")).

Definition completeTask (user : User) (id : ObjectId) : M Response :=
  try_catch
    (task <- Task_findById id ;;
     match task with
     | None =>
         ret (fail HTTP_STATUS.NOT_FOUND ERROR_MESSAGES.TASK_NOT_FOUND
                "Task not found")
     | Some task =>
         if bool_decide (assignedTo (doc task) ≠ user_id user) then
           ret (fail HTTP_STATUS.FORBIDDEN ERROR_MESSAGES.TASK_NOT_ASSIGNED
                  "You can only complete tasks assigned to you")
         else
           task <- markAsCompleted (user_id user) task ;;
           ret (respond HTTP_STATUS.OK (Succ SUCCESS_MESSAGES.TASK_COMPLETED)
                  (TaskData (Some (doc task))))
     end)%js
    (fun _ =>
       ret (fail HTTP_STATUS.INTERNAL_SERVER_ERROR ERROR_MESSAGES.SERVER_ERROR
              "Failed to complete task")).

(** What [startDate ? new Date(startDate) : null] makes of the body:
    [null], a date, or the [Invalid Date] that [new Date] gives for a
    value it cannot read. *)
Inductive BodyDate :=
| NoDate
| InvalidDate
| ADate (d : Date).

(** The fields [createTask] takes from the sanitized body.
    - A title or a description that is absent counts as the empty
      string: the validator [required] refuses both alike.
    - [in_dueDate] is [new Date(dueDate)]: [None] stands for a value
      that is absent or that [new Date] cannot read.
    - [in_estimatedHours] is the number given, [None] when there is
      none: a number of a JSON body is a rational. *)
Record TaskInput := {
  in_title : string;
  in_description : string;
  in_assignedTo : ObjectId;
  in_dueDate : option Date;
  in_startDate : BodyDate;
  in_estimatedHours : option QArith_base.Q
}.

(** The two paths of the body that the record [Task] does not hold as
    given: a start date that is an [Invalid Date] fails the cast to
    [Date], and [estimatedHours] has the validator [min: 0]. The texts
    stand for the messages of Mongoose, which quote the value. *)
Definition cast_startDate (d : BodyDate) : list (string * string) :=
  match d with
  | InvalidDate => [("startDate", "Cast to date failed at path `startDate`")]
  | _ => []
  end.

Definition validate_estimatedHours (h : option QArith_base.Q)
    : list (string * string) :=
  match h with
  | Some q =>
      if QArith_base.Qle_bool (QArith_base.Qmake 0 1) q then []
      else [("estimatedHours",
             "Path `estimatedHours` is less than minimum allowed value (0).")]
  | None => []
  end.

(** A fresh [ObjectId] for [new Task(...)]. *)
Definition new_ObjectId : M ObjectId :=
  fun w => (Return (fresh (dom (tasks w))), w).

(** The title and the description are stored trimmed, their paths
    having [trim: true], and it is the trimmed value that [required] and
    [maxlength] see. The validation of [newTask.save()] covers the start
    date and the estimated hours of the body with the paths of the
    record. *)
Definition createTask (user : User) (input : TaskInput) : M Response :=
  try_catch
    (assignedUser <- User_findById (in_assignedTo input) ;;
     match assignedUser with
     | Some u =>
         if userIsActive u then
           id <- new_ObjectId ;;
           let taskData :=
             {| title := String_trim (in_title input);
                description := String_trim (in_description input);
                assignedTo := in_assignedTo input;
                assignedBy := user_id user;
                status := TASK_STATUS.PENDING;
                priority := None;
                dueDate := in_dueDate input;
                startDate :=
                  match in_startDate input with
                  | ADate d => Some d
                  | _ => None
                  end;
                completedDate := None;
                timeTracking :=
                  {| totalTimeSpent := 0; sessions := []; isActive := false;
                     currentSessionStart := None |};
                statusHistory := [];
                createdAt := 0 |} in
           newTask <-
             match cast_startDate (in_startDate input)
                   ++ validate_estimatedHours (in_estimatedHours input) with
             | [] => save (new_Task id taskData)
             | errs => throw (ValidationError (validate taskData ++ errs))
             end ;;
           ret (respond HTTP_STATUS.CREATED (Succ SUCCESS_MESSAGES.TASK_CREATED)
                  (TaskData (Some (doc newTask))))
         else
           ret (fail HTTP_STATUS.BAD_REQUEST ERROR_MESSAGES.VALIDATION_ERROR
                  "Invalid or inactive user assigned to task")
     | None =>
         ret (fail HTTP_STATUS.BAD_REQUEST ERROR_MESSAGES.VALIDATION_ERROR
                "Invalid or inactive user assigned to task")
     end)%js
    (fun error =>
       if bool_decide (JsError.name error = "ValidationError") then
         ret (fail_validation error)
       else
         ret (fail HTTP_STATUS.INTERNAL_SERVER_ERROR ERROR_MESSAGES.SERVER_ERROR
                "Failed to create task")).

(** ** What [res.json] sends

    A handler hands its answer to [res.json], and [JSON.stringify] calls
    [toJSON] on every task document in it. The schema has [toJSON: {
    virtuals: true }], so the getters of the virtuals run at that moment,
    in the order the virtuals are defined, and the task goes out with
    their values beside its paths. [Response] above is the answer as the
    handler builds it; [Sent] is what leaves.

    [isOverdue] and [daysUntilDue] take a [new Date()] each. The two
    numbers, [totalHoursSpent] and [daysUntilDue], which their getters
    round in floating point, are not followed. *)
Record TaskJSON := {
  json_paths : Task;            (* the paths, as they are in the document *)
  json_isOverdue : bool;
  json_isBeingTracked : bool
}.

Definition toJSON (t : Task) : M TaskJSON :=
  (now <- new_Date ;;           (* the getter of [isOverdue] *)
   _ <- new_Date ;;             (* the getter of [daysUntilDue] *)
   ret {| json_paths := t;
          json_isOverdue := isOverdue now t;
          json_isBeingTracked := isBeingTracked t |})%js.

Fixpoint toJSON_each (ts : list Task) : M (list TaskJSON) :=
  match ts with
  | [] => ret []
  | t :: ts' =>
      (j <- toJSON t ;;
       js <- toJSON_each ts' ;;
       ret (j :: js))%js
  end.

Inductive DataJSON :=
| NoDataJSON
| NullJSON
| TaskDataJSON (t : option TaskJSON)
| TasksDataJSON (ts : list TaskJSON) (p : Pagination).

Definition data_json (d : Data) : M DataJSON :=
  match d with
  | NoData => ret NoDataJSON
  | Null => ret NullJSON
  | TaskData None => ret (TaskDataJSON None)
  | TaskData (Some t) => (j <- toJSON t ;; ret (TaskDataJSON (Some j)))%js
  | TasksData ts p => (js <- toJSON_each ts ;; ret (TasksDataJSON js p))%js
  end.

Record Sent := {
  sent_statusCode : HTTP_STATUS.t;
  sent_success : bool;
  sent_message : Message;
  sent_error : option string;
  sent_errors : list (string * string);
  sent_data : DataJSON
}.

(** [res.status(r.statusCode).json(r)] *)
Definition res_json (r : Response) : M Sent :=
  (d <- data_json (data r) ;;
   ret {| sent_statusCode := statusCode r; sent_success := success r;
          sent_message := message r; sent_error := error r;
          sent_errors := errors r; sent_data := d |})%js.

(** ** More of [models/Task.js] and of the controller *)

(** *** [reassign] *)

(** [this.assignedTo = newAssigneeId; this.assignedBy = assignerId] *)
Definition with_assignment (newAssigneeId assignerId : ObjectId) (t : Task)
    : Task :=
  {| title := title t; description := description t;
     assignedTo := newAssigneeId; assignedBy := assignerId;
     status := status t; priority := priority t; dueDate := dueDate t;
     startDate := startDate t; completedDate := completedDate t;
     timeTracking := timeTracking t; statusHistory := statusHistory t;
     createdAt := createdAt t |}.

Definition reassign (newAssigneeId assignerId : ObjectId) (d : Doc) : M Doc :=
  save (set_modifiedBy assignerId
          (set_doc (with_assignment newAssigneeId assignerId) d)).

(** *** Static methods *)

(** The criteria [{ dueDate: { $lt: now }, status: { $nin: [COMPLETED,
    CANCELLED] } }]; a document without a due date does not match [$lt]. *)
Definition overdue_criteria (now : Date) (t : Task) : bool :=
  match dueDate t with
  | Some due => bool_decide (due < now)
  | None => false
  end
  && bool_decide (status t ∉ [TASK_STATUS.COMPLETED; TASK_STATUS.CANCELLED]).

(** [Task.find(criteria)] without sort, skip or limit. *)
Definition Task_find_where (criteria : Task -> bool) : M (list Task) :=
  fun w => (Return (List.filter criteria (map_to_list (tasks w)).*2), w).

(** [Task.countDocuments(criteria)] *)
Definition Task_count_where (criteria : Task -> bool) : M nat :=
  fun w =>
    (Return (length (List.filter criteria (map_to_list (tasks w)).*2)), w).

Definition findOverdueTasks : M (list Task) :=
  (now <- new_Date ;; Task_find_where (overdue_criteria now))%js.

Definition findActivelyTrackedTasks : M (list Task) :=
  Task_find_where (fun t => isActive (timeTracking t)).

(** [findByAssignee(userId, options)]: [opt_status] is [options.status] and
    [sort] is [options.sort], a path and whether it is descending; the
    default is [{ createdAt: -1 }]. *)
Definition findByAssignee
    (compare_at : string -> Task -> Task -> comparison)
    (userId : ObjectId) (opt_status : option TASK_STATUS.t)
    (sort : option (string * bool)) : M (list Task) :=
  let query :=
    {| f_status := opt_status; f_priority := None; f_assignedTo := Some userId;
       f_assignedBy := None; f_createdAt_gte := None;
       f_createdAt_lte := None; f_or := None |} in
  let '(path, desc) := default ("createdAt", true) sort in
  Task_find query (compare_at path) desc 0 0.

(** *** [getTaskStats] of the controller *)

(** [{ $group: { _id: key, count: { $sum: 1 } } }]: one group for each
    value of the key, with the number of documents that have it. *)
Fixpoint count_in {K} `{EqDecision K} (k : K) (groups : list (K * nat))
    : list (K * nat) :=
  match groups with
  | [] => [(k, 1%nat)]
  | (k', n) :: groups' =>
      if bool_decide (k' = k) then (k', S n) :: groups'
      else (k', n) :: count_in k groups'
  end.

Definition group_count {K} `{EqDecision K} (key : Task -> K) (l : list Task)
    : list (K * nat) :=
  foldl (fun groups t => count_in (key t) groups) [] l.

(** [acc[k] = v] on an object. *)
Fixpoint assign_key {K V} `{EqDecision K} (k : K) (v : V) (o : list (K * V))
    : list (K * V) :=
  match o with
  | [] => [(k, v)]
  | (k', v') :: o' =>
      if bool_decide (k' = k) then (k, v) :: o'
      else (k', v') :: assign_key k v o'
  end.

(** [stats.reduce((acc, stat) => { acc[stat._id] = stat.count; return acc
    }, {})], the key being the property name that [stat._id] gives. *)
Definition reduce_counts {K J} `{EqDecision J} (name : K -> J)
    (stats : list (K * nat)) : list (J * nat) :=
  foldl (fun acc stat => assign_key (name stat.1) stat.2 acc) [] stats.

(** [Task.aggregate([{ $match: filter }, { $group: ... }])] *)
Definition Task_aggregate_count {K} `{EqDecision K} (f : Filter)
    (key : Task -> K) : M (list (K * nat)) :=
  fun w =>
    (Return (group_count key
               (List.filter (matches f) (map_to_list (tasks w)).*2)), w).

Record Stats := {
  totalTasks : nat;
  byStatus : list (TASK_STATUS.t * nat);
  byPriority : list (string * nat);
  overdueTasks : nat;
  activeTimers : nat
}.

(** The envelope of [getTaskStats], whose data is [{ stats }]. *)
Record StatsResponse := {
  stats_statusCode : HTTP_STATUS.t;
  stats_success : bool;
  stats_message : Message;
  stats_error : option string;
  stats_data : option Stats
}.

(** [let filter = {}] *)
Definition empty_filter : Filter :=
  {| f_status := None; f_priority := None; f_assignedTo := None;
     f_assignedBy := None; f_createdAt_gte := None; f_createdAt_lte := None;
     f_or := None |}.

(** The property name of a priority: a document without the path groups
    under [null]. *)
Definition priority_name (p : option string) : string := default "null" p.

(** The role narrowing is the one of [getAllTasks], written out again in
    the source. *)
Definition getTaskStats (user : User) : M StatsResponse :=
  try_catch
    (let filter := role_filter user empty_filter in
     totalTasks <- Task_countDocuments filter ;;
     statusStats <- Task_aggregate_count filter status ;;
     priorityStats <- Task_aggregate_count filter priority ;;
     now <- new_Date ;;
     overdueTasks <-
       Task_count_where (fun t => matches filter t && overdue_criteria now t) ;;
     activeTimers <-
       Task_count_where
         (fun t => matches filter t && isActive (timeTracking t)) ;;
     ret {| stats_statusCode := HTTP_STATUS.OK; stats_success := true;
            stats_message := Text "Task statistics retrieved successfully";
            stats_error := None;
            stats_data :=
              Some {| totalTasks := totalTasks;
                      byStatus := reduce_counts id statusStats;
                      byPriority := reduce_counts priority_name priorityStats;
                      overdueTasks := overdueTasks;
                      activeTimers := activeTimers |} |})%js
    (fun _ =>
       ret {| stats_statusCode := HTTP_STATUS.INTERNAL_SERVER_ERROR;
              stats_success := false;
              stats_message := Err ERROR_MESSAGES.SERVER_ERROR;
              stats_error := Some "Failed to retrieve task statistics";
              stats_data := None |}).

(** *** Comments and watchers

    The record [Task] follows neither the [comments] nor the [watchers]
    of a document. A method that works on them is modelled on the
    document in memory together with its two arrays, as [findById] loaded
    them: what the method makes of the arrays is in the document it
    returns, and what its [save] makes of the followed paths is in the
    store. *)

Module Comment.
Record t := {
user : ObjectId;
message : option string;   (* [None]: undefined *)
timestamp : Date
}.
End Comment.

Record Annotated := {
  subject : Doc;
  comments : list Comment.t;
  watchers : list ObjectId
}.

(** The validators of the [message] of the comment at index [i]. *)
Definition validate_comment (i : nat) (c : Comment.t)
    : list (string * string) :=
  let path := "comments." +:+ pretty i +:+ ".message" in
  match Comment.message c with
  | Some s =>
      required_string path "Path `message` is required." 1000
        "Comment cannot exceed 1000 characters" s
  | None => [(path, "Path `message` is required.")]
  end.

(** [this.save()] on such a document: the validation covers the
    comments, the hooks and the write are those of [save]. The errors
    are listed with those of the followed paths first. *)
Definition save_annotated (a : Annotated) : M Annotated :=
  match concat (imap validate_comment (comments a)) with
  | [] =>
      (d <- save (subject a) ;;
       ret {| subject := d; comments := comments a;
              watchers := watchers a |})%js
  | errs => throw (ValidationError (validate (doc (subject a)) ++ errs))
  end.

Section Comments.
(** [String.prototype.trim], which the setter of [message] applies. The
  methods on comments are given for any function in its place;
  [String_trim] is the one of the runtime. *)
Context (trim : string -> string).

(** The instance method [addComment] *)
Definition addComment (userId : ObjectId) (message : option string)
  (a : Annotated) : M Annotated :=
(timestamp <- new_Date ;;
 save_annotated
   {| subject := subject a;
      comments := comments a ++
        [ {| Comment.user := userId; Comment.message := trim <$> message;
             Comment.timestamp := timestamp |} ];
      watchers := watchers a |})%js.
End Comments.

Definition addWatcher (userId : ObjectId) (a : Annotated) : M Annotated :=
  if negb (bool_decide (userId ∈ watchers a)) then
    save_annotated
      {| subject := subject a; comments := comments a;
         watchers := watchers a ++ [userId] |}
  else ret a.

Definition removeWatcher (userId : ObjectId) (a : Annotated) : M Annotated :=
  save_annotated
    {| subject := subject a; comments := comments a;
       watchers :=
         filter (fun watcherId => watcherId ≠ userId) (watchers a) |}.

(** The envelope of the handler [addComment], whose task carries its
    comments. *)
Record CommentResponse := {
  comment_statusCode : HTTP_STATUS.t;
  comment_success : bool;
  comment_message : Message;
  comment_error : option string;
  comment_data : option (Task * list Comment.t)
}.

Module TaskController.
Section Handler.
Context (trim : string -> string).

(** [stored_comments] and [stored_watchers] are the two arrays of the
  document that [findById] loads; [message] is [req.body.message]. *)
Definition addComment (user : User) (id : ObjectId) (message : option string)
  (stored_comments : list Comment.t) (stored_watchers : list ObjectId)
  : M CommentResponse :=
try_catch
  (task <- Task_findById id ;;
   match task with
   | None =>
       ret {| comment_statusCode := HTTP_STATUS.NOT_FOUND;
              comment_success := false;
              comment_message := Err ERROR_MESSAGES.TASK_NOT_FOUND;
              comment_error := Some "Task not found";
              comment_data := None |}
   | Some task =>
       if bool_decide (role user = USER_ROLES.EMPLOYEE)
          && bool_decide (assignedTo (doc task) ≠ user_id user)
       then
         ret {| comment_statusCode := HTTP_STATUS.FORBIDDEN;
                comment_success := false;
                comment_message :=
                  Err ERROR_MESSAGES.INSUFFICIENT_PERMISSIONS;
                comment_error :=
                  Some "You can only comment on your own tasks";
                comment_data := None |}
       else
         task <- addComment trim (user_id user) message
                   {| subject := task; comments := stored_comments;
                      watchers := stored_watchers |} ;;
         ret {| comment_statusCode := HTTP_STATUS.OK;
                comment_success := true;
                comment_message := Text "Comment added successfully";
                comment_error := None;
                comment_data :=
                  Some (doc (subject task), comments task) |}
   end)%js
  (fun _ =>
     ret {| comment_statusCode := HTTP_STATUS.INTERNAL_SERVER_ERROR;
            comment_success := false;
            comment_message := Err ERROR_MESSAGES.SERVER_ERROR;
            comment_error := Some "Failed to add comment";
            comment_data := None |}).
End Handler.
End TaskController.
(** ** The search criterion in the words of the specification *)

Definition lower (c : Ascii.ascii) : Ascii.ascii :=
  let n := Ascii.nat_of_ascii c in
  if bool_decide (65 <= n <= 90)%nat then Ascii.ascii_of_nat (n + 32) else c.

Fixpoint lowercase (s : string) : string :=
  match s with
  | EmptyString => EmptyString
  | String c s' => String (lower c) (lowercase s')
  end.

(** "case-insensitive substring match" *)
Definition ci_substring (needle s : string) : bool :=
  includes (lowercase needle) (lowercase s).

(** "free-text search over title/description ..., OR-combined" *)
Definition satisfies_search (search : string) (t : Task) : bool :=
  ci_substring search (title t) || ci_substring search (description t).

(** ** A concrete environment, for running the handlers

    [sanitizeInput] returns its argument, pagination is the usual one,
    a search string without metacharacters is a regular expression that
    matches itself, and an update of a path that the model does not follow
    leaves the followed paths as they are. *)
Definition plain_env : Externals :=
  {| sanitizeInput := fun b => b;
     validatePagination := fun page limit =>
       let p := Z.to_nat (Z.max 1 page) in
       let l := Z.to_nat (Z.max 1 limit) in
       (p, l, ((p - 1) * l)%nat);
     RegExp_i := fun s => Some (ci_substring s);
     castUpdate := fun _ _ t => inr t |}.

(** Documents ordered by [createdAt], whatever the path asked for. *)
Definition by_createdAt (_ : string) (a b : Task) : comparison :=
  createdAt a ?= createdAt b.

(** ** Sample data: one task, its assignee, its assigner and an administrator *)

Definition task7 (s : TASK_STATUS.t) (active : bool) (start : option Date)
    : Task :=
  {| title := "Quarterly report"; description := "Write it";
     assignedTo := 1%N; assignedBy := 2%N; status := s;
     priority := None; dueDate := Some 1000; startDate := None;
     completedDate := None;
     timeTracking :=
       {| totalTimeSpent := 0; sessions := []; isActive := active;
          currentSessionStart := start |};
     statusHistory := []; createdAt := 10 |}.

(** A plain employee, the assignee of [task7]. *)
Definition alice : User :=
  {| user_id := 1%N; role := USER_ROLES.EMPLOYEE; designation := "developer";
     userIsActive := true |}.

(** An employee with the project-manager designation, the assigner of
    [task7]. *)
Definition bob : User :=
  {| user_id := 2%N; role := USER_ROLES.EMPLOYEE;
     designation := "project_manager"; userIsActive := true |}.

(** Another employee with the project-manager designation, unrelated to
    [task7]. *)
Definition carol : User :=
  {| user_id := 3%N; role := USER_ROLES.EMPLOYEE;
     designation := "project_manager"; userIsActive := true |}.

Definition root : User :=
  {| user_id := 4%N; role := USER_ROLES.ADMIN; designation := "";
     userIsActive := true |}.

(** A store that holds [t] alone, under the id 7, with the clock at [now]
    and one millisecond between two readings. *)
Definition world_of (t : Task) (now : Date) : World :=
  {| tasks := {[ 7%N := t ]};
     users := {[ 1%N := alice; 2%N := bob; 3%N := carol; 4%N := root ]};
     clock := fun n => now + Z.of_nat n |}.

(** A listing request without any criterion. *)
Definition no_criteria : Query :=
  {| q_page := None; q_limit := None; q_status := None; q_priority := None;
     q_assignedTo := None; q_assignedBy := None; q_search := None;
     q_sortBy := None; q_sortOrder := None; q_startDate := None;
     q_endDate := None |}.

Definition with_search (s : string) (q : Query) : Query :=
  {| q_page := q_page q; q_limit := q_limit q; q_status := q_status q;
     q_priority := q_priority q; q_assignedTo := q_assignedTo q;
     q_assignedBy := q_assignedBy q; q_search := Some s;
     q_sortBy := q_sortBy q; q_sortOrder := q_sortOrder q;
     q_startDate := q_startDate q; q_endDate := q_endDate q |}.

(** A store without tasks. *)
Definition empty_world (now : Date) : World :=
  {| tasks := ∅;
     users := {[ 1%N := alice; 2%N := bob; 3%N := carol; 4%N := root ]};
     clock := fun n => now + Z.of_nat n |}.

(** The fields of a task for [alice], due at 1500. *)
Definition audit : TaskInput :=
  {| in_title := "Audit"; in_description := "Ledger of May";
     in_assignedTo := 1%N; in_dueDate := Some 1500; in_startDate := NoDate;
     in_estimatedHours := None |}.

(** The same with blanks around the title, a start date and an hour and
    a half of estimated work. *)
Definition padded_audit : TaskInput :=
  {| in_title := "  Audit "; in_description := "Ledger of May";
     in_assignedTo := 1%N; in_dueDate := Some 1500;
     in_startDate := ADate 1200;
     in_estimatedHours := Some (QArith_base.Qmake 3 2) |}.

(** A body whose title is blanks only. *)
Definition blank_audit : TaskInput :=
  {| in_title := "   "; in_description := "Ledger of May";
     in_assignedTo := 1%N; in_dueDate := Some 1500; in_startDate := NoDate;
     in_estimatedHours := None |}.


(** * Notions the properties are stated with *)

(** The world after one reading of the clock. *)
Definition tick (w : World) : World :=
  {| tasks := tasks w; users := users w; clock := fun n => clock w (S n) |}.

(** [c], run in [w], returns a value and a world that satisfy [Q]. *)
Definition returns {A} (c : M A) (w : World) (Q : A -> World -> Prop) : Prop :=
  exists a w', c w = (Return a, w') /\ Q a w'.

(** [w'] is [w] some readings of the clock later: same collections. *)
Definition later (w w' : World) : Prop :=
  tasks w' = tasks w /\ users w' = users w
  /\ exists k, forall n, clock w' n = clock w (k + n)%nat.

(** [now] is a reading of the clock of [w]. *)
Definition reading (w : World) (now : Date) : Prop :=
  exists k, now = clock w k.

(** The status that the overdue hook leaves, when it reads [now]. *)
Definition overdue_status (now : Date) (due : option Date) (s : TASK_STATUS.t)
    : TASK_STATUS.t :=
  match due with
  | Some d =>
      if bool_decide (d < now) then
        match s with
        | TASK_STATUS.COMPLETED | TASK_STATUS.CANCELLED => s
        | _ => TASK_STATUS.OVERDUE
        end
      else s
  | None => s
  end.

(** The status [startTimeTracking] assigns before it saves. *)
Definition promoted (s : TASK_STATUS.t) : TASK_STATUS.t :=
  if bool_decide (s = TASK_STATUS.PENDING) then TASK_STATUS.IN_PROGRESS else s.

(** The sum of the durations of the sessions. *)
Fixpoint sum_durations (l : list Session) : Z :=
  match l with
  | [] => 0
  | s :: l' => duration s + sum_durations l'
  end.

(** [totalTimeSpent] is the sum of the durations of the sessions. *)
Definition time_consistent (tt : TimeTracking) : Prop :=
  totalTimeSpent tt = sum_durations (sessions tt).

(** The entry that the history hook appends for [d] when it reads [at_]. *)
Definition history_entry (d : Doc) (at_ : Date) : StatusEntry.t :=
  {| StatusEntry.status := status (doc d);
     StatusEntry.changedBy := default (assignedBy (doc d)) (modifiedBy d);
     StatusEntry.changedAt := at_;
     StatusEntry.reason :=
       String_trim (or_string (statusChangeReason d) "Status updated") |}.

(** What [save] makes of [d] in [w]: the document [d'] it returns is
    written under its id in a world that is otherwise [w] some readings
    later, and differs from [d] in the paths the hooks set. *)
Definition save_post (d : Doc) (w : World) (d' : Doc) (w' : World) : Prop :=
  (exists w1, later w w1
              /\ w' = with_tasks (<[ _id d := doc d' ]> (tasks w1)) w1)
  /\ _id d' = _id d /\ isNew d' = false /\ status_modified d' = false
  /\ modifiedBy d' = modifiedBy d
  /\ title (doc d') = title (doc d)
  /\ description (doc d') = description (doc d)
  /\ assignedTo (doc d') = assignedTo (doc d)
  /\ assignedBy (doc d') = assignedBy (doc d)
  /\ dueDate (doc d') = dueDate (doc d)
  /\ (exists now,
        reading w now
        /\ status (doc d')
           = overdue_status now (dueDate (doc d)) (status (doc d)))
  /\ (if status_modified d && negb (isNew d)
      then exists at_,
             statusHistory (doc d')
             = statusHistory (doc d) ++ [history_entry d at_]
      else statusHistory (doc d') = statusHistory (doc d))
  /\ (is_Some (completedDate (doc d)) -> is_Some (completedDate (doc d')))
  /\ (status_modified d && negb (isNew d) = true ->
      status (doc d) = TASK_STATUS.COMPLETED ->
      is_Some (completedDate (doc d')))
  /\ (isActive (timeTracking (doc d)) = false
      \/ status (doc d) <> TASK_STATUS.COMPLETED
      \/ status_modified d && negb (isNew d) = false ->
      timeTracking (doc d') = timeTracking (doc d))
  /\ (time_consistent (timeTracking (doc d)) ->
      time_consistent (timeTracking (doc d'))).

(** A request that creates a task or drives its time tracker. *)
Inductive Request :=
| CreateRequest (user : User) (input : TaskInput)
| StartRequest (user : User) (id : ObjectId)
| StopRequest (user : User) (id : ObjectId) (notes : option string).

Definition handle (r : Request) : M Response :=
  match r with
  | CreateRequest user input => createTask user input
  | StartRequest user id => startTask user id
  | StopRequest user id notes => stopTask user id notes
  end.

(** The store after the requests [rs], handled one after the other. *)
Fixpoint handle_all (rs : list Request) (w : World) : World :=
  match rs with
  | [] => w
  | r :: rs' => handle_all rs' (handle r w).2
  end.

(** Every task of the store has the total of its sessions. *)
Definition store_consistent (w : World) : Prop :=
  forall id t, tasks w !! id = Some t -> time_consistent (timeTracking t).

(** What the schema asks of the fields of a new task: a title and a
    description that are not empty once trimmed and within their
    lengths, a due date, a start date that is a date if there is one, and
    estimated hours that are not negative if there are any. *)
Definition input_valid (input : TaskInput) : Prop :=
  String_trim (in_title input) <> ""
  /\ (String.length (String_trim (in_title input)) <= 200)%nat
  /\ String_trim (in_description input) <> ""
  /\ (String.length (String_trim (in_description input)) <= 2000)%nat
  /\ is_Some (in_dueDate input)
  /\ in_startDate input <> InvalidDate
  /\ (forall h, in_estimatedHours input = Some h ->
       QArith_base.Qle_bool (QArith_base.Qmake 0 1) h = true).

(** ** Requests over the life of a task, and what they keep *)

Inductive Lifecycle :=
| LCreate (user : User) (input : TaskInput)
| LStart (user : User) (id : ObjectId)
| LStop (user : User) (id : ObjectId) (notes : option string)
| LComplete (user : User) (id : ObjectId).

Definition serve (r : Lifecycle) : M Response :=
  match r with
  | LCreate user input => createTask user input
  | LStart user id => startTask user id
  | LStop user id notes => stopTask user id notes
  | LComplete user id => completeTask user id
  end.

(** The world after the requests [rs], served one after the other. *)
Fixpoint serve_all (rs : list Lifecycle) (w : World) : World :=
  match rs with
  | [] => w
  | r :: rs' => serve_all rs' (serve r w).2
  end.

(** A session runs exactly when its start is recorded. *)
Definition tracking_wf (tt : TimeTracking) : Prop :=
  isActive tt = true <-> is_Some (currentSessionStart tt).

(** A stored task as the schema and the methods leave it. *)
Definition task_wf (t : Task) : Prop :=
  validate t = []
  /\ tracking_wf (timeTracking t)
  /\ (status t = TASK_STATUS.COMPLETED <-> is_Some (completedDate t)).

Definition store_wf (w : World) : Prop :=
  forall id t, tasks w !! id = Some t -> task_wf t.

(** [t'] is [t] some requests later: the same identity, and everything
    recorded so far is still there. *)
Definition grown (t t' : Task) : Prop :=
  title t' = title t /\ description t' = description t
  /\ assignedTo t' = assignedTo t /\ assignedBy t' = assignedBy t
  /\ dueDate t' = dueDate t
  /\ statusHistory t `prefix_of` statusHistory t'
  /\ sessions (timeTracking t) `prefix_of` sessions (timeTracking t').

(** What a request about the task [id] may do to the collection: nothing,
    or put [t'] in the place of the task [t] stored under [id]. *)
Definition touches (id : ObjectId) (R : Task -> Task -> Prop) (w w' : World)
    : Prop :=
  users w' = users w
  /\ (tasks w' = tasks w
      \/ exists t t', tasks w !! id = Some t
                      /\ tasks w' = <[ id := t' ]> (tasks w) /\ R t t').

(** What the requests keep of a task. *)
Definition kept (t t' : Task) : Prop :=
  grown t t'
  /\ (task_wf t -> task_wf t')
  /\ (status t = TASK_STATUS.COMPLETED -> status t' = TASK_STATUS.COMPLETED).

(** The comments pass the validators of their schema. *)
Definition comments_valid (cs : list Comment.t) : Prop :=
  concat (imap validate_comment cs) = [].

(** An environment like [plain_env] whose [RegExp] refuses the pattern
    that is an opening parenthesis alone. *)
Definition strict_env : Externals :=
  {| sanitizeInput := sanitizeInput (Externals := plain_env);
     validatePagination := validatePagination (Externals := plain_env);
     RegExp_i := fun s =>
       if bool_decide (s = "(") then None else Some (ci_substring s);
     castUpdate := castUpdate (Externals := plain_env) |}.


(** * Properties *)

(** ** Running the monad *)

Lemma new_Date_run w : new_Date w = (Return (clock w 0%nat), tick w).
Proof. reflexivity. Qed.

Lemma findById_run id w :
  Task_findById id w = (Return (hydrate id <$> tasks w !! id), w).
Proof. reflexivity. Qed.

Lemma tasks_tick w : tasks (tick w) = tasks w.
Proof. reflexivity. Qed.

Lemma returns_ret {A} (a : A) w (Q : A -> World -> Prop) :
  Q a w -> returns (ret a) w Q.
Proof. intros HQ. exists a, w. split; [reflexivity | exact HQ]. Qed.

Lemma returns_bind {A B} (c : M A) (k : A -> M B) w (Q : B -> World -> Prop) :
  returns c w (fun a w' => returns (k a) w' Q) -> returns (bind c k) w Q.
Proof.
  intros (a & w' & Hc & b & w'' & Hk & HQ).
  exists b, w''. split; [| exact HQ]. unfold bind. rewrite Hc. exact Hk.
Qed.

Lemma returns_new_Date w (Q : Date -> World -> Prop) :
  Q (clock w 0%nat) (tick w) -> returns new_Date w Q.
Proof. intros HQ. eexists _, _. split; [apply new_Date_run | exact HQ]. Qed.

Lemma returns_weaken {A} (c : M A) w (P Q : A -> World -> Prop) :
  returns c w P -> (forall a w', P a w' -> Q a w') -> returns c w Q.
Proof. intros (a & w' & Hc & HP) HPQ. exists a, w'. split; [exact Hc | auto]. Qed.

Lemma returns_try_catch {A} (c : M A) h w (Q : A -> World -> Prop) :
  returns c w Q -> returns (try_catch c h) w Q.
Proof.
  intros (a & w' & Hc & HQ). exists a, w'. split; [| exact HQ].
  unfold try_catch. rewrite Hc. reflexivity.
Qed.

Lemma returns_findById {B} id w (k : option Doc -> M B) (Q : B -> World -> Prop) :
  returns (k (hydrate id <$> tasks w !! id)) w Q ->
  returns (bind (Task_findById id) k) w Q.
Proof. intros H. apply returns_bind. eexists _, _. split; [reflexivity | exact H]. Qed.

Lemma later_refl w : later w w.
Proof. repeat split. exists 0%nat. reflexivity. Qed.

Lemma later_tick w : later w (tick w).
Proof. repeat split. exists 1%nat. reflexivity. Qed.

Lemma later_trans w1 w2 w3 : later w1 w2 -> later w2 w3 -> later w1 w3.
Proof.
  intros (Ht1 & Hu1 & k1 & Hk1) (Ht2 & Hu2 & k2 & Hk2).
  split; [congruence |]. split; [congruence |].
  exists (k1 + k2)%nat. intros n. rewrite Hk2, Hk1. f_equal. lia.
Qed.

Lemma reading_later w w' now : later w w' -> reading w' now -> reading w now.
Proof. intros (_ & _ & k & Hk) (n & ->). exists (k + n)%nat. apply Hk. Qed.

Lemma reading_now w : reading w (clock w 0%nat).
Proof. exists 0%nat. reflexivity. Qed.

Create HintDb js.
#[local] Hint Resolve later_refl later_tick reading_now : js.

(** Unfold the field updates of a task down to its record. *)
Ltac task_norm :=
  cbv [with_status with_statusHistory with_completedDate with_startDate
       with_timeTracking with_createdAt
       title description assignedTo assignedBy status priority dueDate
       startDate completedDate timeTracking statusHistory createdAt].

Ltac step :=
  first [ apply returns_bind | apply returns_new_Date | apply returns_ret ];
  cbn beta zeta.

(** ** Assignment to [status] *)

Lemma with_status_same t : with_status (status t) t = t.
Proof. destruct t; reflexivity. Qed.

Lemma set_status_doc s d : doc (set_status s d) = with_status s (doc d).
Proof.
  unfold set_status. case_bool_decide as Hs; [| reflexivity].
  rewrite <- Hs. symmetry. apply with_status_same.
Qed.

Lemma set_status_flags s d :
  _id (set_status s d) = _id d
  /\ isNew (set_status s d) = isNew d
  /\ modifiedBy (set_status s d) = modifiedBy d
  /\ statusChangeReason (set_status s d) = statusChangeReason d
  /\ status_modified (set_status s d)
     = status_modified d || bool_decide (status (doc d) <> s).
Proof.
  unfold set_status. case_bool_decide as Hs; simpl; repeat split.
  - rewrite bool_decide_eq_false_2 by (intros Hn; apply Hn, Hs).
    symmetry. apply orb_false_r.
  - rewrite bool_decide_eq_true_2 by exact Hs. symmetry. apply orb_true_r.
Qed.

(** ** The overdue hook *)

Lemma overdue_status_terminal now due s :
  s = TASK_STATUS.COMPLETED \/ s = TASK_STATUS.CANCELLED ->
  overdue_status now due s = s.
Proof.
  intros [-> | ->]; unfold overdue_status; destruct due; try reflexivity;
    destruct (bool_decide _); reflexivity.
Qed.

Lemma overdue_status_completed now due :
  overdue_status now due TASK_STATUS.COMPLETED = TASK_STATUS.COMPLETED.
Proof. apply overdue_status_terminal. left. reflexivity. Qed.

Lemma overdue_status_past now due s :
  due < now -> s <> TASK_STATUS.COMPLETED -> s <> TASK_STATUS.CANCELLED ->
  overdue_status now (Some due) s = TASK_STATUS.OVERDUE.
Proof.
  intros Hlt Hc Hx. unfold overdue_status.
  rewrite bool_decide_eq_true_2 by exact Hlt.
  destruct s; congruence.
Qed.

Lemma pre_save_overdue_spec d w :
  returns (pre_save_overdue d) w (fun d' w' =>
    later w w'
    /\ _id d' = _id d /\ isNew d' = isNew d /\ modifiedBy d' = modifiedBy d
    /\ exists now, reading w now
       /\ doc d' = with_status
                     (overdue_status now (dueDate (doc d)) (status (doc d)))
                     (doc d)).
Proof.
  unfold pre_save_overdue, overdue_status.
  destruct (dueDate (doc d)) as [due |].
  - apply returns_bind, returns_new_Date.
    destruct (bool_decide (due < clock w 0%nat)) eqn:Hlt.
    + destruct (status (doc d)) eqn:Hs; simpl; apply returns_ret;
        (split; [auto with js |]);
        rewrite ?(proj1 (set_status_flags _ _)),
                ?(proj1 (proj2 (set_status_flags _ _))),
                ?(proj1 (proj2 (proj2 (set_status_flags _ _))));
        do 3 (split; [reflexivity |]);
        exists (clock w 0%nat); (split; [auto with js |]);
        rewrite Hlt, ?set_status_doc, <- ?Hs, ?with_status_same; reflexivity.
    + simpl. apply returns_ret. split; [auto with js |].
      do 3 (split; [reflexivity |]).
      exists (clock w 0%nat). split; [auto with js |].
      rewrite Hlt, with_status_same. reflexivity.
  - apply returns_ret. split; [auto with js |].
    do 3 (split; [reflexivity |]).
    exists (clock w 0%nat). split; [auto with js |].
    rewrite with_status_same. reflexivity.
Qed.

(** ** The history hook *)

Lemma sum_durations_app l1 l2 :
  sum_durations (l1 ++ l2) = sum_durations l1 + sum_durations l2.
Proof.
  induction l1 as [| s l1 IH]; simpl; [reflexivity |].
  rewrite IH. lia.
Qed.

Lemma stop_session_consistent notes now tt :
  time_consistent tt -> time_consistent (stop_session notes now tt).
Proof.
  unfold time_consistent, stop_session. simpl. intros ->.
  rewrite sum_durations_app. simpl. lia.
Qed.

Lemma pre_save_history_spec d w :
  returns (pre_save_history d) w (fun d' w' =>
    later w w'
    /\ _id d' = _id d
    /\ isNew d' = isNew d /\ status_modified d' = status_modified d
    /\ modifiedBy d' = modifiedBy d
    /\ exists h c s tt,
         doc d' = with_statusHistory h
                    (with_completedDate c
                       (with_startDate s (with_timeTracking tt (doc d))))
         /\ (if status_modified d && negb (isNew d)
             then exists at_, h = statusHistory (doc d) ++ [history_entry d at_]
             else h = statusHistory (doc d))
         /\ (is_Some (completedDate (doc d)) -> is_Some c)
         /\ (status_modified d && negb (isNew d) = true ->
             status (doc d) = TASK_STATUS.COMPLETED -> is_Some c)
         /\ (isActive (timeTracking (doc d)) = false
             \/ status (doc d) <> TASK_STATUS.COMPLETED
             \/ status_modified d && negb (isNew d) = false ->
             tt = timeTracking (doc d))
         /\ (time_consistent (timeTracking (doc d)) -> time_consistent tt)).
Proof.
  unfold pre_save_history.
  destruct d as [i t new md mb scr].
  destruct t as [ti de at_ ab s pr du sd cd tt hist cr].
  cbn [_id doc isNew status_modified modifiedBy statusChangeReason].
  destruct (md && negb new) eqn:Hmod.
  - destruct s, (isActive tt) eqn:Hact, sd as [sd |];
      unfold stopTimeTracking_sync;
      cbn -[stop_session]; try rewrite Hact;
      repeat (step; cbn -[stop_session]); try rewrite Hact; 
      repeat (step; cbn -[stop_session]).
    all: split; [eauto 6 using later_trans with js |].
    all: do 4 (split; [reflexivity |]).
    all: eexists _, _, _, _; split; [task_norm; reflexivity |].
    all: split; [eexists; reflexivity |].
    all: repeat split; eauto using stop_session_consistent; try discriminate.
    all: intros [Hf | [Hf | Hf]]; congruence.
  - step. split; [auto with js |]. do 4 (split; [reflexivity |]).
    exists hist, cd, sd, tt. repeat split; auto; discriminate.
Qed.

Lemma timestamps_spec d w :
  returns (timestamps d) w (fun d' w' =>
    later w w'
    /\ _id d' = _id d
    /\ isNew d' = isNew d /\ status_modified d' = status_modified d
    /\ modifiedBy d' = modifiedBy d
    /\ statusChangeReason d' = statusChangeReason d
    /\ exists cr, doc d' = with_createdAt cr (doc d)
                  /\ (isNew d = false -> cr = createdAt (doc d))).
Proof.
  unfold timestamps. destruct d as [i t new md mb scr]. destruct t.
  destruct new; cbn [isNew]; repeat step;
    (split; [auto with js |]); do 5 (split; [reflexivity |]);
    eexists; (split; [task_norm; reflexivity |]); [discriminate | reflexivity].
Qed.

(** ** Schema validation looks at four paths only *)

Lemma validate_indep (t t' : Task) :
  title t = title t' -> description t = description t' ->
  dueDate t = dueDate t' ->
  sessions (timeTracking t) = sessions (timeTracking t') ->
  validate t = validate t'.
Proof.
  intros H1 H2 H3 H4. unfold validate. rewrite H1, H2, H3, H4. reflexivity.
Qed.

Lemma validate_stop_session t notes now cs :
  validate t = [] ->
  currentSessionStart (timeTracking t) = Some cs ->
  validate (with_timeTracking (stop_session notes now (timeTracking t)) t) = [].
Proof.
  unfold validate. intros Hv Hcs.
  apply app_eq_nil in Hv as [H1 Hv]. apply app_eq_nil in Hv as [H2 Hv].
  apply app_eq_nil in Hv as [H3 H4].
  cbn [title description dueDate timeTracking with_timeTracking sessions
       stop_session].
  rewrite H1, H2, H3, fmap_app, concat_app, H4, Hcs. reflexivity.
Qed.

Lemma required_string_ok path msg max msg_max s :
  s <> "" -> (String.length s <= max)%nat ->
  required_string path msg max msg_max s = [].
Proof.
  intros Hne Hlen. unfold required_string.
  rewrite bool_decide_eq_false_2 by exact Hne.
  rewrite bool_decide_eq_false_2 by lia. reflexivity.
Qed.

(** ** [save] *)

Lemma history_entry_createdAt d d' at_ :
  doc d' = doc d \/ (exists cr, doc d' = with_createdAt cr (doc d)) ->
  modifiedBy d' = modifiedBy d ->
  statusChangeReason d' = statusChangeReason d ->
  history_entry d' at_ = history_entry d at_.
Proof.
  intros Hd Hm Hr. unfold history_entry. rewrite Hm, Hr.
  destruct Hd as [-> | [cr ->]]; reflexivity.
Qed.

Lemma save_spec d w :
  validate (doc d) = [] -> returns (save d) w (save_post d w).
Proof.
  intros Hv. unfold save. rewrite Hv.
  apply returns_bind.
  eapply returns_weaken; [apply timestamps_spec |].
  intros d0 w0 (Hl0 & Hi0 & Hn0 & Hm0 & Hb0 & Hr0 & cr & Hd0 & Hcr). cbn beta.
  apply returns_bind.
  eapply returns_weaken; [apply pre_save_history_spec |].
  intros d1 w1 (Hl1 & Hi1 & Hn1 & Hm1 & Hb1 & h & c & s & tt & Hd1 & Hh & Hc & Hc' & Htt & Hcons).
  cbn beta. apply returns_bind.
  eapply returns_weaken; [apply pre_save_overdue_spec |].
  intros d2 w2 (Hl2 & Hi2 & Hn2 & Hb2 & now & Hnow & Hd2). cbn beta.
  unfold persist. eexists _, _. split; [reflexivity |].
  assert (Hid : _id d2 = _id d) by congruence.
  split.
  { exists w2. split; [eauto using later_trans |].
    cbn [doc saved]. rewrite Hid. reflexivity. }
  split; [exact Hid |].
  split; [reflexivity |]. split; [reflexivity |].
  split; [cbn [modifiedBy saved]; congruence |].
  assert (Hd : doc (saved d2)
               = with_status (overdue_status now (dueDate (doc d)) (status (doc d)))
                   (with_statusHistory h
                      (with_completedDate c
                         (with_startDate s
                            (with_timeTracking tt (with_createdAt cr (doc d))))))).
  { cbn [doc saved]. rewrite Hd2, Hd1, Hd0. destruct (doc d); reflexivity. }
  rewrite Hm0, Hn0 in Hh, Hc', Htt.
  rewrite Hd0 in Hh, Hc, Hc', Htt, Hcons.
  cbn [with_createdAt status timeTracking completedDate statusHistory]
    in Hh, Hc, Hc', Htt, Hcons.
  rewrite Hd.
  do 5 (split; [reflexivity |]).
  split. { exists now. split; [eauto using reading_later, later_trans | reflexivity]. }
  split.
  { destruct (status_modified d && negb (isNew d)); [| exact Hh].
    destruct Hh as [at_ Hh]. exists at_. cbn [statusHistory with_status with_statusHistory].
    rewrite Hh. f_equal. f_equal. apply history_entry_createdAt; eauto. }
  repeat split; auto.
Qed.

Lemma save_overdue d w due :
  validate (doc d) = [] ->
  dueDate (doc d) = Some due ->
  (forall k, due < clock w k) ->
  status (doc d) <> TASK_STATUS.COMPLETED ->
  status (doc d) <> TASK_STATUS.CANCELLED ->
  exists d' w',
    save d w = (Return d', w')
    /\ status (doc d') = TASK_STATUS.OVERDUE
    /\ tasks w' !! _id d = Some (doc d')
    /\ users w' = users w
    /\ assignedTo (doc d') = assignedTo (doc d)
    /\ dueDate (doc d') = Some due
    /\ exists k, forall n, clock w' n = clock w (k + n)%nat.
Proof.
  intros Hv Hdue Hclock Hc Hx.
  destruct (save_spec d w Hv) as (d' & w' & Hrun & (w1 & Hl & ->) & _ & _ & _ & _ & _ & _ &
    Hat & _ & Hdd & (now & [k ->] & Hst) & _).
  exists d', (with_tasks (<[ _id d := doc d' ]> (tasks w1)) w1).
  split; [exact Hrun |]. split; [| split; [| split; [| split; [| split]]]].
  - rewrite Hst, Hdue. apply overdue_status_past; auto.
  - apply lookup_insert_eq.
  - apply Hl.
  - exact Hat.
  - rewrite Hdd. exact Hdue.
  - destruct Hl as (_ & _ & Hk). exact Hk.
Qed.

Lemma save_store d w :
  time_consistent (timeTracking (doc d)) ->
  store_consistent w -> store_consistent (save d w).2.
Proof.
  intros Hd Hw. destruct (validate (doc d)) eqn:Hv.
  - destruct (save_spec d w Hv) as (d' & w' & Hrun & (w1 & (Ht1 & _) & ->) & Hpost).
    rewrite Hrun. cbn [snd]. intros id t. cbn [tasks with_tasks]. rewrite Ht1.
    intros Hlk. apply lookup_insert_Some in Hlk as [[_ <-] | [_ Hlk]].
    + apply Hpost, Hd.
    + eapply Hw, Hlk.
  - unfold save. rewrite Hv. exact Hw.
Qed.

(** ** Start *)

(** C4: on a task whose [timeTracking.isActive] is true, [startTask] by
    the assignee answers 400 with [TASK_ALREADY_STARTED] and the message of
    the error thrown by [startTimeTracking], and the world after the call
    is the world before it: the stored task, hence its sessions, its
    [totalTimeSpent], [isActive] and [currentSessionStart], is the same. *)
Theorem start_when_active_conflict (user : User) (id : ObjectId) (t : Task)
    (w : World) :
  tasks w !! id = Some t ->
  assignedTo t = user_id user ->
  isActive (timeTracking t) = true ->
  exists res,
    startTask user id w = (Return res, w)
    /\ statusCode res = HTTP_STATUS.BAD_REQUEST
    /\ HTTP_STATUS.code (statusCode res) = 400
    /\ success res = false
    /\ message res = Err ERROR_MESSAGES.TASK_ALREADY_STARTED
    /\ error res = Some "Time tracking is already active for this task"
    /\ tasks w !! id = Some t.
Proof.
  intros Ht Ha Hact.
  eexists. split.
  - unfold startTask, try_catch, bind. rewrite findById_run, Ht. simpl.
    rewrite bool_decide_eq_false_2 by (intros Hne; apply Hne; exact Ha).
    unfold startTimeTracking. simpl. rewrite Hact. reflexivity.
  - repeat split; try reflexivity. exact Ht.
Qed.

Lemma start_when_active_conflict_witness :
  exists res,
    startTask alice 7%N (world_of (task7 TASK_STATUS.IN_PROGRESS true (Some 5)) 50)
    = (Return res, world_of (task7 TASK_STATUS.IN_PROGRESS true (Some 5)) 50)
    /\ HTTP_STATUS.code (statusCode res) = 400.
Proof.
  destruct (start_when_active_conflict alice 7%N
              (task7 TASK_STATUS.IN_PROGRESS true (Some 5))
              (world_of (task7 TASK_STATUS.IN_PROGRESS true (Some 5)) 50))
    as (res & Hrun & _ & Hcode & _).
  - reflexivity.
  - reflexivity.
  - reflexivity.
  - exists res. split; [exact Hrun | exact Hcode].
Defined.

(** C10, as the code has it: [startTask] by the assignee on a stored,
    schema-valid task that is not being tracked succeeds whatever the
    status, terminal ones included; it sets [isActive] and puts the first
    reading of the clock in [currentSessionStart]. The status it stores is
    the one [startTimeTracking] assigns ([IN_PROGRESS] for [PENDING], the
    same status otherwise) as the overdue hook of [save] then leaves it:
    [OVERDUE] when the due date is before the reading the hook takes and
    the status is neither [COMPLETED] nor [CANCELLED]. A terminal status is
    therefore always kept. *)
Theorem start_ignores_status (user : User) (id : ObjectId) (t : Task)
    (w : World) :
  tasks w !! id = Some t ->
  assignedTo t = user_id user ->
  isActive (timeTracking t) = false ->
  validate t = [] ->
  exists res w',
    startTask user id w = (Return res, w')
    /\ exists t',
         statusCode res = HTTP_STATUS.OK
         /\ data res = TaskData (Some t')
         /\ tasks w' !! id = Some t'
         /\ isActive (timeTracking t') = true
         /\ currentSessionStart (timeTracking t') = Some (clock w 0%nat)
         /\ (exists now,
               reading w now
               /\ status t' = overdue_status now (dueDate t) (promoted (status t)))
         /\ (status t = TASK_STATUS.COMPLETED \/ status t = TASK_STATUS.CANCELLED ->
             status t' = status t).
Proof.
  intros Ht Ha Hact Hv.
  change (returns (startTask user id) w (fun res w' => exists t',
         statusCode res = HTTP_STATUS.OK
         /\ data res = TaskData (Some t')
         /\ tasks w' !! id = Some t'
         /\ isActive (timeTracking t') = true
         /\ currentSessionStart (timeTracking t') = Some (clock w 0%nat)
         /\ (exists now,
               reading w now
               /\ status t' = overdue_status now (dueDate t) (promoted (status t)))
         /\ (status t = TASK_STATUS.COMPLETED \/ status t = TASK_STATUS.CANCELLED ->
             status t' = status t))).
  unfold startTask. apply returns_try_catch, returns_findById.
  rewrite Ht. cbn [fmap option_fmap option_map].
  rewrite bool_decide_eq_false_2 by (intros Hne; apply Hne; exact Ha).
  apply returns_bind. unfold startTimeTracking.
  cbn [doc hydrate]. rewrite Hact. step. step.
  set (d1 := set_doc _ (hydrate id t)).
  set (d2 := if bool_decide (status (doc d1) = TASK_STATUS.PENDING)
             then set_status TASK_STATUS.IN_PROGRESS d1 else d1).
  assert (Hd2 : doc d2 = with_status (promoted (status t)) (doc d1)).
  { unfold d2, promoted. cbn [d1 doc set_doc hydrate status with_timeTracking].
    destruct (bool_decide (status t = TASK_STATUS.PENDING));
      [apply set_status_doc |].
    destruct t; reflexivity. }
  assert (Hi2 : _id d2 = id).
  { unfold d2. destruct (bool_decide _); [| reflexivity].
    rewrite (proj1 (set_status_flags _ _)). reflexivity. }
  eapply returns_weaken.
  { apply save_spec. rewrite Hd2, <- Hv. apply validate_indep; reflexivity. }
  intros d' w' ((w1 & Hl & ->) & Hi & _ & _ & _ & _ & _ & _ & _ & _ &
                (now & Hnow & Hst) & _ & _ & _ & Htt & _).
  step. exists (doc d'). rewrite Hi2.
  rewrite Hd2 in Hst, Htt.
  cbn [d1 doc set_doc hydrate status with_timeTracking with_status timeTracking
       isActive dueDate] in Hst, Htt.
  assert (Hsame : timeTracking (doc d')
                  = {| totalTimeSpent := totalTimeSpent (timeTracking t);
                       sessions := sessions (timeTracking t);
                       isActive := true;
                       currentSessionStart := Some (clock w 0%nat) |}).
  { apply Htt. unfold promoted, d2.
    destruct (status t) eqn:Hs; cbn [d1 doc set_doc hydrate status with_timeTracking];
      rewrite Hs; try (right; left; discriminate).
    right. right. reflexivity. }
  split; [reflexivity |]. split; [reflexivity |].
  split; [apply lookup_insert_eq |].
  rewrite Hsame. split; [reflexivity |]. split; [reflexivity |].
  split.
  - exists now. split; [| exact Hst].
    eapply reading_later; [apply later_tick | exact Hnow].
  - intros Hterm. rewrite Hst.
    assert (Hp : promoted (status t) = status t)
      by (unfold promoted; destruct Hterm as [-> | ->]; reflexivity).
    rewrite Hp. apply overdue_status_terminal. exact Hterm.
Qed.

Lemma start_ignores_status_witness :
  exists res w' t',
    startTask alice 7%N (world_of (task7 TASK_STATUS.COMPLETED false None) 50)
    = (Return res, w')
    /\ tasks w' !! 7%N = Some t'
    /\ isActive (timeTracking t') = true
    /\ status t' = TASK_STATUS.COMPLETED.
Proof.
  destruct (start_ignores_status alice 7%N
              (task7 TASK_STATUS.COMPLETED false None)
              (world_of (task7 TASK_STATUS.COMPLETED false None) 50))
    as (res & w' & Hrun & t' & _ & _ & Hlk & Hact & _ & _ & Hterm).
  - reflexivity.
  - reflexivity.
  - reflexivity.
  - reflexivity.
  - exists res, w', t'. repeat split; try assumption.
    apply Hterm. left. reflexivity.
Defined.

(** C10 as it is worded fails: a task in progress whose due date has
    passed, not tracked at the moment, is started by its assignee; its
    status was not [PENDING], and yet the stored status changes, to
    [OVERDUE]. *)
Lemma start_can_store_overdue :
  let t := task7 TASK_STATUS.IN_PROGRESS false None in
  let w := world_of t 2000 in
  tasks w !! 7%N = Some t
  /\ assignedTo t = user_id alice
  /\ isActive (timeTracking t) = false
  /\ status t = TASK_STATUS.IN_PROGRESS
  /\ dueDate t = Some 1000
  /\ clock w 0%nat = 2000
  /\ status <$> tasks (startTask alice 7%N w).2 !! 7%N
     = Some TASK_STATUS.OVERDUE.
Proof. cbv zeta. repeat split. Qed.

(** ** Stop, and the total of the sessions *)

Lemma store_consistent_tick w : store_consistent w -> store_consistent (tick w).
Proof. intros H. exact H. Qed.

Lemma startTask_store user id w :
  store_consistent w -> store_consistent (startTask user id w).2.
Proof.
  intros Hw. unfold startTask, try_catch, bind. rewrite findById_run.
  destruct (tasks w !! id) as [t |] eqn:Ht; [| exact Hw].
  cbn [fmap option_fmap option_map].
  destruct (bool_decide (assignedTo (doc (hydrate id t)) ≠ user_id user));
    [exact Hw |].
  unfold startTimeTracking. cbn [doc hydrate].
  destruct (isActive (timeTracking t)) eqn:Hact.
  - cbn. exact Hw.
  - unfold bind. rewrite new_Date_run.
    match goal with
    | |- context [save ?d (tick w)] =>
        pose proof (save_store d (tick w)) as Hs;
        destruct (save d (tick w)) as [[a | e] w'] eqn:Hrun
    end.
    + apply Hs; [| exact Hw].
      destruct (bool_decide _); rewrite ?set_status_doc; apply (Hw id t Ht).
    + cbn [snd] in *. destruct (includes _ _); apply Hs; try exact Hw;
        destruct (bool_decide _); rewrite ?set_status_doc; apply (Hw id t Ht).
Qed.

Lemma stopTask_store user id notes w :
  store_consistent w -> store_consistent (stopTask user id notes w).2.
Proof.
  intros Hw. unfold stopTask, try_catch, bind. rewrite findById_run.
  destruct (tasks w !! id) as [t |] eqn:Ht; [| exact Hw].
  cbn [fmap option_fmap option_map].
  destruct (bool_decide (assignedTo (doc (hydrate id t)) ≠ user_id user));
    [exact Hw |].
  unfold stopTimeTracking, stopTimeTracking_sync, bind. cbn [doc hydrate].
  destruct (isActive (timeTracking t)) eqn:Hact; cbn [negb].
  - rewrite new_Date_run. unfold ret.
    match goal with
    | |- context [save ?d (tick w)] =>
        pose proof (save_store d (tick w)) as Hs;
        destruct (save d (tick w)) as [[a | e] w'] eqn:Hrun
    end.
    + apply Hs; [| exact Hw]. apply stop_session_consistent, (Hw id t Ht).
    + cbn [snd] in *. destruct (includes _ _); apply Hs; try exact Hw;
        apply stop_session_consistent, (Hw id t Ht).
  - cbn. exact Hw.
Qed.

Lemma createTask_store user input w :
  store_consistent w -> store_consistent (createTask user input w).2.
Proof.
  intros Hw. unfold createTask, try_catch, bind, User_findById.
  destruct (users w !! in_assignedTo input) as [u |]; [| exact Hw].
  destruct (userIsActive u); [| exact Hw].
  unfold new_ObjectId.
  destruct (cast_startDate _ ++ validate_estimatedHours _);
    [| unfold throw; destruct (bool_decide _); exact Hw].
  match goal with
  | |- context [save ?d w] =>
      pose proof (save_store d w) as Hs;
      destruct (save d w) as [[a | e] w'] eqn:Hrun
  end.
  - apply Hs; [reflexivity | exact Hw].
  - cbn [snd] in *. destruct (bool_decide _); apply Hs; try exact Hw; reflexivity.
Qed.

Lemma handle_all_store rs : forall w,
  store_consistent w -> store_consistent (handle_all rs w).
Proof.
  induction rs as [| r rs IH]; intros w Hw; [exact Hw |].
  cbn [handle_all]. apply IH.
  destruct r;
    [apply createTask_store | apply startTask_store | apply stopTask_store];
    exact Hw.
Qed.

Lemma stopTask_appends_session user id notes t cs w :
  tasks w !! id = Some t ->
  assignedTo t = user_id user ->
  isActive (timeTracking t) = true ->
  currentSessionStart (timeTracking t) = Some cs ->
  validate t = [] ->
  exists res w',
    stopTask user id notes w = (Return res, w')
    /\ exists t',
         statusCode res = HTTP_STATUS.OK
         /\ data res = TaskData (Some t')
         /\ tasks w' !! id = Some t'
         /\ timeTracking t'
            = {| totalTimeSpent :=
                   totalTimeSpent (timeTracking t) + (clock w 0%nat - cs);
                 sessions := sessions (timeTracking t) ++
                   [ {| startTime := Some cs;
                        endTime := Some (clock w 0%nat);
                        duration := clock w 0%nat - cs;
                        notes := String_trim (default "" notes) |} ];
                 isActive := false;
                 currentSessionStart := None |}.
Proof.
  intros Ht Ha Hact Hcs Hv.
  apply (returns_try_catch _ _ w (fun res w' => _)), returns_findById.
  rewrite Ht. cbn [fmap option_fmap option_map].
  rewrite bool_decide_eq_false_2 by (intros Hne; apply Hne; exact Ha).
  apply returns_bind. unfold stopTimeTracking, stopTimeTracking_sync.
  cbn [doc hydrate]. rewrite Hact. cbn [negb]. do 4 step.
  eapply returns_weaken.
  { apply save_spec. cbn [doc set_doc hydrate]. eapply validate_stop_session; eassumption. }
  intros d' w' ((w1 & Hl & ->) & Hi & _ & _ & _ & _ & _ & _ & _ & _ & _ & _ &
                _ & _ & Htt & _).
  step. exists (doc d').
  split; [reflexivity |]. split; [reflexivity |].
  split; [apply lookup_insert_eq |].
  rewrite Htt by (left; reflexivity).
  cbn [doc set_doc hydrate timeTracking with_timeTracking].
  unfold stop_session, date_minus. rewrite Hcs. reflexivity.
Qed.




(** ** Complete *)

(** C3: [completeTask] by the assignee on a stored, schema-valid task
    whose status is neither [COMPLETED] nor [CANCELLED] and whose running
    session, if any, has its start recorded, answers 200 and stores the
    task with status [COMPLETED], a [completedDate], [isActive] false and
    exactly one more history entry, which carries [COMPLETED], the
    assignee and the reason "Status updated"; a running session is closed
    as one more session, with the note "Task completed", and no session is
    added otherwise. *)
Theorem complete_by_assignee (user : User) (id : ObjectId) (t : Task)
    (w : World) :
  tasks w !! id = Some t ->
  assignedTo t = user_id user ->
  status t <> TASK_STATUS.COMPLETED ->
  status t <> TASK_STATUS.CANCELLED ->
  validate t = [] ->
  (isActive (timeTracking t) = true ->
   is_Some (currentSessionStart (timeTracking t))) ->
  exists res w',
    completeTask user id w = (Return res, w')
    /\ exists t',
         statusCode res = HTTP_STATUS.OK
         /\ data res = TaskData (Some t')
         /\ tasks w' !! id = Some t'
         /\ status t' = TASK_STATUS.COMPLETED
         /\ is_Some (completedDate t')
         /\ isActive (timeTracking t') = false
         /\ (exists e,
               statusHistory t' = statusHistory t ++ [e]
               /\ StatusEntry.status e = TASK_STATUS.COMPLETED
               /\ StatusEntry.changedBy e = user_id user
               /\ StatusEntry.reason e = "Status updated")
         /\ (if isActive (timeTracking t)
             then exists s,
                    sessions (timeTracking t')
                    = sessions (timeTracking t) ++ [s]
                    /\ notes s = "Task completed"
             else sessions (timeTracking t') = sessions (timeTracking t)).
Proof.
  intros Ht Ha Hnc _ Hv Hinv.
  apply (returns_try_catch _ _ w (fun res w' => _)), returns_findById.
  rewrite Ht. cbn [fmap option_fmap option_map].
  rewrite bool_decide_eq_false_2 by (intros Hne; apply Hne; exact Ha).
  apply returns_bind. unfold markAsCompleted. do 2 step.
  set (d3 := set_modifiedBy (user_id user) _).
  assert (Hd3 : doc d3 = with_completedDate (Some (clock w 0%nat))
                           (with_status TASK_STATUS.COMPLETED t)).
  { unfold d3. cbn [doc set_modifiedBy set_doc]. rewrite set_status_doc. reflexivity. }
  assert (Hf3 : _id d3 = id /\ isNew d3 = false /\ status_modified d3 = true
                /\ modifiedBy d3 = Some (user_id user)
                /\ statusChangeReason d3 = None).
  { unfold d3. cbn [_id isNew status_modified modifiedBy statusChangeReason
                    set_modifiedBy set_doc].
    destruct (set_status_flags TASK_STATUS.COMPLETED (hydrate id t))
      as (-> & -> & _ & -> & ->).
    cbn [hydrate _id isNew status_modified doc statusChangeReason].
    rewrite bool_decide_eq_true_2 by exact Hnc. repeat split. }
  destruct Hf3 as (Hi3 & Hn3 & Hm3 & Hb3 & Hr3).
  assert (He3 : forall at_,
            history_entry d3 at_
            = {| StatusEntry.status := TASK_STATUS.COMPLETED;
                 StatusEntry.changedBy := user_id user;
                 StatusEntry.changedAt := at_;
                 StatusEntry.reason := "Status updated" |}).
  { intros at_. unfold history_entry. rewrite Hd3, Hb3, Hr3. reflexivity. }
  assert (Hact3 : isActive (timeTracking (doc d3)) = isActive (timeTracking t))
    by (rewrite Hd3; reflexivity).
  rewrite Hact3. destruct (isActive (timeTracking t)) eqn:Hact.
  - (* a session is running: it is stopped and saved, then saved again *)
    destruct (Hinv eq_refl) as [cs Hcs].
    unfold stopTimeTracking, stopTimeTracking_sync.
    rewrite Hact3. cbn [negb]. do 5 step.
    set (d4 := set_doc _ d3).
    assert (Hd4 : doc d4 = with_timeTracking
                             (stop_session "Task completed" (clock (tick w) 0%nat)
                                (timeTracking t))
                             (doc d3)).
    { unfold d4. cbn [doc set_doc]. rewrite Hd3. reflexivity. }
    assert (Hv4 : validate (doc d4) = []).
    { rewrite Hd4, Hd3.
      rewrite <- (validate_stop_session t "Task completed"
                    (clock (tick w) 0%nat) cs Hv Hcs).
      apply validate_indep; reflexivity. }
    eapply returns_weaken; [apply save_spec, Hv4 |].
    intros d5 w5 ((w4 & Hl4 & ->) & Hi5 & Hn5 & Hm5 & Hb5 & Hti5 & Hde5 & _ & _ &
                  Hdu5 & (now5 & _ & Hst5) & Hh5 & Hc5 & _ & Htt5 & _).
    cbn beta.
    assert (Htt5' : timeTracking (doc d5) = timeTracking (doc d4)).
    { apply Htt5. left. rewrite Hd4. reflexivity. }
    eapply returns_weaken.
    { apply save_spec. rewrite <- Hv4. apply validate_indep; congruence. }
    intros d6 w6 ((w5 & Hl5 & ->) & Hi6 & _ & _ & _ & _ & _ & _ & _ & _ &
                  (now6 & _ & Hst6) & Hh6 & Hc6 & _ & Htt6 & _).
    step. exists (doc d6).
    rewrite Hm5, Hn5 in Hh6, Htt6. cbn [andb negb] in Hh6.
    assert (Hm4 : status_modified d4 = true) by exact Hm3.
    assert (Hn4 : isNew d4 = false) by exact Hn3.
    rewrite Hm4, Hn4 in Hh5. cbn [andb negb] in Hh5. destruct Hh5 as [at_ Hh5].
    assert (He4 : history_entry d4 at_ = history_entry d3 at_)
      by (unfold history_entry; rewrite Hd4; reflexivity).
    rewrite Hd4, Hd3 in Hst5. cbn [status with_timeTracking with_completedDate
      with_status dueDate] in Hst5. rewrite overdue_status_completed in Hst5.
    rewrite Hst5, overdue_status_completed in Hst6.
    split; [reflexivity |]. split; [reflexivity |].
    split; [rewrite Hi5; unfold d4; cbn [_id set_doc]; rewrite Hi3; apply lookup_insert_eq |].
    split; [exact Hst6 |].
    split. { apply Hc6, Hc5. rewrite Hd4, Hd3. cbn. eauto. }
    rewrite Htt6 by (right; right; reflexivity). rewrite Htt5', Hd4.
    cbn [timeTracking with_timeTracking stop_session isActive sessions].
    split; [reflexivity |].
    split.
    + exists (history_entry d3 at_). split; [| rewrite He3; repeat split].
      rewrite Hh6, Hh5, He4, Hd4, Hd3. reflexivity.
    + eexists. split; reflexivity.
  - (* no session is running: a single save *)
    do 2 step.
    assert (Hv3 : validate (doc d3) = []).
    { rewrite Hd3, <- Hv. apply validate_indep; reflexivity. }
    eapply returns_weaken; [apply save_spec, Hv3 |].
    intros d6 w6 ((w5 & Hl5 & ->) & Hi6 & _ & _ & _ & _ & _ & _ & _ & _ &
                  (now6 & _ & Hst6) & Hh6 & Hc6 & _ & Htt6 & _).
    step. exists (doc d6).
    rewrite Hm3, Hn3 in Hh6. cbn [andb negb] in Hh6. destruct Hh6 as [at_ Hh6].
    rewrite Hd3 in Hst6. cbn [status with_completedDate with_status] in Hst6.
    rewrite overdue_status_completed in Hst6.
    split; [reflexivity |]. split; [reflexivity |].
    split; [rewrite Hi3; apply lookup_insert_eq |].
    split; [exact Hst6 |].
    split. { apply Hc6. rewrite Hd3. cbn. eauto. }
    rewrite Htt6 by (left; exact Hact3).
    rewrite Hd3. cbn [timeTracking with_completedDate with_status].
    split; [exact Hact |].
    split; [| reflexivity].
    eexists. split; [rewrite Hh6, Hd3; reflexivity |].
    rewrite He3. repeat split.
Qed.

Lemma complete_by_assignee_witness :
  exists res w' t',
    completeTask alice 7%N
      (world_of (task7 TASK_STATUS.IN_PROGRESS true (Some 5)) 50)
    = (Return res, w')
    /\ tasks w' !! 7%N = Some t'
    /\ status t' = TASK_STATUS.COMPLETED
    /\ isActive (timeTracking t') = false
    /\ length (statusHistory t') = 1%nat.
Proof.
  destruct (complete_by_assignee alice 7%N
              (task7 TASK_STATUS.IN_PROGRESS true (Some 5))
              (world_of (task7 TASK_STATUS.IN_PROGRESS true (Some 5)) 50))
    as (res & w' & Hrun & t' & _ & _ & Hlk & Hst & _ & Hact & (e & Hh & _) & _).
  - reflexivity.
  - reflexivity.
  - discriminate.
  - discriminate.
  - reflexivity.
  - intros _. exists 5. reflexivity.
  - exists res, w', t'. rewrite Hh. repeat split; assumption.
Defined.

(** ** Overdue *)

Lemma getTaskById_reports_stored (user : User) (id : ObjectId) (t : Task) w :
  tasks w !! id = Some t ->
  role user <> USER_ROLES.EMPLOYEE
  \/ (assignedTo t = user_id user /\ is_Some (users w !! assignedTo t)) ->
  getTaskById user id w
  = (Return (respond HTTP_STATUS.OK (Text "Task retrieved successfully")
               (TaskData (Some t))), w).
Proof.
  intros Ht Hmay. unfold getTaskById, try_catch, bind.
  rewrite findById_run, Ht. cbn [fmap option_fmap option_map doc hydrate].
  destruct Hmay as [Hrole | [Ha [u Hu]]].
  - rewrite bool_decide_eq_false_2 by exact Hrole. reflexivity.
  - destruct (bool_decide (role user = USER_ROLES.EMPLOYEE)); [| reflexivity].
    unfold populated_assignedTo, bind, User_findById. rewrite Hu.
    unfold ret. rewrite bool_decide_eq_false_2 by (intros Hne; apply Hne, Ha).
    reflexivity.
Qed.

Lemma isOverdue_past now due t :
  dueDate t = Some due -> due < now ->
  status t <> TASK_STATUS.COMPLETED -> status t <> TASK_STATUS.CANCELLED ->
  isOverdue now t = true.
Proof.
  intros Hdue Hlt Hc Hx. unfold isOverdue.
  rewrite !bool_decide_eq_false_2 by assumption. rewrite Hdue.
  apply bool_decide_eq_true_2, Hlt.
Qed.

(** What leaves for an answer that carries one task: the getter of
    [isOverdue] takes the first reading of the clock. *)
Lemma res_json_task c m t w :
  res_json (respond c m (TaskData (Some t))) w
  = (Return {| sent_statusCode := c; sent_success := true;
               sent_message := m; sent_error := None; sent_errors := [];
               sent_data :=
                 TaskDataJSON
                   (Some {| json_paths := t;
                            json_isOverdue := isOverdue (clock w 0%nat) t;
                            json_isBeingTracked := isBeingTracked t |}) |},
     tick (tick w)).
Proof. reflexivity. Qed.

(** A fetch that is admitted, up to what [res.json] sends. *)
Lemma getTaskById_sends (user : User) (id : ObjectId) (t : Task) w :
  tasks w !! id = Some t ->
  role user <> USER_ROLES.EMPLOYEE
  \/ (assignedTo t = user_id user /\ is_Some (users w !! assignedTo t)) ->
  (res <- getTaskById user id ;; res_json res)%js w
  = (Return {| sent_statusCode := HTTP_STATUS.OK; sent_success := true;
               sent_message := Text "Task retrieved successfully";
               sent_error := None; sent_errors := [];
               sent_data :=
                 TaskDataJSON
                   (Some {| json_paths := t;
                            json_isOverdue := isOverdue (clock w 0%nat) t;
                            json_isBeingTracked := isBeingTracked t |}) |},
     tick (tick w)).
Proof.
  intros Ht Hmay. unfold bind at 1.
  rewrite (getTaskById_reports_stored user id t w Ht Hmay).
  apply res_json_task.
Qed.

Lemma input_valid_body (input : TaskInput) :
  input_valid input ->
  cast_startDate (in_startDate input)
  ++ validate_estimatedHours (in_estimatedHours input) = [].
Proof.
  intros (_ & _ & _ & _ & _ & Hs & Hh).
  unfold cast_startDate, validate_estimatedHours.
  destruct (in_startDate input); [| congruence |];
    (destruct (in_estimatedHours input) as [h |];
       [rewrite (Hh h eq_refl) |]; reflexivity).
Qed.

Lemma audit_valid : input_valid audit.
Proof.
  unfold input_valid, audit.
  cbn [in_title in_description in_dueDate in_startDate in_estimatedHours].
  split; [vm_compute; discriminate |]. split; [vm_compute; lia |].
  split; [vm_compute; discriminate |]. split; [vm_compute; lia |].
  split; [eauto |]. split; [discriminate |]. intros h Hh. discriminate.
Qed.

Lemma create_overdue_then_fetch (creator reader : User) (input : TaskInput)
    (due : Date) (assignee : User) (w : World) :
  input_valid input ->
  in_dueDate input = Some due ->
  (forall k, due < clock w k) ->
  users w !! in_assignedTo input = Some assignee ->
  userIsActive assignee = true ->
  role reader <> USER_ROLES.EMPLOYEE \/ user_id reader = in_assignedTo input ->
  exists res w' id t' sent w'' j,
    createTask creator input w = (Return res, w')
    /\ statusCode res = HTTP_STATUS.CREATED
    /\ data res = TaskData (Some t')
    /\ tasks w !! id = None
    /\ tasks w' !! id = Some t'
    /\ status t' = TASK_STATUS.OVERDUE
    /\ (res <- getTaskById reader id ;; res_json res)%js w'
       = (Return sent, w'')
    /\ sent_statusCode sent = HTTP_STATUS.OK
    /\ sent_data sent = TaskDataJSON (Some j)
    /\ json_paths j = t'
    /\ json_isOverdue j = true.
Proof.
  intros Hin Hdue Hclock Hu Hactive Hreader.
  pose proof (input_valid_body input Hin) as Hbody.
  destruct Hin as (Ht1 & Ht2 & Hd1 & Hd2 & _).
  set (id := fresh (dom (tasks w))).
  unfold createTask, try_catch, bind.
  unfold User_findById at 1. rewrite Hu, Hactive.
  unfold new_ObjectId at 1. fold id. rewrite Hbody.
  match goal with
  | |- context [save ?d w] =>
      destruct (save_overdue d w due)
        as (d' & w' & Hrun & Hst & Hlk & Husers & Hsame & Hdd & k & Hk)
  end.
  - unfold validate. cbn [doc new_Task title description dueDate timeTracking sessions].
    rewrite !required_string_ok by assumption. rewrite Hdue. reflexivity.
  - exact Hdue.
  - exact Hclock.
  - discriminate.
  - discriminate.
  - rewrite Hrun. unfold ret.
    cbn [doc new_Task assignedTo] in Hsame.
    assert (Hmay : role reader <> USER_ROLES.EMPLOYEE
                   \/ (assignedTo (doc d') = user_id reader
                       /\ is_Some (users w' !! assignedTo (doc d')))).
    { destruct Hreader as [Hr | Hr]; [left; exact Hr | right].
      rewrite Hsame, Husers, Hu. split; [congruence | eauto]. }
    exists (respond HTTP_STATUS.CREATED (Succ SUCCESS_MESSAGES.TASK_CREATED)
              (TaskData (Some (doc d')))), w', id, (doc d').
    eexists _, _, _.
    split; [reflexivity |]. split; [reflexivity |]. split; [reflexivity |].
    split. { apply not_elem_of_dom. apply is_fresh. }
    split; [exact Hlk |]. split; [exact Hst |].
    split; [apply (getTaskById_sends reader id (doc d') w' Hlk Hmay) |].
    split; [reflexivity |]. split; [reflexivity |]. split; [reflexivity |].
    cbn [json_isOverdue]. apply (isOverdue_past _ due); [exact Hdd | |
      rewrite Hst; discriminate | rewrite Hst; discriminate].
    rewrite Hk. apply Hclock.
Qed.





(** ** Update *)

Lemma filter_none {A} (P : A -> Prop) `{forall x, Decision (P x)} (l : list A) :
  (forall x, x ∈ l -> ~ P x) -> filter P l = [].
Proof.
  induction l as [| a l IH]; intros Hall; [reflexivity |].
  rewrite filter_cons_False by (apply Hall; left).
  apply IH. intros x Hx. apply Hall. right. exact Hx.
Qed.

Lemma filter_some {A} (P : A -> Prop) `{forall x, Decision (P x)} (l : list A) x :
  x ∈ l -> P x -> (0 < length (filter P l))%nat.
Proof.
  intros Hx HP.
  assert (Hin : x ∈ filter P l) by (apply list_elem_of_filter; split; assumption).
  destruct (filter P l); [inversion Hin | simpl; lia].
Qed.

(** C7: an update by an employee on a task assigned to them. When a key
    of the sanitized body is outside [status] and [comments] the answer is
    403 and the world is the one before the call, so nothing is written;
    when every key is among the two the handler goes on to the update and
    its answer is not 403. *)
Theorem employee_update_whitelist `{Externals} (user : User) (id : ObjectId)
    (body : Body) (t : Task) (w : World) :
  role user = USER_ROLES.EMPLOYEE ->
  tasks w !! id = Some t ->
  assignedTo t = user_id user ->
  ((exists k, k ∈ Object_keys (sanitizeInput body)
              /\ k ∉ ["status"; "comments"]) ->
   updateTask user id body w
   = (Return (fail HTTP_STATUS.FORBIDDEN ERROR_MESSAGES.INSUFFICIENT_PERMISSIONS
                "Employees can only update: status, comments"), w))
  /\ ((forall k, k ∈ Object_keys (sanitizeInput body) ->
                 k ∈ ["status"; "comments"]) ->
      exists res w',
        updateTask user id body w = (Return res, w')
        /\ statusCode res <> HTTP_STATUS.FORBIDDEN).
Proof.
  intros Hrole Ht Ha.
  assert (Hown : bool_decide (assignedTo (doc (hydrate id t)) ≠ user_id user) = false).
  { apply bool_decide_eq_false_2. intros Hne. apply Hne. exact Ha. }
  split.
  - intros (k & Hk & Hout).
    unfold updateTask, try_catch, bind. rewrite findById_run, Ht. cbn [fmap option_fmap option_map].
    rewrite Hown, (bool_decide_eq_true_2 _ Hrole). cbn [andb].
    rewrite (bool_decide_eq_true_2 (0 < _)%nat); [reflexivity |].
    eapply filter_some; eassumption.
  - intros Hall.
    unfold updateTask, try_catch, bind. rewrite findById_run, Ht. cbn [fmap option_fmap option_map].
    rewrite Hown, (bool_decide_eq_true_2 _ Hrole). cbn [andb].
    rewrite filter_none by (intros x Hx Hnot; apply Hnot, Hall, Hx).
    cbn [length]. rewrite bool_decide_eq_false_2 by lia.
    rewrite new_Date_run. unfold Task_findByIdAndUpdate.
    rewrite tasks_tick, Ht.
    destruct (apply_update _ t) as [e | t'].
    + destruct (bool_decide (JsError.name e = "ValidationError"));
        unfold ret; do 2 eexists; (split; [reflexivity | discriminate]).
    + unfold ret. do 2 eexists. split; [reflexivity | discriminate].
Qed.

Lemma employee_update_whitelist_witness :
  let w := world_of (task7 TASK_STATUS.PENDING false None) 50 in
  @updateTask plain_env alice 7%N
    [("title", JStr "Annual report");
     ("status", JStatus TASK_STATUS.COMPLETED)] w
  = (Return (fail HTTP_STATUS.FORBIDDEN ERROR_MESSAGES.INSUFFICIENT_PERMISSIONS
               "Employees can only update: status, comments"), w)
  /\ exists res w',
       @updateTask plain_env alice 7%N
         [("status", JStatus TASK_STATUS.IN_PROGRESS)] w = (Return res, w')
       /\ statusCode res <> HTTP_STATUS.FORBIDDEN.
Proof.
  intros w. split.
  - apply (@employee_update_whitelist plain_env alice 7%N
             [("title", JStr "Annual report");
              ("status", JStatus TASK_STATUS.COMPLETED)]
             (task7 TASK_STATUS.PENDING false None) w);
      [reflexivity | reflexivity | reflexivity |].
    exists "title". split; apply (bool_decide_unpack _); vm_compute; exact I.
  - apply (@employee_update_whitelist plain_env alice 7%N
             [("status", JStatus TASK_STATUS.IN_PROGRESS)]
             (task7 TASK_STATUS.PENDING false None) w);
      [reflexivity | reflexivity | reflexivity |].
    intros k Hk. apply (bool_decide_unpack _).
    apply list_elem_of_singleton in Hk. subst k. vm_compute. exact I.
Defined.

Section UpdateFacts.
Context `{Externals}.

(** An update of the status alone, by anyone the handler lets through:
    the stored status is the new one and every other path, the history
    included, is as before. *)
Lemma update_status_only (user : User) (id : ObjectId) (body : Body)
    (s : TASK_STATUS.t) (t : Task) (w : World) :
  sanitizeInput body = [("status", JStatus s)] ->
  tasks w !! id = Some t ->
  role user <> USER_ROLES.EMPLOYEE \/ assignedTo t = user_id user ->
  updateTask user id body w
  = (Return (respond HTTP_STATUS.OK (Succ SUCCESS_MESSAGES.TASK_UPDATED)
               (TaskData (Some (with_status s t)))),
     with_tasks (<[ id := with_status s t ]> (tasks w)) (tick w))
  /\ statusHistory (with_status s t) = statusHistory t.
Proof.
  intros Hbody Ht Hmay. split; [| reflexivity].
  unfold updateTask, try_catch, bind. rewrite findById_run, Ht, Hbody.
  cbn [fmap option_fmap option_map doc hydrate].
  assert (Hgate : bool_decide (role user = USER_ROLES.EMPLOYEE)
                  && bool_decide (assignedTo t ≠ user_id user) = false).
  { destruct Hmay as [Hr | Ha].
    - rewrite (bool_decide_eq_false_2 _ Hr). reflexivity.
    - rewrite (bool_decide_eq_false_2 (assignedTo t ≠ user_id user))
        by (intros Hne; apply Hne, Ha).
      apply andb_false_r. }
  rewrite Hgate.
  replace (filter (fun field : string => field ∉ ["status"; "comments"])
             (Object_keys [("status", JStatus s)])) with (@nil string)
    by reflexivity.
  cbn [length]. rewrite (bool_decide_eq_false_2 (0 < 0)%nat) by lia.
  rewrite andb_false_r, new_Date_run.
  unfold Task_findByIdAndUpdate. rewrite tasks_tick, Ht.
  cbn [spread_set]. rewrite bool_decide_eq_false_2 by discriminate.
  cbn [spread_set apply_update]. unfold set_path at 1.
  rewrite bool_decide_eq_true_2 by reflexivity.
  cbn [apply_update]. unfold set_path.
  rewrite bool_decide_eq_false_2 by discriminate.
  rewrite bool_decide_eq_true_2 by reflexivity.
  reflexivity.
Qed.
End UpdateFacts.

(** C1 fails on the code: [updateTask] writes through
    [findByIdAndUpdate], which runs no [pre('save')] hook. The
    administrator sets the status of a pending task with an empty history
    to [IN_PROGRESS]: the answer is 200, the stored status is
    [IN_PROGRESS], and the stored history is still empty. The same change
    of status made through [save], by [startTask], appends the entry with
    the reason "Status updated". *)
Lemma update_status_skips_history :
  let t := task7 TASK_STATUS.PENDING false None in
  let w := world_of t 50 in
  let r := @updateTask plain_env root 7%N
             [("status", JStatus TASK_STATUS.IN_PROGRESS)] w in
  r.1 = Return (respond HTTP_STATUS.OK (Succ SUCCESS_MESSAGES.TASK_UPDATED)
                  (TaskData (Some (with_status TASK_STATUS.IN_PROGRESS t))))
  /\ status <$> tasks r.2 !! 7%N = Some TASK_STATUS.IN_PROGRESS
  /\ statusHistory <$> tasks r.2 !! 7%N = Some []
  /\ statusHistory <$> tasks (startTask alice 7%N w).2 !! 7%N
     = Some [ {| StatusEntry.status := TASK_STATUS.IN_PROGRESS;
                 StatusEntry.changedBy := 2%N;
                 StatusEntry.changedAt := 51;
                 StatusEntry.reason := "Status updated" |} ].
Proof. cbv zeta. repeat split. Qed.

(** ** Get and update by an employee with the project-manager designation *)

(** Get and update look at the assignee alone: an employee who is not the
    assignee is denied, whatever the designation and whoever assigned the
    task. *)
Lemma employee_non_assignee_denied `{Externals} (user : User) (id : ObjectId)
    (body : Body) (t : Task) (w : World) :
  role user = USER_ROLES.EMPLOYEE ->
  tasks w !! id = Some t ->
  assignedTo t <> user_id user ->
  is_Some (users w !! assignedTo t) ->
  statusCode <$> (match (getTaskById user id w).1 with
                  | Return r => Some r | Throw _ => None end)
  = Some HTTP_STATUS.FORBIDDEN
  /\ updateTask user id body w
     = (Return (fail HTTP_STATUS.FORBIDDEN
                  ERROR_MESSAGES.INSUFFICIENT_PERMISSIONS
                  "You can only update your own tasks"), w).
Proof.
  intros Hrole Ht Hne [u Hu]. split.
  - unfold getTaskById, try_catch, bind. rewrite findById_run, Ht.
    cbn [fmap option_fmap option_map doc hydrate].
    rewrite (bool_decide_eq_true_2 _ Hrole).
    unfold populated_assignedTo, bind, User_findById. rewrite Hu. unfold ret.
    rewrite (bool_decide_eq_true_2 _ Hne). reflexivity.
  - unfold updateTask, try_catch, bind. rewrite findById_run, Ht.
    cbn [fmap option_fmap option_map doc hydrate].
    rewrite (bool_decide_eq_true_2 _ Hrole), (bool_decide_eq_true_2 _ Hne).
    reflexivity.
Qed.

(** C6 fails on the code: [bob], an employee with the project-manager
    designation, assigned the task to [alice]. [getTaskById] and
    [updateTask] compare the assignee alone and answer 403, while
    [getAllTasks] does list the task for him. *)
Lemma designated_assigner_denied :
  let t := task7 TASK_STATUS.PENDING false None in
  let w := world_of t 50 in
  role bob = USER_ROLES.EMPLOYEE
  /\ designation bob = "project_manager"
  /\ assignedBy t = user_id bob
  /\ assignedTo t <> user_id bob
  /\ getTaskById bob 7%N w
     = (Return (fail HTTP_STATUS.FORBIDDEN
                  ERROR_MESSAGES.INSUFFICIENT_PERMISSIONS
                  "You can only view your own tasks"), w)
  /\ @updateTask plain_env bob 7%N
       [("status", JStatus TASK_STATUS.IN_PROGRESS)] w
     = (Return (fail HTTP_STATUS.FORBIDDEN
                  ERROR_MESSAGES.INSUFFICIENT_PERMISSIONS
                  "You can only update your own tasks"), w)
  /\ exists p,
       @getAllTasks plain_env by_createdAt bob no_criteria w
       = (Return (respond HTTP_STATUS.OK (Text "Tasks retrieved successfully")
                    (TasksData [t] p)), w).
Proof.
  cbv zeta. repeat split; try discriminate.
  eexists. reflexivity.
Qed.

(** ** Delete *)

(** C8, as the code has it: [deleteTask] decides on the role and the
    designation of the principal alone and never looks at who created the
    task. An administrator, a project manager and an employee with the
    project-manager designation delete any task there is, whether they
    assigned it or not; any other employee is answered 403 and the world
    is the one before the call. *)
Theorem delete_by_role_only (user : User) (id : ObjectId) (t : Task)
    (w : World) :
  tasks w !! id = Some t ->
  ((role user = USER_ROLES.ADMIN
    \/ role user = USER_ROLES.PROJECT_MANAGER
    \/ (role user = USER_ROLES.EMPLOYEE
        /\ designation user = "project_manager")) ->
   deleteTask user id w
   = (Return (respond HTTP_STATUS.OK (Succ SUCCESS_MESSAGES.TASK_DELETED) Null),
      with_tasks (delete id (tasks w)) w)
   /\ tasks (deleteTask user id w).2 !! id = None)
  /\ (role user = USER_ROLES.EMPLOYEE ->
      designation user <> "project_manager" ->
      deleteTask user id w
      = (Return (fail HTTP_STATUS.FORBIDDEN
                   ERROR_MESSAGES.INSUFFICIENT_PERMISSIONS
                   "Only administrators and project managers can delete tasks"),
         w)).
Proof.
  intros Ht. split.
  - intros Hallowed.
    assert (Hrun : deleteTask user id w
      = (Return (respond HTTP_STATUS.OK (Succ SUCCESS_MESSAGES.TASK_DELETED) Null),
         with_tasks (delete id (tasks w)) w)).
    { unfold deleteTask, try_catch, bind. rewrite findById_run, Ht. simpl.
      destruct Hallowed as [Hr | [Hr | [Hr Hd]]].
      - rewrite (bool_decide_eq_true_2 _ Hr). reflexivity.
      - rewrite (bool_decide_eq_true_2 (role user = USER_ROLES.PROJECT_MANAGER) Hr).
        rewrite orb_true_r. reflexivity.
      - rewrite (bool_decide_eq_true_2 (role user = USER_ROLES.EMPLOYEE) Hr).
        rewrite (bool_decide_eq_true_2 _ Hd). rewrite !orb_true_r. reflexivity. }
    split; [exact Hrun |].
    rewrite Hrun. simpl. apply lookup_delete_eq.
  - intros Hr Hd.
    unfold deleteTask, try_catch, bind. rewrite findById_run, Ht. simpl.
    rewrite (bool_decide_eq_true_2 (role user = USER_ROLES.EMPLOYEE) Hr).
    rewrite (bool_decide_eq_false_2 (designation user = _) Hd).
    rewrite !bool_decide_eq_false_2 by (rewrite Hr; discriminate).
    reflexivity.
Qed.

Lemma delete_by_role_only_witness :
  let w := world_of (task7 TASK_STATUS.PENDING false None) 50 in
  tasks (deleteTask bob 7%N w).2 !! 7%N = None
  /\ statusCode <$> (match (deleteTask alice 7%N w).1 with
                     | Return r => Some r
                     | Throw _ => None
                     end) = Some HTTP_STATUS.FORBIDDEN.
Proof.
  intros w.
  destruct (delete_by_role_only bob 7%N (task7 TASK_STATUS.PENDING false None) w)
    as [Hyes _]; [reflexivity |].
  destruct (delete_by_role_only alice 7%N (task7 TASK_STATUS.PENDING false None) w)
    as [_ Hno]; [reflexivity |].
  split.
  - apply Hyes. right. right. split; reflexivity.
  - rewrite Hno; [reflexivity | reflexivity | discriminate].
Defined.

(** C8 as it is worded fails: [carol], an employee with the
    project-manager designation, deletes a task that [bob] created and
    that is assigned to [alice]; the answer is 200 and the task is gone. *)
Lemma delete_not_limited_to_own_tasks :
  let t := task7 TASK_STATUS.PENDING false None in
  let w := world_of t 50 in
  role carol = USER_ROLES.EMPLOYEE
  /\ designation carol = "project_manager"
  /\ tasks w !! 7%N = Some t
  /\ assignedBy t <> user_id carol
  /\ assignedTo t <> user_id carol
  /\ deleteTask carol 7%N w
     = (Return (respond HTTP_STATUS.OK (Succ SUCCESS_MESSAGES.TASK_DELETED) Null),
        with_tasks ∅ w)
  /\ tasks (deleteTask carol 7%N w).2 !! 7%N = None.
Proof.
  cbv zeta. repeat split; try reflexivity; try discriminate.
Qed.

(** ** Listing *)

Lemma elem_of_insert_sorted cmp desc x y l :
  y ∈ insert_sorted cmp desc x l -> y = x \/ y ∈ l.
Proof.
  induction l as [| z l IH]; cbn [insert_sorted]; intros Hy.
  - apply list_elem_of_singleton in Hy. left. exact Hy.
  - destruct (before cmp desc x z).
    + apply elem_of_cons in Hy as [-> | Hy]; [left; reflexivity | right; exact Hy].
    + apply elem_of_cons in Hy as [-> | Hy]; [right; left |].
      destruct (IH Hy) as [-> | Hin]; [left; reflexivity | right; right; exact Hin].
Qed.

Lemma elem_of_sort_tasks cmp desc y l :
  y ∈ sort_tasks cmp desc l -> y ∈ l.
Proof.
  induction l as [| x l IH]; cbn [sort_tasks foldr]; intros Hy; [exact Hy |].
  apply elem_of_insert_sorted in Hy as [-> | Hy]; [left | right; apply IH, Hy].
Qed.

Lemma elem_of_limit_tasks n y l : y ∈ limit_tasks n l -> y ∈ l.
Proof.
  unfold limit_tasks. destruct (bool_decide _); [auto |].
  intros Hy. apply list_elem_of_lookup in Hy as [i Hi].
  apply lookup_take_Some in Hi as [Hi _]. eapply list_elem_of_lookup_2, Hi.
Qed.

Lemma elem_of_drop {A} n (y : A) l : y ∈ drop n l -> y ∈ l.
Proof.
  intros Hy. apply list_elem_of_lookup in Hy as [i Hi].
  rewrite lookup_drop in Hi. eapply list_elem_of_lookup_2, Hi.
Qed.

Lemma Task_find_matches f cmp desc skip lim w ts w' t :
  Task_find f cmp desc skip lim w = (Return ts, w') ->
  t ∈ ts -> matches f t = true.
Proof.
  unfold Task_find. intros [= <- <-] Ht.
  apply elem_of_limit_tasks, elem_of_drop, elem_of_sort_tasks in Ht.
  apply list_elem_of_In, filter_In in Ht as [_ Hm]. exact Hm.
Qed.

Section Listing.
Context `{Externals} (compare_at : string -> Task -> Task -> comparison).

Lemma matches_or f t cs :
  f_or f = Some cs -> matches f t = true ->
  existsb (clause_matches t) cs = true.
Proof.
  unfold matches. intros ->. cbn [criterion].
  intros Hm. apply andb_true_iff in Hm as [_ Hm]. exact Hm.
Qed.

Lemma matches_assignedTo f t u :
  f_assignedTo f = Some u -> matches f t = true -> assignedTo t = u.
Proof.
  unfold matches. intros ->. cbn [criterion]. intros Hm.
  do 4 (apply andb_true_iff in Hm as [Hm _]).
  apply andb_true_iff in Hm as [_ Hm]. apply bool_decide_eq_true_1 in Hm. exact Hm.
Qed.

(** What the role narrowing of [getAllTasks] does ensure: every task
    listed for an employee is assigned to them, or, with the
    project-manager designation, assigned to or by them. *)
Lemma listing_scope (user : User) (q : Query) w res w' ts p t :
  getAllTasks compare_at user q w = (Return res, w') ->
  data res = TasksData ts p ->
  t ∈ ts ->
  role user = USER_ROLES.EMPLOYEE ->
  if bool_decide (designation user = "project_manager")
  then assignedTo t = user_id user \/ assignedBy t = user_id user
  else assignedTo t = user_id user.
Proof.
  intros Hrun Hdata Ht Hrole.
  unfold getAllTasks, try_catch, bind in Hrun.
  destruct (validatePagination _ _) as [[validPage validLimit] skip].
  destruct (search_filter q (query_filter q) w) as [[f | e] w1] eqn:Hsf.
  2:{ injection Hrun as <- <-. discriminate Hdata. }
  destruct (Task_find _ _ _ _ _ w1) as [[found | e] w2] eqn:Hfind.
  2:{ injection Hrun as <- <-. discriminate Hdata. }
  unfold Task_countDocuments, ret in Hrun. injection Hrun as <- <-.
  cbn [data respond] in Hdata. injection Hdata as <- <-.
  pose proof (Task_find_matches _ _ _ _ _ _ _ _ _ Hfind Ht) as Hm.
  unfold role_filter in Hm. rewrite (bool_decide_eq_true_2 _ Hrole) in Hm.
  destruct (bool_decide (designation user = "project_manager")).
  - eapply matches_or in Hm; [| reflexivity].
    cbn [existsb clause_matches] in Hm.
    rewrite orb_false_r in Hm. apply orb_true_iff in Hm as [Hm | Hm];
      apply bool_decide_eq_true_1 in Hm; auto.
  - eapply matches_assignedTo in Hm; [exact Hm | reflexivity].
Qed.

(** And what it keeps of the search: for anyone but an employee with the
    project-manager designation, every task listed passes the test of the
    regular expression on its title or on its description. *)
Lemma listing_keeps_search (user : User) (q : Query) w res w' ts p t
    search test :
  getAllTasks compare_at user q w = (Return res, w') ->
  data res = TasksData ts p ->
  t ∈ ts ->
  role user <> USER_ROLES.EMPLOYEE \/ designation user <> "project_manager" ->
  truthy (q_search q) = Some search ->
  RegExp_i search = Some test ->
  test (title t) || test (description t) = true.
Proof.
  intros Hrun Hdata Ht Hplain Hsearch Hre.
  unfold getAllTasks, try_catch, bind in Hrun.
  destruct (validatePagination _ _) as [[validPage validLimit] skip].
  unfold search_filter in Hrun. rewrite Hsearch, Hre in Hrun. unfold ret in Hrun.
  destruct (Task_find _ _ _ _ _ w) as [[found | e] w2] eqn:Hfind.
  2:{ injection Hrun as <- <-. discriminate Hdata. }
  unfold Task_countDocuments in Hrun. injection Hrun as <- <-.
  cbn [data respond] in Hdata. injection Hdata as <- <-.
  pose proof (Task_find_matches _ _ _ _ _ _ _ _ _ Hfind Ht) as Hm.
  assert (Hor : f_or (role_filter user
                        (with_or [TitleRegex test; DescriptionRegex test]
                           (query_filter q)))
                = Some [TitleRegex test; DescriptionRegex test]).
  { unfold role_filter. destruct (bool_decide (role user = USER_ROLES.EMPLOYEE)) eqn:Hr;
      [| reflexivity].
    destruct Hplain as [Hp | Hp].
    - apply bool_decide_eq_true_1 in Hr. contradiction.
    - rewrite (bool_decide_eq_false_2 _ Hp). reflexivity. }
  eapply matches_or in Hm; [| exact Hor].
  cbn [existsb clause_matches] in Hm. rewrite orb_false_r in Hm. exact Hm.
Qed.
End Listing.

(** For an employee with the project-manager designation the filter that
    [getAllTasks] queries with does not depend on the search. *)
Lemma designated_filter_ignores_search (user : User) (f : Filter) cs :
  role user = USER_ROLES.EMPLOYEE ->
  designation user = "project_manager" ->
  role_filter user (with_or cs f) = role_filter user f.
Proof.
  intros Hr Hd. unfold role_filter.
  rewrite (bool_decide_eq_true_2 _ Hr), (bool_decide_eq_true_2 _ Hd).
  reflexivity.
Qed.

(** C9 fails on the code: for an employee with the project-manager
    designation the role filter assigns [filter.$or], which the search had
    set, so the search is lost. [bob] searches for "zebra"; the one task
    of the store, which he assigned, has neither a title nor a description
    that contains it, and it is listed all the same. The same search by
    [alice], a plain employee and the assignee, lists nothing. *)
Lemma designated_listing_drops_search :
  let t := task7 TASK_STATUS.PENDING false None in
  let w := world_of t 50 in
  let q := with_search "zebra" no_criteria in
  satisfies_search "zebra" t = false
  /\ (exists p,
        @getAllTasks plain_env by_createdAt bob q w
        = (Return (respond HTTP_STATUS.OK (Text "Tasks retrieved successfully")
                     (TasksData [t] p)), w))
  /\ (exists p,
        @getAllTasks plain_env by_createdAt alice q w
        = (Return (respond HTTP_STATUS.OK (Text "Tasks retrieved successfully")
                     (TasksData [] p)), w)).
Proof.
  cbv zeta. split; [reflexivity |]. split; eexists; reflexivity.
Qed.

(** * More properties: the rest of the model and of the controller *)

(** ** What a [save] keeps *)

(** ** More on [save] *)

Lemma returns_and {A} (c : M A) w (P Q : A -> World -> Prop) :
  returns c w P -> returns c w Q -> returns c w (fun a w' => P a w' /\ Q a w').
Proof.
  intros (a & w' & Hc & HP) (a2 & w2 & Hc2 & HQ).
  rewrite Hc in Hc2. injection Hc2 as <- <-.
  exists a, w'. auto.
Qed.

Lemma returns_run {A} (c : M A) w (Q : A -> World -> Prop) a w' :
  returns c w Q -> c w = (Return a, w') -> Q a w'.
Proof.
  intros (a2 & w2 & Hc & HQ) Hrun. rewrite Hc in Hrun.
  injection Hrun as <- <-. exact HQ.
Qed.

(** The history hook sets [completedDate] only for a status that has just
    become [COMPLETED]. *)
Lemma pre_save_history_completedDate d w :
  returns (pre_save_history d) w (fun d' _ =>
    status_modified d && negb (isNew d) = false
    \/ status (doc d) <> TASK_STATUS.COMPLETED ->
    completedDate (doc d') = completedDate (doc d)).
Proof.
  unfold pre_save_history.
  destruct d as [i t new md mb scr].
  destruct t as [ti de at_ ab s pr du sd cd tt hist cr].
  cbn [_id doc isNew status_modified modifiedBy statusChangeReason].
  destruct (md && negb new) eqn:Hmod.
  - destruct s, (isActive tt) eqn:Hact, sd as [sd |];
      unfold stopTimeTracking_sync;
      cbn -[stop_session]; try rewrite Hact;
      repeat (step; cbn -[stop_session]); try rewrite Hact;
      repeat (step; cbn -[stop_session]).
    all: intros [Hf | Hf]; congruence.
  - step. reflexivity.
Qed.

Lemma save_completedDate d w :
  validate (doc d) = [] ->
  returns (save d) w (fun d' _ =>
    status_modified d && negb (isNew d) = false
    \/ status (doc d) <> TASK_STATUS.COMPLETED ->
    completedDate (doc d') = completedDate (doc d)).
Proof.
  intros Hv. unfold save. rewrite Hv.
  apply returns_bind.
  eapply returns_weaken; [apply timestamps_spec |].
  intros d0 w0 (_ & _ & Hn0 & Hm0 & _ & _ & cr & Hd0 & _). cbn beta.
  apply returns_bind.
  eapply returns_weaken; [apply pre_save_history_completedDate |].
  intros d1 w1 Hc1. cbn beta. apply returns_bind.
  eapply returns_weaken; [apply pre_save_overdue_spec |].
  intros d2 w2 (_ & _ & _ & _ & now & _ & Hd2). cbn beta.
  unfold persist. eexists _, _. split; [reflexivity |].
  intros Hcond. cbn [doc saved]. rewrite Hd2. cbn [completedDate with_status].
  rewrite Hc1; rewrite ?Hm0, ?Hn0, Hd0; [reflexivity | exact Hcond].
Qed.

(** [save] rejects before it reads the clock or writes. *)
Lemma save_invalid d w :
  validate (doc d) <> [] ->
  save d w = (Throw (ValidationError (validate (doc d))), w).
Proof.
  intros Hv. unfold save. destruct (validate (doc d)); [contradiction |].
  reflexivity.
Qed.

Lemma overdue_status_completed_iff now due s :
  overdue_status now due s = TASK_STATUS.COMPLETED <-> s = TASK_STATUS.COMPLETED.
Proof.
  unfold overdue_status. destruct due as [d |]; [| tauto].
  destruct (bool_decide (d < now)); [| tauto].
  destruct s; split; congruence.
Qed.

Lemma save_result d w d' w' :
  save d w = (Return d', w') ->
  validate (doc d) = []
  /\ save_post d w d' w'
  /\ (status_modified d && negb (isNew d) = false
      \/ status (doc d) <> TASK_STATUS.COMPLETED ->
      completedDate (doc d') = completedDate (doc d)).
Proof.
  intros Hrun.
  assert (Hv : validate (doc d) = []).
  { destruct (validate (doc d)) eqn:Hv; [reflexivity |].
    rewrite save_invalid in Hrun by (rewrite Hv; discriminate). discriminate. }
  split; [exact Hv |]. split.
  - exact (returns_run _ _ _ _ _ (save_spec d w Hv) Hrun).
  - exact (returns_run _ _ _ _ _ (save_completedDate d w Hv) Hrun).
Qed.

Lemma save_post_world d w d' w' :
  save_post d w d' w' ->
  tasks w' = <[ _id d := doc d' ]> (tasks w) /\ users w' = users w.
Proof.
  intros ((w1 & (Ht & Hu & _) & ->) & _). cbn [tasks users with_tasks].
  rewrite Ht, Hu. auto.
Qed.

Lemma save_post_history_prefix d w d' w' :
  save_post d w d' w' ->
  statusHistory (doc d) `prefix_of` statusHistory (doc d').
Proof.
  intros (_ & _ & _ & _ & _ & _ & _ & _ & _ & _ & _ & Hh & _).
  destruct (status_modified d && negb (isNew d)).
  - destruct Hh as [at_ ->]. apply prefix_app_r. reflexivity.
  - rewrite Hh. reflexivity.
Qed.

(** What a [save] that leaves the sessions alone makes of a document
    that stems from the stored task [t]. *)
Lemma save_grown t d w d' w' :
  save d w = (Return d', w') ->
  grown t (doc d) ->
  isActive (timeTracking (doc d)) = false
  \/ status (doc d) <> TASK_STATUS.COMPLETED
  \/ status_modified d && negb (isNew d) = false ->
  grown t (doc d')
  /\ validate (doc d') = []
  /\ timeTracking (doc d') = timeTracking (doc d).
Proof.
  intros Hrun (G1 & G2 & G3 & G4 & G5 & G6 & G7) Hcond.
  destruct (save_result _ _ _ _ Hrun) as (Hv & Hpost & _).
  pose proof (save_post_history_prefix _ _ _ _ Hpost) as Hh.
  destruct Hpost as (_ & _ & _ & _ & _ & P1 & P2 & P3 & P4 & P5 & _ & _ & _ & _ & Htt & _).
  specialize (Htt Hcond).
  split; [| split; [| exact Htt]].
  - repeat split; try congruence. etrans; eassumption.
  - rewrite <- Hv. apply validate_indep; congruence.
Qed.

Lemma grown_refl t : grown t t.
Proof. repeat split; reflexivity. Qed.

Lemma grown_trans t1 t2 t3 : grown t1 t2 -> grown t2 t3 -> grown t1 t3.
Proof.
  intros (A1 & A2 & A3 & A4 & A5 & A6 & A7) (B1 & B2 & B3 & B4 & B5 & B6 & B7).
  repeat split; try congruence; etrans; eassumption.
Qed.

Lemma kept_refl t : kept t t.
Proof. split; [apply grown_refl | auto]. Qed.

Lemma kept_trans t1 t2 t3 : kept t1 t2 -> kept t2 t3 -> kept t1 t3.
Proof.
  intros (G1 & W1 & C1) (G2 & W2 & C2).
  split; [eapply grown_trans; eassumption | auto].
Qed.

Lemma tick_touches_nothing id R w : touches id R w (tick w).
Proof. split; [reflexivity | left; reflexivity]. Qed.

Lemma promoted_completed_iff s :
  promoted s = TASK_STATUS.COMPLETED <-> s = TASK_STATUS.COMPLETED.
Proof. unfold promoted. case_bool_decide; split; congruence. Qed.

Lemma touches_later id R w0 w w' :
  later w0 w -> touches id R w w' -> touches id R w0 w'.
Proof.
  intros (Ht & Hu & _) [Hu' Hc]. split; [congruence |].
  rewrite Ht in Hc. exact Hc.
Qed.

Lemma touches_trans id R w1 w2 w3 :
  (forall a b c, R a b -> R b c -> R a c) ->
  touches id R w1 w2 -> touches id R w2 w3 -> touches id R w1 w3.
Proof.
  intros HR [Hu1 H1] [Hu2 H2]. split; [congruence |].
  destruct H1 as [E1 | (t & t' & Ht & E1 & Hr1)].
  - rewrite E1 in H2. exact H2.
  - destruct H2 as [E2 | (u & u' & Hu & E2 & Hr2)].
    + right. exists t, t'. rewrite E2. auto.
    + right. rewrite E1, lookup_insert_eq in Hu. injection Hu as <-.
      exists t, u'. split; [exact Ht |]. split; [| eauto].
      rewrite E2, E1. apply insert_insert_eq.
Qed.

(** What [save] does to the collection when the document [d] stems from
    the stored task [t]. *)
Lemma save_touches d w0 w t out w' :
  later w0 w ->
  tasks w0 !! _id d = Some t ->
  grown t (doc d) ->
  isActive (timeTracking (doc d)) = false
  \/ status (doc d) <> TASK_STATUS.COMPLETED
  \/ status_modified d && negb (isNew d) = false ->
  (task_wf t ->
   tracking_wf (timeTracking (doc d))
   /\ (status (doc d) = TASK_STATUS.COMPLETED ->
       is_Some (completedDate (doc d))
       \/ status_modified d && negb (isNew d) = true)
   /\ (status (doc d) <> TASK_STATUS.COMPLETED ->
       completedDate (doc d) = None)) ->
  (status t = TASK_STATUS.COMPLETED ->
   status (doc d) = TASK_STATUS.COMPLETED) ->
  save d w = (out, w') ->
  match out with
  | Return d' =>
      users w' = users w0
      /\ tasks w' = <[ _id d := doc d' ]> (tasks w0)
      /\ kept t (doc d')
      /\ _id d' = _id d /\ isNew d' = false /\ status_modified d' = false
      /\ timeTracking (doc d') = timeTracking (doc d)
  | Throw _ => w' = w
  end.
Proof.
  intros (Ht0 & Hu0 & _) Ht Hg Hcond Hwf Hfinal Hrun.
  destruct out as [d' | e].
  - destruct (save_result _ _ _ _ Hrun) as (_ & Hpost & Hcd).
    destruct (save_post_world _ _ _ _ Hpost) as [Htasks Husers].
    destruct (save_grown t _ _ _ _ Hrun Hg Hcond) as (Hg' & Hv' & Htt').
    pose proof Hpost as (_ & Hi & Hn & Hm & _ & _ & _ & _ & _ & _
                         & (now & _ & Hst) & _ & Hc1 & Hc2 & _).
    split; [congruence |]. split; [congruence |].
    split; [| auto].
    split; [exact Hg' |].
    split; [| intros Hs; rewrite Hst; apply overdue_status_completed_iff;
              apply Hfinal, Hs].
    intros Hw. destruct (Hwf Hw) as (Htr & Hdone & Hopen).
    split; [exact Hv' |]. split; [rewrite Htt'; exact Htr |].
    rewrite Hst, overdue_status_completed_iff. split.
    + intros Hs. destruct (Hdone Hs) as [Hsome | Hmod]; auto.
    + intros Hsome.
      destruct (decide (status (doc d) = TASK_STATUS.COMPLETED)) as [| Hne];
        [assumption |].
      rewrite (Hcd (or_intror Hne)), (Hopen Hne) in Hsome.
      destruct Hsome as [? Hsome]. discriminate.
  - destruct (validate (doc d)) eqn:Hv.
    + destruct (save_spec d w Hv) as (? & ? & Hrun' & _). congruence.
    + rewrite save_invalid in Hrun by (rewrite Hv; discriminate). congruence.
Qed.

Lemma task_wf_pre t :
  task_wf t ->
  tracking_wf (timeTracking t)
  /\ (status t = TASK_STATUS.COMPLETED ->
      is_Some (completedDate t) \/ false = true)
  /\ (status t <> TASK_STATUS.COMPLETED -> completedDate t = None).
Proof.
  intros (_ & Htr & Hc). split; [exact Htr |]. split.
  - intros Hs. left. apply Hc, Hs.
  - intros Hs. destruct (completedDate t) eqn:Hcd; [| reflexivity].
    destruct Hs. apply Hc. eauto.
Qed.

Lemma touches_saved id w0 w' t d' :
  tasks w0 !! id = Some t ->
  users w' = users w0 ->
  tasks w' = <[ id := doc d' ]> (tasks w0) ->
  kept t (doc d') ->
  touches id kept w0 w'.
Proof. intros Ht Hu Hts Hk. split; [exact Hu |]. right. eauto. Qed.

Lemma touches_refl id R w : touches id R w w.
Proof. split; [reflexivity | left; reflexivity]. Qed.

Lemma startTask_touches user id w :
  exists res w', startTask user id w = (Return res, w') /\ touches id kept w w'.
Proof.
  unfold startTask, try_catch, bind. rewrite findById_run.
  destruct (tasks w !! id) as [t |] eqn:Ht; cbn [fmap option_fmap option_map].
  2:{ eexists _, _. split; [reflexivity | apply touches_refl]. }
  destruct (bool_decide (assignedTo (doc (hydrate id t)) ≠ user_id user)).
  { eexists _, _. split; [reflexivity | apply touches_refl]. }
  unfold startTimeTracking. cbn [doc hydrate].
  destruct (isActive (timeTracking t)) eqn:Hact.
  { cbn. eexists _, _. split; [reflexivity | apply touches_refl]. }
  unfold bind. rewrite new_Date_run.
  set (d1 := set_doc _ (hydrate id t)).
  set (d2 := if bool_decide (status (doc d1) = TASK_STATUS.PENDING)
             then set_status TASK_STATUS.IN_PROGRESS d1 else d1).
  assert (Hd2 : doc d2 = with_status (promoted (status t)) (doc d1)).
  { unfold d2, promoted, d1. cbn [doc set_doc hydrate status with_timeTracking].
    destruct (bool_decide (status t = TASK_STATUS.PENDING));
      [apply set_status_doc |].
    destruct t; reflexivity. }
  assert (Hf2 : _id d2 = id /\ isNew d2 = false
                /\ status_modified d2 = bool_decide (status t = TASK_STATUS.PENDING)).
  { unfold d2, d1. cbn [doc set_doc hydrate status with_timeTracking].
    destruct (bool_decide (status t = TASK_STATUS.PENDING)) eqn:Hp.
    - match goal with |- context [set_status ?s ?d] =>
        destruct (set_status_flags s d) as (-> & -> & _ & _ & ->) end.
      cbn [_id status_modified isNew set_doc hydrate doc status with_timeTracking].
      apply bool_decide_eq_true_1 in Hp. rewrite Hp.
      repeat split.
    - repeat split. }
  destruct Hf2 as (Hi2 & Hn2 & Hm2).
  assert (Hopen : status (doc d2) = TASK_STATUS.COMPLETED ->
                  status_modified d2 && negb (isNew d2) = false
                  /\ status t = TASK_STATUS.COMPLETED).
  { rewrite Hd2, Hm2, Hn2. cbn [status with_status]. unfold promoted.
    case_bool_decide; [discriminate | auto]. }
  destruct (save d2 (tick w)) as [out w'] eqn:Hrun.
  pose proof (save_touches d2 w (tick w) t out w' (later_tick w)) as Hs.
  rewrite Hi2 in Hs. specialize (Hs Ht).
  assert (Hg : grown t (doc d2)).
  { rewrite Hd2. repeat split; reflexivity. }
  assert (Hcond : isActive (timeTracking (doc d2)) = false
                  \/ status (doc d2) <> TASK_STATUS.COMPLETED
                  \/ status_modified d2 && negb (isNew d2) = false).
  { destruct (decide (status (doc d2) = TASK_STATUS.COMPLETED)) as [Hc | Hc];
      [right; right; apply Hopen, Hc | right; left; exact Hc]. }
  specialize (Hs Hg Hcond). clear Hg Hcond.
  assert (Hwf : task_wf t ->
    tracking_wf (timeTracking (doc d2))
    /\ (status (doc d2) = TASK_STATUS.COMPLETED ->
        is_Some (completedDate (doc d2))
        \/ status_modified d2 && negb (isNew d2) = true)
    /\ (status (doc d2) <> TASK_STATUS.COMPLETED ->
        completedDate (doc d2) = None)).
  { intros (_ & Htr & Hc). split; [| split].
    - rewrite Hd2. cbn. split; eauto.
    - intros Hs'. left. destruct (Hopen Hs') as [_ Hs''].
      rewrite Hd2. apply Hc, Hs''.
    - intros Hs'. rewrite Hd2.
      cbn [completedDate with_status d1 doc set_doc hydrate with_timeTracking].
      destruct (completedDate t) eqn:Hcd; [| reflexivity].
      destruct Hs'. rewrite Hd2. cbn [status with_status].
      apply promoted_completed_iff, Hc. eauto. }
  assert (Hfinal : status t = TASK_STATUS.COMPLETED ->
                   status (doc d2) = TASK_STATUS.COMPLETED).
  { intros Hs'. rewrite Hd2. cbn [status with_status].
    apply promoted_completed_iff, Hs'. }
  specialize (Hs Hwf Hfinal Hrun). clear Hwf Hfinal.
  destruct out as [d' | e].
  - destruct Hs as (Hu & Hts & Hk & _).
    eexists _, _. split; [reflexivity |]. eapply touches_saved; eassumption.
  - subst w'.
    destruct (includes "already active" (JsError.message e));
      (eexists _, _; split; [reflexivity | apply tick_touches_nothing]).
Qed.

Lemma tracking_wf_stop notes now tt : tracking_wf (stop_session notes now tt).
Proof.
  unfold tracking_wf, stop_session. cbn. split; [discriminate |].
  intros [? Hn]. discriminate.
Qed.

Lemma grown_stop notes now t :
  grown t (with_timeTracking (stop_session notes now (timeTracking t)) t).
Proof.
  repeat split; try reflexivity. cbn. apply prefix_app_r. reflexivity.
Qed.

Lemma stopTask_touches user id notes w :
  exists res w',
    stopTask user id notes w = (Return res, w') /\ touches id kept w w'.
Proof.
  unfold stopTask, try_catch, bind. rewrite findById_run.
  destruct (tasks w !! id) as [t |] eqn:Ht; cbn [fmap option_fmap option_map].
  2:{ eexists _, _. split; [reflexivity | apply touches_refl]. }
  destruct (bool_decide (assignedTo (doc (hydrate id t)) ≠ user_id user)).
  { eexists _, _. split; [reflexivity | apply touches_refl]. }
  unfold stopTimeTracking, stopTimeTracking_sync, bind. cbn [doc hydrate].
  destruct (isActive (timeTracking t)) eqn:Hact; cbn [negb].
  2:{ cbn. eexists _, _. split; [reflexivity | apply touches_refl]. }
  rewrite new_Date_run. unfold ret.
  set (d := set_doc _ (hydrate id t)).
  destruct (save d (tick w)) as [out w'] eqn:Hrun.
  pose proof (save_touches d w (tick w) t out w' (later_tick w) Ht) as Hs.
  assert (Hg : grown t (doc d)) by apply grown_stop.
  assert (Hcond : isActive (timeTracking (doc d)) = false
                  \/ status (doc d) <> TASK_STATUS.COMPLETED
                  \/ status_modified d && negb (isNew d) = false)
    by (left; reflexivity).
  specialize (Hs Hg Hcond). clear Hg Hcond.
  assert (Hwf : task_wf t ->
    tracking_wf (timeTracking (doc d))
    /\ (status (doc d) = TASK_STATUS.COMPLETED ->
        is_Some (completedDate (doc d))
        \/ status_modified d && negb (isNew d) = true)
    /\ (status (doc d) <> TASK_STATUS.COMPLETED ->
        completedDate (doc d) = None)).
  { intros Hw. destruct (task_wf_pre t Hw) as (_ & H1 & H2).
    split; [apply tracking_wf_stop |]. split; [exact H1 | exact H2]. }
  specialize (Hs Hwf (fun Hs' => Hs') Hrun). clear Hwf.
  destruct out as [d' | e].
  - destruct Hs as (Hu & Hts & Hk & _).
    eexists _, _. split; [reflexivity |]. eapply touches_saved; eassumption.
  - subst w'.
    destruct (includes "No active time tracking" (JsError.message e));
      (eexists _, _; split; [reflexivity | apply tick_touches_nothing]).
Qed.

Lemma completeTask_touches user id w :
  exists res w',
    completeTask user id w = (Return res, w') /\ touches id kept w w'.
Proof.
  unfold completeTask, try_catch, bind. rewrite findById_run.
  destruct (tasks w !! id) as [t |] eqn:Ht; cbn [fmap option_fmap option_map].
  2:{ eexists _, _. split; [reflexivity | apply touches_refl]. }
  destruct (bool_decide (assignedTo (doc (hydrate id t)) ≠ user_id user)).
  { eexists _, _. split; [reflexivity | apply touches_refl]. }
  unfold markAsCompleted, bind. rewrite new_Date_run.
  set (d3 := set_modifiedBy _ _).
  assert (Hd3 : doc d3 = with_completedDate (Some (clock w 0%nat))
                           (with_status TASK_STATUS.COMPLETED t)).
  { unfold d3. cbn [doc set_modifiedBy set_doc]. rewrite set_status_doc.
    reflexivity. }
  assert (Hi3 : _id d3 = id).
  { unfold d3. cbn [_id set_modifiedBy set_doc].
    destruct (set_status_flags TASK_STATUS.COMPLETED (hydrate id t)) as (-> & _).
    reflexivity. }
  assert (Hwf3 : forall d, doc d = doc d3 \/
      (exists notes now, doc d = with_timeTracking
                   (stop_session notes now (timeTracking (doc d3))) (doc d3)) ->
    task_wf t -> isActive (timeTracking (doc d)) = false ->
    tracking_wf (timeTracking (doc d))
    /\ (status (doc d) = TASK_STATUS.COMPLETED ->
        is_Some (completedDate (doc d))
        \/ status_modified d && negb (isNew d) = true)
    /\ (status (doc d) <> TASK_STATUS.COMPLETED ->
        completedDate (doc d) = None)).
  { intros d Hd (_ & Htr & _) Hoff. split; [| split].
    - destruct Hd as [Hd | (n & nw & ->)]; [| apply tracking_wf_stop].
      rewrite Hd, Hd3 in Hoff. rewrite Hd, Hd3. cbn in Hoff |- *.
      split; [congruence |]. intros Hsome. apply Htr in Hsome. congruence.
    - intros _. left.
      destruct Hd as [-> | (n & nw & ->)]; rewrite Hd3; cbn; eauto.
    - intros Hne. destruct Hne.
      destruct Hd as [-> | (n & nw & ->)]; rewrite Hd3; reflexivity. }
  cbn [doc]. rewrite Hd3.
  cbn [timeTracking with_completedDate with_status].
  destruct (isActive (timeTracking t)) eqn:Hact.
  - (* the timer runs: [stopTimeTracking] saves, then [markAsCompleted] *)
    unfold stopTimeTracking, stopTimeTracking_sync, bind.
    rewrite Hd3. cbn [timeTracking with_completedDate with_status negb].
    rewrite Hact. cbn [negb]. rewrite new_Date_run. unfold ret.
    set (d := set_doc _ d3).
    assert (Hd : doc d = with_timeTracking
                   (stop_session "Task completed" (clock (tick w) 0%nat)
                      (timeTracking (doc d3))) (doc d3)) by reflexivity.
    destruct (save d (tick (tick w))) as [out w1] eqn:Hrun.
    pose proof (save_touches d w (tick (tick w)) t out w1) as Hs.
    assert (Hl : later w (tick (tick w)))
      by (eapply later_trans; apply later_tick).
    change (_id d) with (_id d3) in Hs. rewrite Hi3 in Hs.
    specialize (Hs Hl Ht).
    assert (Hg : grown t (doc d)).
    { rewrite Hd, Hd3. repeat split; try reflexivity.
      cbn. apply prefix_app_r. reflexivity. }
    assert (Hcond : isActive (timeTracking (doc d)) = false
                    \/ status (doc d) <> TASK_STATUS.COMPLETED
                    \/ status_modified d && negb (isNew d) = false)
      by (left; reflexivity).
    specialize (Hs Hg Hcond). clear Hg Hcond.
    assert (Hwf : task_wf t ->
      tracking_wf (timeTracking (doc d))
      /\ (status (doc d) = TASK_STATUS.COMPLETED ->
          is_Some (completedDate (doc d))
          \/ status_modified d && negb (isNew d) = true)
      /\ (status (doc d) <> TASK_STATUS.COMPLETED ->
          completedDate (doc d) = None)).
    { intros Hw. apply Hwf3; [eauto | exact Hw | reflexivity]. }
    assert (Hfinal : status t = TASK_STATUS.COMPLETED ->
                     status (doc d) = TASK_STATUS.COMPLETED)
      by (intros _; rewrite Hd, Hd3; reflexivity).
    specialize (Hs Hwf Hfinal Hrun). clear Hwf Hfinal.
    destruct out as [d4 | e].
    2:{ subst w1. eexists _, _. split; [reflexivity |].
        eapply touches_later; [exact Hl | apply touches_refl]. }
    destruct Hs as (Hu & Hts & Hk & Hi4 & Hn4 & Hm4 & Htt4).
    assert (T1 : touches id kept w w1) by (eapply touches_saved; eassumption).
    destruct (save d4 w1) as [out w2] eqn:Hrun2.
    pose proof (save_touches d4 w1 w1 (doc d4) out w2 (later_refl w1)) as Hs.
    rewrite Hi4 in Hs.
    assert (Hlk : tasks w1 !! id = Some (doc d4))
      by (rewrite Hts; apply lookup_insert_eq).
    specialize (Hs Hlk (grown_refl _)).
    assert (Hcond : isActive (timeTracking (doc d4)) = false
                    \/ status (doc d4) <> TASK_STATUS.COMPLETED
                    \/ status_modified d4 && negb (isNew d4) = false)
      by (right; right; rewrite Hm4; reflexivity).
    specialize (Hs Hcond). clear Hcond.
    assert (Hwf : task_wf (doc d4) ->
      tracking_wf (timeTracking (doc d4))
      /\ (status (doc d4) = TASK_STATUS.COMPLETED ->
          is_Some (completedDate (doc d4))
          \/ status_modified d4 && negb (isNew d4) = true)
      /\ (status (doc d4) <> TASK_STATUS.COMPLETED ->
          completedDate (doc d4) = None)).
    { intros Hw. destruct (task_wf_pre _ Hw) as (H0 & H1 & H2).
      split; [exact H0 |]. split; [| exact H2].
      intros Hc. destruct (H1 Hc) as [? | ?]; [auto | discriminate]. }
    specialize (Hs Hwf (fun Hs' => Hs') Hrun2). clear Hwf.
    destruct out as [d5 | e].
    + destruct Hs as (Hu5 & Hts5 & Hk5 & _).
      eexists _, _. split; [reflexivity |].
      eapply touches_trans; [exact kept_trans | exact T1 |].
      eapply touches_saved; eassumption.
    + subst w2. eexists _, _. split; [reflexivity | exact T1].
  - unfold ret.
    destruct (save d3 (tick w)) as [out w1] eqn:Hrun.
    pose proof (save_touches d3 w (tick w) t out w1 (later_tick w)) as Hs.
    rewrite Hi3 in Hs. specialize (Hs Ht).
    assert (Hg : grown t (doc d3)).
    { rewrite Hd3. repeat split; reflexivity. }
    assert (Hcond : isActive (timeTracking (doc d3)) = false
                    \/ status (doc d3) <> TASK_STATUS.COMPLETED
                    \/ status_modified d3 && negb (isNew d3) = false)
      by (left; rewrite Hd3; exact Hact).
    specialize (Hs Hg Hcond). clear Hg Hcond.
    assert (Hwf : task_wf t ->
      tracking_wf (timeTracking (doc d3))
      /\ (status (doc d3) = TASK_STATUS.COMPLETED ->
          is_Some (completedDate (doc d3))
          \/ status_modified d3 && negb (isNew d3) = true)
      /\ (status (doc d3) <> TASK_STATUS.COMPLETED ->
          completedDate (doc d3) = None)).
    { intros Hw. apply Hwf3; [eauto | exact Hw |]. rewrite Hd3. exact Hact. }
    assert (Hfinal : status t = TASK_STATUS.COMPLETED ->
                     status (doc d3) = TASK_STATUS.COMPLETED)
      by (intros _; rewrite Hd3; reflexivity).
    specialize (Hs Hwf Hfinal Hrun). clear Hwf Hfinal.
    destruct out as [d4 | e].
    + destruct Hs as (Hu & Hts & Hk & _).
      eexists _, _. split; [reflexivity |]. eapply touches_saved; eassumption.
    + subst w1. eexists _, _. split; [reflexivity | apply tick_touches_nothing].
Qed.

Lemma required_string_nil path msg max msg_max s :
  required_string path msg max msg_max s = []
  <-> s <> "" /\ (String.length s <= max)%nat.
Proof.
  unfold required_string. repeat case_bool_decide; split;
    try discriminate; try tauto; try (intros [? ?]; try lia; tauto).
  all: intros _; split; [assumption | lia].
Qed.

Lemma validate_nil t :
  validate t = []
  <-> (title t <> "" /\ (String.length (title t) <= 200)%nat)
      /\ (description t <> "" /\ (String.length (description t) <= 2000)%nat)
      /\ is_Some (dueDate t)
      /\ forall s, s ∈ sessions (timeTracking t) -> is_Some (startTime s).
Proof.
  unfold validate. rewrite !app_nil, !required_string_nil.
  assert (Hd : match dueDate t with
               | Some _ => []
               | None => [("dueDate", "Due date is required")]
               end = [] <-> is_Some (dueDate t)).
  { destruct (dueDate t); split; eauto; try discriminate.
    intros [? ?]; discriminate. }
  assert (Hs : concat (validate_session <$> sessions (timeTracking t)) = []
               <-> forall s, s ∈ sessions (timeTracking t) ->
                             is_Some (startTime s)).
  { induction (sessions (timeTracking t)) as [| s l IH]; cbn.
    - split; [intros _ s Hin; inversion Hin | reflexivity].
    - rewrite app_nil, IH. unfold validate_session. split.
      + intros [H1 H2] s' Hin. apply elem_of_cons in Hin as [-> | Hin]; auto.
        destruct (startTime s); [eauto | discriminate].
      + intros Hall. split.
        * destruct (Hall s) as [x ->]; [left | reflexivity].
        * intros s' Hin. apply Hall. right. exact Hin. }
  rewrite Hd, Hs. tauto.
Qed.

Lemma body_errors_nil (input : TaskInput) :
  cast_startDate (in_startDate input)
  ++ validate_estimatedHours (in_estimatedHours input) = []
  <-> in_startDate input <> InvalidDate
      /\ (forall h, in_estimatedHours input = Some h ->
           QArith_base.Qle_bool (QArith_base.Qmake 0 1) h = true).
Proof.
  rewrite app_nil. unfold cast_startDate, validate_estimatedHours. split.
  - intros [Hc Hv]. split.
    + intros Heq. rewrite Heq in Hc. discriminate.
    + intros h Hh. rewrite Hh in Hv.
      destruct (QArith_base.Qle_bool _ h); [reflexivity | discriminate].
  - intros [Hs Hh]. split.
    + destruct (in_startDate input); [reflexivity | congruence | reflexivity].
    + destruct (in_estimatedHours input) as [h |];
        [rewrite (Hh h eq_refl) |]; reflexivity.
Qed.

(** The task that [createTask] makes of a body passes the validation,
    that of the start date and of the estimated hours included, exactly
    when the body is valid. *)
Lemma validate_new input (t : Task) :
  title t = String_trim (in_title input) ->
  description t = String_trim (in_description input) ->
  dueDate t = in_dueDate input -> sessions (timeTracking t) = [] ->
  validate t = []
  /\ cast_startDate (in_startDate input)
     ++ validate_estimatedHours (in_estimatedHours input) = []
  <-> input_valid input.
Proof.
  intros H1 H2 H3 H4. rewrite body_errors_nil, validate_nil, H1, H2, H3, H4.
  unfold input_valid. split.
  - tauto.
  - intros H. repeat split; try tauto. intros s Hin. inversion Hin.
Qed.

(** The first [save] of a document made by [new Task]. *)
Lemma save_new id t0 w d' w' :
  save (new_Task id t0) w = (Return d', w') ->
  isActive (timeTracking t0) = false ->
  users w' = users w
  /\ tasks w' = <[ id := doc d' ]> (tasks w)
  /\ title (doc d') = title t0 /\ description (doc d') = description t0
  /\ assignedTo (doc d') = assignedTo t0 /\ assignedBy (doc d') = assignedBy t0
  /\ dueDate (doc d') = dueDate t0
  /\ statusHistory (doc d') = statusHistory t0
  /\ completedDate (doc d') = completedDate t0
  /\ timeTracking (doc d') = timeTracking t0
  /\ (exists now, reading w now
        /\ status (doc d') = overdue_status now (dueDate t0) (status t0))
  /\ validate (doc d') = [].
Proof.
  intros Hrun Hoff.
  destruct (save_result _ _ _ _ Hrun) as (Hv & Hpost & Hcd).
  destruct (save_post_world _ _ _ _ Hpost) as [Htasks Husers].
  destruct Hpost as (_ & _ & _ & _ & _ & P1 & P2 & P3 & P4 & P5 & Hst & Hh
                     & _ & _ & Htt & _).
  cbn [new_Task doc isNew status_modified negb andb _id] in *.
  specialize (Htt (or_introl Hoff)). specialize (Hcd (or_introl eq_refl)).
  repeat (split; [assumption |]).
  rewrite <- Hv. apply validate_indep; congruence.
Qed.

Lemma overdue_status_pending now due :
  overdue_status now due TASK_STATUS.PENDING = TASK_STATUS.PENDING
  \/ overdue_status now due TASK_STATUS.PENDING = TASK_STATUS.OVERDUE.
Proof.
  unfold overdue_status. destruct due; [| auto].
  destruct (bool_decide _); cbn; auto.
Qed.

(** What [createTask] does to the collection: nothing, or one task more
    under an id that was free. *)
Lemma createTask_effect user input w :
  exists res w',
    createTask user input w = (Return res, w')
    /\ users w' = users w
    /\ (tasks w' = tasks w
        \/ exists id t', tasks w !! id = None
                         /\ tasks w' = <[ id := t' ]> (tasks w)
                         /\ task_wf t').
Proof.
  unfold createTask, try_catch, bind.
  unfold User_findById at 1.
  destruct (users w !! in_assignedTo input) as [u |] eqn:Hu.
  2:{ eexists _, _. split; [reflexivity | auto]. }
  destruct (userIsActive u) eqn:Hactive.
  2:{ eexists _, _. split; [reflexivity | auto]. }
  unfold new_ObjectId at 1.
  set (id := fresh (dom (tasks w))).
  destruct (cast_startDate _ ++ validate_estimatedHours _).
  2:{ unfold throw. destruct (bool_decide _);
        (eexists _, _; split; [reflexivity | auto]). }
  match goal with |- context [save (new_Task id ?t) w] => set (t0 := t) end.
  destruct (save (new_Task id t0) w) as [[d' | e] w'] eqn:Hrun.
  - destruct (save_new _ _ _ _ _ Hrun eq_refl)
      as (Hus & Hts & _ & _ & _ & _ & _ & _ & H7 & H8 & (now & _ & H9) & Hv).
    eexists _, _. split; [reflexivity |]. split; [exact Hus |].
    right. exists id, (doc d'). split; [apply not_elem_of_dom, is_fresh |].
    split; [exact Hts |]. split; [exact Hv |]. split.
    + rewrite H8. cbn. split; [discriminate |]. intros [? ?]. discriminate.
    + rewrite H9, H7, overdue_status_completed_iff. cbn.
      split; [discriminate |]. intros [? ?]. discriminate.
  - assert (Hw' : w' = w).
    { destruct (validate (doc (new_Task id t0))) eqn:Hv.
      - destruct (save_spec _ w Hv) as (? & ? & Hrun' & _). congruence.
      - rewrite save_invalid in Hrun by (rewrite Hv; discriminate). congruence. }
    subst w'. destruct (bool_decide _);
      (eexists _, _; split; [reflexivity | auto]).
Qed.

(** One request, seen from the tasks that are in the store. *)
Lemma serve_step r w :
  users (serve r w).2 = users w
  /\ (forall id t, tasks w !! id = Some t ->
        exists t', tasks (serve r w).2 !! id = Some t' /\ kept t t')
  /\ (forall id t', tasks (serve r w).2 !! id = Some t' ->
        tasks w !! id = None -> task_wf t').
Proof.
  assert (Htouch : forall id0 w',
            touches id0 kept w w' ->
            users w' = users w
            /\ (forall id t, tasks w !! id = Some t ->
                  exists t', tasks w' !! id = Some t' /\ kept t t')
            /\ (forall id t', tasks w' !! id = Some t' ->
                  tasks w !! id = None -> task_wf t')).
  { intros id0 w' [Hu [E | (t & t' & Ht & E & Hk)]].
    - split; [exact Hu |]. rewrite E. split.
      + intros id t H. exists t. split; [exact H | apply kept_refl].
      + intros id t' H1 H2. congruence.
    - split; [exact Hu |]. rewrite E. split.
      + intros id t1 H. destruct (decide (id = id0)) as [-> | Hne].
        * rewrite lookup_insert_eq. exists t'. split; [reflexivity |].
          congruence.
        * rewrite lookup_insert_ne by congruence. exists t1.
          split; [exact H | apply kept_refl].
      + intros id t1 H1 H2. destruct (decide (id = id0)) as [-> | Hne];
          [congruence |].
        rewrite lookup_insert_ne in H1 by congruence. congruence. }
  destruct r as [user input | user id | user id notes | user id];
    cbn [serve].
  - destruct (createTask_effect user input w)
      as (res & w' & -> & Hu & [E | (id & t' & Hfree & E & Hw)]);
      cbn [snd]; (split; [exact Hu |]); rewrite E; split.
    + intros id t H. exists t. split; [exact H | apply kept_refl].
    + intros id t' H1 H2. congruence.
    + intros id1 t H. exists t. split; [| apply kept_refl].
      rewrite lookup_insert_ne by congruence. exact H.
    + intros id1 t1 H1 H2. destruct (decide (id1 = id)) as [-> | Hne].
      * rewrite lookup_insert_eq in H1. congruence.
      * rewrite lookup_insert_ne in H1 by congruence. congruence.
  - destruct (startTask_touches user id w) as (res & w' & -> & T).
    exact (Htouch id w' T).
  - destruct (stopTask_touches user id notes w) as (res & w' & -> & T).
    exact (Htouch id w' T).
  - destruct (completeTask_touches user id w) as (res & w' & -> & T).
    exact (Htouch id w' T).
Qed.

(** A start by the assignee of a schema-valid task whose timer is off. *)
Lemma startTask_opens_session user id t w :
  tasks w !! id = Some t ->
  assignedTo t = user_id user ->
  isActive (timeTracking t) = false ->
  validate t = [] ->
  exists res w' t',
    startTask user id w = (Return res, w')
    /\ statusCode res = HTTP_STATUS.OK
    /\ data res = TaskData (Some t')
    /\ tasks w' = <[ id := t' ]> (tasks w)
    /\ users w' = users w
    /\ (exists k, forall n, clock w' n = clock w (S k + n)%nat)
    /\ timeTracking t'
       = {| totalTimeSpent := totalTimeSpent (timeTracking t);
            sessions := sessions (timeTracking t);
            isActive := true;
            currentSessionStart := Some (clock w 0%nat) |}
    /\ validate t' = []
    /\ grown t t'.
Proof.
  intros Ht Ha Hoff Hv.
  unfold startTask, try_catch, bind. rewrite findById_run, Ht.
  cbn [fmap option_fmap option_map doc hydrate].
  rewrite bool_decide_eq_false_2 by (intros Hne; apply Hne, Ha).
  unfold startTimeTracking. cbn [doc hydrate]. rewrite Hoff.
  unfold bind. rewrite new_Date_run.
  set (d1 := set_doc _ (hydrate id t)).
  set (d2 := if bool_decide (status (doc d1) = TASK_STATUS.PENDING)
             then set_status TASK_STATUS.IN_PROGRESS d1 else d1).
  assert (Hd2 : doc d2 = with_status (promoted (status t)) (doc d1)).
  { unfold d2, promoted, d1. cbn [doc set_doc hydrate status with_timeTracking].
    destruct (bool_decide (status t = TASK_STATUS.PENDING));
      [apply set_status_doc |].
    destruct t; reflexivity. }
  assert (Hf2 : _id d2 = id /\ isNew d2 = false
                /\ status_modified d2 = bool_decide (status t = TASK_STATUS.PENDING)).
  { unfold d2, d1. cbn [doc set_doc hydrate status with_timeTracking].
    destruct (bool_decide (status t = TASK_STATUS.PENDING)) eqn:Hp.
    - match goal with |- context [set_status ?s ?d] =>
        destruct (set_status_flags s d) as (-> & -> & _ & _ & ->) end.
      cbn [_id status_modified isNew set_doc hydrate doc status with_timeTracking].
      apply bool_decide_eq_true_1 in Hp. rewrite Hp.
      repeat split.
    - repeat split. }
  destruct Hf2 as (Hi2 & Hn2 & Hm2).
  assert (Hv2 : validate (doc d2) = []).
  { rewrite <- Hv, Hd2. apply validate_indep; reflexivity. }
  destruct (save_spec d2 (tick w) Hv2) as (d' & w' & Hrun & Hpost).
  rewrite Hrun. unfold ret.
  assert (Hg : grown t (doc d2)).
  { rewrite Hd2. repeat split; reflexivity. }
  assert (Hcond : isActive (timeTracking (doc d2)) = false
                  \/ status (doc d2) <> TASK_STATUS.COMPLETED
                  \/ status_modified d2 && negb (isNew d2) = false).
  { rewrite Hd2, Hm2, Hn2. cbn [status with_status]. unfold promoted.
    case_bool_decide; [right; left; discriminate | right; right; reflexivity]. }
  destruct (save_grown t _ _ _ _ Hrun Hg Hcond) as (Hg' & Hv' & Htt').
  destruct (save_post_world _ _ _ _ Hpost) as [Hts Hus].
  destruct Hpost as ((w1 & (_ & _ & k & Hk) & ->) & _).
  eexists (respond HTTP_STATUS.OK (Succ SUCCESS_MESSAGES.TASK_STARTED)
             (TaskData (Some (doc d')))), _, (doc d').
  split; [reflexivity |]. split; [reflexivity |]. split; [reflexivity |].
  split; [rewrite Hts, Hi2; reflexivity |]. split; [exact Hus |].
  split. { exists k. intros n. cbn [clock with_tasks]. rewrite Hk. reflexivity. }
  split; [rewrite Htt', Hd2; reflexivity |]. auto.
Qed.

Lemma completeTask_store user id w :
  store_consistent w -> store_consistent (completeTask user id w).2.
Proof.
  intros Hw. unfold completeTask, try_catch, bind. rewrite findById_run.
  destruct (tasks w !! id) as [t |] eqn:Ht; [| exact Hw].
  cbn [fmap option_fmap option_map].
  destruct (bool_decide (assignedTo (doc (hydrate id t)) ≠ user_id user));
    [exact Hw |].
  unfold markAsCompleted, bind. rewrite new_Date_run.
  set (d3 := set_modifiedBy _ _).
  assert (Hd3 : timeTracking (doc d3) = timeTracking t).
  { unfold d3. cbn [doc set_modifiedBy set_doc]. rewrite set_status_doc.
    reflexivity. }
  rewrite Hd3.
  destruct (isActive (timeTracking t)) eqn:Hact.
  - unfold stopTimeTracking, stopTimeTracking_sync, bind.
    rewrite Hd3, Hact. cbn [negb]. rewrite new_Date_run. unfold ret.
    set (d := set_doc _ d3).
    assert (Hd : time_consistent (timeTracking (doc d))).
    { unfold d. cbn [doc set_doc timeTracking with_timeTracking].
      rewrite Hd3. apply stop_session_consistent, (Hw id t Ht). }
    pose proof (save_store d (tick (tick w)) Hd Hw) as Hs.
    destruct (save d (tick (tick w))) as [[d4 | e] w1] eqn:Hrun;
      cbn [snd] in Hs; [| exact Hs].
    destruct (save_result _ _ _ _ Hrun) as (_ & Hpost & _).
    destruct (save_post_world _ _ _ _ Hpost) as [Hts _].
    assert (H4 : time_consistent (timeTracking (doc d4))).
    { apply (Hs (_id d) (doc d4)). rewrite Hts. apply lookup_insert_eq. }
    pose proof (save_store d4 w1 H4 Hs) as Hs2.
    destruct (save d4 w1) as [[d5 | e] w2]; exact Hs2.
  - unfold ret.
    assert (Hd : time_consistent (timeTracking (doc d3)))
      by (rewrite Hd3; apply (Hw id t Ht)).
    pose proof (save_store d3 (tick w) Hd Hw) as Hs.
    destruct (save d3 (tick w)) as [[d4 | e] w1]; exact Hs.
Qed.

Lemma serve_store r w :
  store_consistent w -> store_consistent (serve r w).2.
Proof.
  destruct r; cbn [serve];
    [apply createTask_store | apply startTask_store | apply stopTask_store
    | apply completeTask_store].
Qed.

(** A valid body for a known, active assignee: the run of [createTask]
    and what it stores. *)
Lemma createTask_runs (user assignee : User) (input : TaskInput) (w : World) :
  input_valid input ->
  users w !! in_assignedTo input = Some assignee ->
  userIsActive assignee = true ->
  exists id t' w',
    createTask user input w
    = (Return (respond HTTP_STATUS.CREATED (Succ SUCCESS_MESSAGES.TASK_CREATED)
                 (TaskData (Some t'))), w')
    /\ tasks w !! id = None
    /\ tasks w' = <[ id := t' ]> (tasks w)
    /\ users w' = users w.
Proof.
  intros Hin Hu Hactive.
  unfold createTask, try_catch, bind.
  unfold User_findById at 1. rewrite Hu, Hactive.
  unfold new_ObjectId at 1.
  set (id := fresh (dom (tasks w))).
  rewrite (input_valid_body input Hin).
  match goal with |- context [save (new_Task id ?t) w] => set (t0 := t) end.
  assert (Hv : validate (doc (new_Task id t0)) = []).
  { apply (validate_new input t0); [reflexivity .. | exact Hin]. }
  destruct (save_spec _ w Hv) as (d' & w' & Hrun & Hpost).
  rewrite Hrun. unfold ret.
  destruct (save_post_world _ _ _ _ Hpost) as [Hts Hus].
  exists id, (doc d'), w'. split; [reflexivity |].
  split; [apply not_elem_of_dom, is_fresh |]. split; [exact Hts | exact Hus].
Qed.


(** ** The static finders and the statistics *)

Lemma elem_of_stored (w : World) (t : Task) :
  t ∈ (map_to_list (tasks w)).*2 <-> exists id, tasks w !! id = Some t.
Proof.
  rewrite list_elem_of_fmap. split.
  - intros ([id t'] & -> & Hin). exists id.
    apply elem_of_map_to_list in Hin. exact Hin.
  - intros [id Hid]. exists (id, t). split; [reflexivity |].
    apply elem_of_map_to_list. exact Hid.
Qed.

Lemma elem_of_List_filter {A} (P : A -> bool) (l : list A) (x : A) :
  x ∈ List.filter P l <-> x ∈ l /\ P x = true.
Proof. rewrite !list_elem_of_In. apply filter_In. Qed.

Lemma overdue_criteria_isOverdue now t :
  overdue_criteria now t = isOverdue now t.
Proof.
  unfold overdue_criteria, isOverdue.
  destruct (status t); destruct (dueDate t) as [due |];
    try destruct (bool_decide (due < now)); reflexivity.
Qed.

Lemma insert_sorted_Permutation cmp desc x l :
  insert_sorted cmp desc x l ≡ₚ x :: l.
Proof.
  induction l as [| y l IH]; cbn [insert_sorted]; [reflexivity |].
  destruct (before cmp desc x y); [reflexivity |].
  rewrite IH. apply Permutation_swap.
Qed.

Lemma sort_tasks_Permutation cmp desc l : sort_tasks cmp desc l ≡ₚ l.
Proof.
  induction l as [| x l IH]; cbn [sort_tasks foldr]; [reflexivity |].
  rewrite insert_sorted_Permutation. fold (sort_tasks cmp desc l).
  rewrite IH. reflexivity.
Qed.

Lemma count_in_sum {K} `{EqDecision K} (k : K) (g : list (K * nat)) :
  sum_list (count_in k g).*2 = S (sum_list g.*2).
Proof.
  induction g as [| [k' n] g IH]; cbn [count_in]; [reflexivity |].
  case_bool_decide; rewrite !fmap_cons; cbn [snd];
    change (sum_list (?a :: ?l)) with (a + sum_list l)%nat.
  - lia.
  - rewrite IH. lia.
Qed.

Lemma count_in_keys {K} `{EqDecision K} (k : K) (g : list (K * nat)) :
  (count_in k g).*1 = if bool_decide (k ∈ g.*1) then g.*1 else g.*1 ++ [k].
Proof.
  induction g as [| [k' n] g IH]; cbn [count_in].
  - rewrite bool_decide_eq_false_2; [reflexivity |]. intros Hin. inversion Hin.
  - destruct (decide (k' = k)) as [-> | Hk].
    + rewrite bool_decide_eq_true_2 by reflexivity. rewrite !fmap_cons.
      cbn [fst]. rewrite bool_decide_eq_true_2 by left. reflexivity.
    + rewrite bool_decide_eq_false_2 by exact Hk. rewrite !fmap_cons.
      cbn [fst]. rewrite IH.
      destruct (bool_decide (k ∈ g.*1)) eqn:Hin.
      * apply bool_decide_eq_true_1 in Hin.
        rewrite bool_decide_eq_true_2 by (right; exact Hin). reflexivity.
      * apply bool_decide_eq_false_1 in Hin.
        rewrite bool_decide_eq_false_2; [reflexivity |].
        intros Hc. apply elem_of_cons in Hc as [-> | Hc]; tauto.
Qed.

Lemma count_in_NoDup {K} `{EqDecision K} (k : K) (g : list (K * nat)) :
  NoDup g.*1 -> NoDup (count_in k g).*1.
Proof.
  intros Hg. rewrite count_in_keys. case_bool_decide as Hin; [exact Hg |].
  apply NoDup_app. split; [exact Hg |]. split.
  - intros x Hx Hx'. apply list_elem_of_singleton in Hx'. subst x. tauto.
  - apply NoDup_singleton.
Qed.

Lemma group_count_spec {K} `{EqDecision K} (key : Task -> K) (l : list Task) :
  sum_list (group_count key l).*2 = length l
  /\ NoDup (group_count key l).*1.
Proof.
  unfold group_count.
  assert (Hgen : forall g,
            NoDup g.*1 ->
            sum_list (foldl (fun groups t => count_in (key t) groups) g l).*2
            = (sum_list g.*2 + length l)%nat
            /\ NoDup (foldl (fun groups t => count_in (key t) groups) g l).*1).
  { induction l as [| t l IH]; intros g Hg; cbn [foldl length].
    - split; [lia | exact Hg].
    - destruct (IH (count_in (key t) g) (count_in_NoDup _ _ Hg)) as [-> Hn].
      rewrite count_in_sum. split; [lia | exact Hn]. }
  destruct (Hgen [] (NoDup_nil_2)) as [Hs Hn]. split; [exact Hs | exact Hn].
Qed.

Lemma assign_key_absent {K V} `{EqDecision K} (k : K) (v : V)
    (o : list (K * V)) :
  k ∉ o.*1 -> assign_key k v o = o ++ [(k, v)].
Proof.
  induction o as [| [k' v'] o IH]; cbn [assign_key]; [reflexivity |].
  intros Hk. rewrite fmap_cons in Hk. cbn [fst] in Hk.
  apply not_elem_of_cons in Hk as [Hne Hk].
  rewrite bool_decide_eq_false_2 by congruence.
  rewrite IH by exact Hk. reflexivity.
Qed.

(** Groups have distinct keys: the object made of them has one property
    for each, in their order. *)
Lemma reduce_counts_id {K} `{EqDecision K} (stats : list (K * nat)) :
  NoDup stats.*1 -> reduce_counts id stats = stats.
Proof.
  unfold reduce_counts.
  assert (Hgen : forall acc,
            NoDup (acc ++ stats).*1 ->
            foldl (fun acc stat => assign_key (id stat.1) stat.2 acc) acc stats
            = acc ++ stats).
  { induction stats as [| [k n] stats IH]; intros acc Hnd; cbn [foldl].
    - rewrite app_nil_r. reflexivity.
    - cbn [fst snd id]. rewrite assign_key_absent.
      + rewrite IH; rewrite <- app_assoc; [reflexivity | exact Hnd].
      + rewrite fmap_app in Hnd. apply NoDup_app in Hnd as (_ & Hd & _).
        intros Hin. apply (Hd k Hin). left. }
  intros Hnd. apply (Hgen []). exact Hnd.
Qed.

Lemma matches_empty_filter t : matches empty_filter t = true.
Proof. reflexivity. Qed.

Lemma List_filter_true {A} (P : A -> bool) (l : list A) :
  (forall x, P x = true) -> List.filter P l = l.
Proof.
  intros HP. induction l as [| x l IH]; cbn [List.filter]; [reflexivity |].
  rewrite HP, IH. reflexivity.
Qed.

(** ** The listing *)

Lemma length_limit_tasks n l :
  (length (limit_tasks n l) <= length l)%nat
  /\ ((0 < n)%nat -> (length (limit_tasks n l) <= n)%nat).
Proof.
  unfold limit_tasks. case_bool_decide; [lia |].
  rewrite length_take. lia.
Qed.

(** [page < Math.ceil(total / limit)], for a limit that is positive. *)
Lemma lt_ceil_div page total lim :
  (0 < lim)%nat ->
  lt_jsnum page (ceil_div total lim) = true <-> (page * lim < total)%nat.
Proof.
  intros Hl. unfold ceil_div. rewrite bool_decide_eq_false_2 by lia.
  cbn [lt_jsnum]. rewrite bool_decide_eq_true. split.
  - intros Hlt.
    destruct (Nat.lt_ge_cases (page * lim) total) as [| Hge]; [assumption |].
    exfalso. apply Nat.lt_nge in Hlt. apply Hlt.
    apply Nat.lt_succ_r, Nat.Div0.div_lt_upper_bound. nia.
  - intros Hlt. apply Nat.lt_le_trans with (S page - 0)%nat; [lia |].
    rewrite Nat.sub_0_r. apply Nat.div_le_lower_bound; [lia | nia].
Qed.

Lemma matches_criteria f t :
  matches f t = true ->
  (forall s, f_status f = Some s -> status t = s)
  /\ (forall u, f_assignedTo f = Some u -> assignedTo t = u)
  /\ (forall u, f_assignedBy f = Some u -> assignedBy t = u)
  /\ (forall d, f_createdAt_gte f = Some d -> d <= createdAt t)
  /\ (forall d, f_createdAt_lte f = Some d -> createdAt t <= d).
Proof.
  unfold matches. rewrite !andb_true_iff.
  intros ((((((H1 & _) & H3) & H4) & H5) & H6) & _).
  repeat split; intros x Hx; rewrite Hx in *; cbn [criterion] in *;
    match goal with
    | H : bool_decide _ = true |- _ => apply bool_decide_eq_true_1 in H; exact H
    end.
Qed.


(** ** [createTask] *)


Lemma padded_audit_valid : input_valid padded_audit.
Proof.
  unfold input_valid, padded_audit.
  cbn [in_title in_description in_dueDate in_startDate in_estimatedHours].
  split; [vm_compute; discriminate |]. split; [vm_compute; lia |].
  split; [vm_compute; discriminate |]. split; [vm_compute; lia |].
  split; [eauto |]. split; [discriminate |].
  intros h [= <-]. reflexivity.
Qed.




(** ** Requests about one task *)

(** X1: every handler that takes the id of a task answers 404 with
    "Task not found" when no task is stored under the id, whoever asks
    and whatever the body, and leaves the store as it is. *)
Theorem missing_task_not_found `{Externals} (user : User) (id : ObjectId)
    (body : Body) (notes : option string) (w : World) :
  tasks w !! id = None ->
  let not_found :=
    (Return (fail HTTP_STATUS.NOT_FOUND ERROR_MESSAGES.TASK_NOT_FOUND
               "Task not found"), w) in
  getTaskById user id w = not_found
  /\ updateTask user id body w = not_found
  /\ deleteTask user id w = not_found
  /\ startTask user id w = not_found
  /\ stopTask user id notes w = not_found
  /\ completeTask user id w = not_found.
Proof.
  intros Hnone not_found. unfold not_found.
  unfold getTaskById, updateTask, deleteTask, startTask, stopTask,
    completeTask, try_catch, bind.
  rewrite !findById_run, Hnone. repeat split.
Qed.

Lemma missing_task_not_found_witness :
  let w := world_of (task7 TASK_STATUS.PENDING false None) 50 in
  let not_found :=
    (Return (fail HTTP_STATUS.NOT_FOUND ERROR_MESSAGES.TASK_NOT_FOUND
               "Task not found"), w) in
  getTaskById root 8%N w = not_found
  /\ @updateTask plain_env root 8%N [("status", JStatus TASK_STATUS.CANCELLED)] w
     = not_found
  /\ deleteTask root 8%N w = not_found
  /\ startTask root 8%N w = not_found
  /\ stopTask root 8%N None w = not_found
  /\ completeTask root 8%N w = not_found.
Proof.
  intros w.
  apply (@missing_task_not_found plain_env root 8%N
           [("status", JStatus TASK_STATUS.CANCELLED)] None w).
  reflexivity.
Defined.

(** X2: the timer and the completion of a task are its assignee's alone:
    start, stop and complete asked by anyone else, an administrator or
    the assigner included, are answered with 403 and change nothing. *)
Theorem tracking_is_the_assignees (user : User) (id : ObjectId) (t : Task)
    (notes : option string) (w : World) :
  tasks w !! id = Some t ->
  assignedTo t <> user_id user ->
  startTask user id w
  = (Return (fail HTTP_STATUS.FORBIDDEN ERROR_MESSAGES.TASK_NOT_ASSIGNED
               "You can only start tasks assigned to you"), w)
  /\ stopTask user id notes w
     = (Return (fail HTTP_STATUS.FORBIDDEN ERROR_MESSAGES.TASK_NOT_ASSIGNED
                  "You can only stop tasks assigned to you"), w)
  /\ completeTask user id w
     = (Return (fail HTTP_STATUS.FORBIDDEN ERROR_MESSAGES.TASK_NOT_ASSIGNED
                  "You can only complete tasks assigned to you"), w).
Proof.
  intros Ht Hne.
  unfold startTask, stopTask, completeTask, try_catch, bind.
  rewrite !findById_run, Ht. cbn [fmap option_fmap option_map doc hydrate].
  rewrite (bool_decide_eq_true_2 _ Hne). repeat split.
Qed.

Lemma tracking_is_the_assignees_witness :
  let w := world_of (task7 TASK_STATUS.IN_PROGRESS true (Some 40)) 50 in
  startTask root 7%N w
  = (Return (fail HTTP_STATUS.FORBIDDEN ERROR_MESSAGES.TASK_NOT_ASSIGNED
               "You can only start tasks assigned to you"), w)
  /\ stopTask root 7%N None w
     = (Return (fail HTTP_STATUS.FORBIDDEN ERROR_MESSAGES.TASK_NOT_ASSIGNED
                  "You can only stop tasks assigned to you"), w)
  /\ completeTask root 7%N w
     = (Return (fail HTTP_STATUS.FORBIDDEN ERROR_MESSAGES.TASK_NOT_ASSIGNED
                  "You can only complete tasks assigned to you"), w).
Proof.
  intros w.
  apply (tracking_is_the_assignees root 7%N
           (task7 TASK_STATUS.IN_PROGRESS true (Some 40)) None w).
  - reflexivity.
  - discriminate.
Defined.

(** X3: a stop asked by the assignee while no session runs is answered
    with 400 and the message of the error that [stopTimeTracking]
    throws; nothing is written, no session of length zero is added. *)
Theorem stop_without_session (user : User) (id : ObjectId) (t : Task)
    (notes : option string) (w : World) :
  tasks w !! id = Some t ->
  assignedTo t = user_id user ->
  isActive (timeTracking t) = false ->
  stopTask user id notes w
  = (Return (fail HTTP_STATUS.BAD_REQUEST ERROR_MESSAGES.VALIDATION_ERROR
               "No active time tracking session for this task"), w).
Proof.
  intros Ht Ha Hoff.
  unfold stopTask, try_catch, bind.
  rewrite findById_run, Ht. cbn [fmap option_fmap option_map doc hydrate].
  rewrite bool_decide_eq_false_2 by (intros Hne; apply Hne, Ha).
  unfold stopTimeTracking, stopTimeTracking_sync, bind.
  cbn [doc hydrate]. rewrite Hoff. reflexivity.
Qed.

Lemma stop_without_session_witness :
  let w := world_of (task7 TASK_STATUS.PENDING false None) 50 in
  stopTask alice 7%N (Some "done") w
  = (Return (fail HTTP_STATUS.BAD_REQUEST ERROR_MESSAGES.VALIDATION_ERROR
               "No active time tracking session for this task"), w).
Proof.
  intros w.
  apply (stop_without_session alice 7%N
           (task7 TASK_STATUS.PENDING false None) (Some "done") w);
    reflexivity.
Defined.

(** X4: a start followed by a stop, both by the assignee of a
    schema-valid task whose timer is off, records exactly one session
    more: from the reading of the clock that the start took to the one
    that the stop took, with their difference as its duration and added
    to the total, and the timer is off again. *)
Theorem start_then_stop (user : User) (id : ObjectId) (t : Task)
    (notes : option string) (w : World) :
  tasks w !! id = Some t ->
  assignedTo t = user_id user ->
  isActive (timeTracking t) = false ->
  validate t = [] ->
  exists r1 w1 r2 w2 t2 k,
    startTask user id w = (Return r1, w1)
    /\ stopTask user id notes w1 = (Return r2, w2)
    /\ statusCode r1 = HTTP_STATUS.OK
    /\ statusCode r2 = HTTP_STATUS.OK
    /\ data r2 = TaskData (Some t2)
    /\ tasks w2 !! id = Some t2
    /\ let started := clock w 0%nat in
       let stopped := clock w (S k) in
       (exists s,
          sessions (timeTracking t2) = sessions (timeTracking t) ++ [s]
          /\ startTime s = Some started /\ endTime s = Some stopped
          /\ duration s = stopped - started)
       /\ totalTimeSpent (timeTracking t2)
          = totalTimeSpent (timeTracking t) + (stopped - started)
       /\ isActive (timeTracking t2) = false
       /\ currentSessionStart (timeTracking t2) = None.
Proof.
  intros Ht Ha Hoff Hv.
  destruct (startTask_opens_session user id t w Ht Ha Hoff Hv)
    as (r1 & w1 & t1 & Hrun1 & Hok1 & _ & Hts & _ & (k & Hk) & Htt1 & Hv1 & Hg1).
  assert (Hlk : tasks w1 !! id = Some t1)
    by (rewrite Hts; apply lookup_insert_eq).
  assert (Ha1 : assignedTo t1 = user_id user).
  { destruct Hg1 as (_ & _ & -> & _). exact Ha. }
  destruct (stopTask_appends_session user id notes t1 (clock w 0%nat) w1
              Hlk Ha1)
    as (r2 & w2 & Hrun2 & t2 & Hok2 & Hdata & Hlk2 & Htt2);
    [rewrite Htt1; reflexivity | rewrite Htt1; reflexivity | exact Hv1 |].
  exists r1, w1, r2, w2, t2, k.
  do 6 (split; [assumption |]).
  cbv zeta. rewrite Htt2, Htt1, Hk, Nat.add_0_r.
  cbn [sessions totalTimeSpent isActive currentSessionStart].
  split; [eexists; split; [reflexivity | repeat split] | repeat split].
Qed.

Lemma start_then_stop_witness :
  let w := world_of (task7 TASK_STATUS.PENDING false None) 100 in
  exists r1 w1 r2 w2 t2 k,
    startTask alice 7%N w = (Return r1, w1)
    /\ stopTask alice 7%N (Some "lunch") w1 = (Return r2, w2)
    /\ statusCode r1 = HTTP_STATUS.OK
    /\ statusCode r2 = HTTP_STATUS.OK
    /\ data r2 = TaskData (Some t2)
    /\ tasks w2 !! 7%N = Some t2
    /\ let started := clock w 0%nat in
       let stopped := clock w (S k) in
       (exists s,
          sessions (timeTracking t2) = [] ++ [s]
          /\ startTime s = Some started /\ endTime s = Some stopped
          /\ duration s = stopped - started)
       /\ totalTimeSpent (timeTracking t2) = 0 + (stopped - started)
       /\ isActive (timeTracking t2) = false
       /\ currentSessionStart (timeTracking t2) = None.
Proof.
  intros w.
  apply (start_then_stop alice 7%N (task7 TASK_STATUS.PENDING false None)
           (Some "lunch") w); reflexivity.
Defined.

(** X5: a request to start, stop or complete the task [id] writes no
    other task and no user, whatever its outcome. *)
Theorem lifecycle_request_frame (user : User) (id other : ObjectId)
    (notes : option string) (w : World) :
  other <> id ->
  let after (r : outcome Response * World) :=
    tasks r.2 !! other = tasks w !! other /\ users r.2 = users w in
  after (startTask user id w)
  /\ after (stopTask user id notes w)
  /\ after (completeTask user id w).
Proof.
  intros Hne after.
  assert (Hframe : forall w', touches id kept w w' ->
            tasks w' !! other = tasks w !! other /\ users w' = users w).
  { intros w' [Hu [E | (t & t' & _ & E & _)]]; rewrite E;
      (split; [| exact Hu]); [reflexivity |].
    apply lookup_insert_ne. congruence. }
  unfold after. split; [| split].
  - destruct (startTask_touches user id w) as (res & w' & -> & T).
    exact (Hframe w' T).
  - destruct (stopTask_touches user id notes w) as (res & w' & -> & T).
    exact (Hframe w' T).
  - destruct (completeTask_touches user id w) as (res & w' & -> & T).
    exact (Hframe w' T).
Qed.

Lemma lifecycle_request_frame_witness :
  let w := world_of (task7 TASK_STATUS.PENDING false None) 100 in
  let after (r : outcome Response * World) :=
    tasks r.2 !! 8%N = tasks w !! 8%N /\ users r.2 = users w in
  after (startTask alice 7%N w)
  /\ after (stopTask alice 7%N None w)
  /\ after (completeTask alice 7%N w).
Proof.
  intros w.
  apply (lifecycle_request_frame alice 7%N 8%N None w). discriminate.
Defined.

(** ** Sequences of requests *)

Lemma serve_all_step rs : forall w,
  users (serve_all rs w) = users w
  /\ (forall id t, tasks w !! id = Some t ->
        exists t', tasks (serve_all rs w) !! id = Some t' /\ kept t t')
  /\ (forall id t', tasks (serve_all rs w) !! id = Some t' ->
        tasks w !! id = None -> task_wf t').
Proof.
  induction rs as [| r rs IH]; intros w; cbn [serve_all].
  - split; [reflexivity |]. split.
    + intros id t H. exists t. split; [exact H | apply kept_refl].
    + intros id t' H1 H2. congruence.
  - destruct (serve_step r w) as (Hu & Hold & Hnew).
    destruct (IH (serve r w).2) as (Hu' & Hold' & Hnew').
    split; [congruence |]. split.
    + intros id t Ht. destruct (Hold id t Ht) as (t1 & Ht1 & Hk1).
      destruct (Hold' id t1 Ht1) as (t2 & Ht2 & Hk2).
      exists t2. split; [exact Ht2 | eapply kept_trans; eassumption].
    + intros id t' Ht' Hnone.
      destruct (tasks (serve r w).2 !! id) as [t1 |] eqn:Ht1.
      * destruct (Hold' id t1 Ht1) as (t2 & Ht2 & _ & Hk2 & _).
        assert (t2 = t') by congruence. subst t2.
        apply Hk2. eapply Hnew; eassumption.
      * eapply Hnew'; eassumption.
Qed.

(** X6: over any sequence of create, start, stop and complete requests,
    by anyone, accepted or refused, a stored task is never removed, its
    title, description, assignee, assigner and due date stay, and its
    status history and its sessions only grow at the end; the users are
    not written. *)
Theorem lifecycle_is_append_only (rs : list Lifecycle) (id : ObjectId)
    (t : Task) (w : World) :
  tasks w !! id = Some t ->
  users (serve_all rs w) = users w
  /\ exists t',
       tasks (serve_all rs w) !! id = Some t'
       /\ title t' = title t /\ description t' = description t
       /\ assignedTo t' = assignedTo t /\ assignedBy t' = assignedBy t
       /\ dueDate t' = dueDate t
       /\ statusHistory t `prefix_of` statusHistory t'
       /\ sessions (timeTracking t) `prefix_of` sessions (timeTracking t').
Proof.
  intros Ht. destruct (serve_all_step rs w) as (Hu & Hold & _).
  split; [exact Hu |].
  destruct (Hold id t Ht) as (t' & Ht' & Hg & _).
  exists t'. split; [exact Ht' | exact Hg].
Qed.

Lemma lifecycle_is_append_only_witness :
  let t := task7 TASK_STATUS.PENDING false None in
  let w := world_of t 100 in
  let rs := [LStart alice 7%N; LStop alice 7%N None; LCreate bob audit;
             LComplete alice 7%N; LStart root 7%N] in
  users (serve_all rs w) = users w
  /\ exists t',
       tasks (serve_all rs w) !! 7%N = Some t'
       /\ title t' = title t /\ description t' = description t
       /\ assignedTo t' = assignedTo t /\ assignedBy t' = assignedBy t
       /\ dueDate t' = dueDate t
       /\ statusHistory t `prefix_of` statusHistory t'
       /\ sessions (timeTracking t) `prefix_of` sessions (timeTracking t').
Proof.
  intros t w rs. apply (lifecycle_is_append_only rs 7%N t w). reflexivity.
Defined.

(** X7: the store stays well formed over any sequence of create, start,
    stop and complete requests: every stored task passes the schema, its
    timer is on exactly when the start of the session is recorded, it has
    a completion date exactly when its status is [COMPLETED], and its
    total time is the sum of the durations of its sessions. *)
Theorem lifecycle_keeps_store_wf (rs : list Lifecycle) (w : World) :
  store_wf w -> store_consistent w ->
  store_wf (serve_all rs w) /\ store_consistent (serve_all rs w).
Proof.
  intros Hw Hc. split.
  - destruct (serve_all_step rs w) as (_ & Hold & Hnew).
    intros id t' Ht'. destruct (tasks w !! id) as [t |] eqn:Ht.
    + destruct (Hold id t Ht) as (t2 & Ht2 & _ & Hk & _).
      assert (t2 = t') by congruence. subst t2. apply Hk, (Hw id t Ht).
    + eapply Hnew; eassumption.
  - revert w Hw Hc. induction rs as [| r rs IH]; intros w Hw Hc;
      cbn [serve_all]; [exact Hc |].
    apply IH; [| apply serve_store, Hc].
    destruct (serve_step r w) as (_ & Hold & Hnew).
    intros id t' Ht'. destruct (tasks w !! id) as [t |] eqn:Ht.
    + destruct (Hold id t Ht) as (t2 & Ht2 & _ & Hk & _).
      assert (t2 = t') by congruence. subst t2. apply Hk, (Hw id t Ht).
    + eapply Hnew; eassumption.
Qed.

Lemma lifecycle_keeps_store_wf_witness :
  let rs := [LCreate bob audit; LStart alice 0%N; LComplete alice 0%N;
             LStart alice 0%N; LStop bob 0%N None] in
  store_wf (serve_all rs (empty_world 100))
  /\ store_consistent (serve_all rs (empty_world 100)).
Proof.
  intros rs. apply (lifecycle_keeps_store_wf rs (empty_world 100)).
  - intros id t Hlk. cbn [tasks empty_world] in Hlk.
    rewrite lookup_empty in Hlk. discriminate.
  - intros id t Hlk. cbn [tasks empty_world] in Hlk.
    rewrite lookup_empty in Hlk. discriminate.
Defined.

(** ** Create, then delete *)



(** ** Update and fetch: errors *)

(** X13: an update whose [status] is no value of [TASK_STATUS] is refused
    by the validators of the query: the answer is 400 with the validation
    error of the path, and the stored task is as before. *)
Theorem update_rejects_unknown_status `{Externals} (user : User)
    (id : ObjectId) (body : Body) (v : jsval) (t : Task) (w : World) :
  tasks w !! id = Some t ->
  role user <> USER_ROLES.EMPLOYEE \/ assignedTo t = user_id user ->
  sanitizeInput body = [("status", v)] ->
  (forall s, v <> JStatus s) ->
  exists res w',
    updateTask user id body w = (Return res, w')
    /\ statusCode res = HTTP_STATUS.BAD_REQUEST
    /\ success res = false
    /\ (exists msg, errors res = [("status", msg)])
    /\ tasks w' = tasks w
    /\ users w' = users w.
Proof.
  intros Ht Hmay Hbody Hv.
  unfold updateTask, try_catch, bind. rewrite findById_run, Ht, Hbody.
  cbn [fmap option_fmap option_map doc hydrate].
  assert (Hgate : bool_decide (role user = USER_ROLES.EMPLOYEE)
                  && bool_decide (assignedTo t ≠ user_id user) = false).
  { destruct Hmay as [Hr | Ha].
    - rewrite (bool_decide_eq_false_2 _ Hr). reflexivity.
    - rewrite (bool_decide_eq_false_2 (assignedTo t ≠ user_id user))
        by (intros Hne; apply Hne, Ha).
      apply andb_false_r. }
  rewrite Hgate.
  replace (filter (fun field : string => field ∉ ["status"; "comments"])
             (Object_keys [("status", v)])) with (@nil string)
    by reflexivity.
  cbn [length]. rewrite (bool_decide_eq_false_2 (0 < 0)%nat) by lia.
  rewrite andb_false_r, new_Date_run.
  unfold Task_findByIdAndUpdate. rewrite tasks_tick, Ht.
  cbn [spread_set]. rewrite bool_decide_eq_false_2 by discriminate.
  cbn [spread_set apply_update]. unfold set_path at 1.
  rewrite bool_decide_eq_true_2 by reflexivity.
  destruct v as [s | n | b | | s]; [| | | | destruct (Hv s eq_refl)];
    (eexists _, _; split; [reflexivity | repeat split]); eexists; reflexivity.
Qed.

Lemma update_rejects_unknown_status_witness :
  let w := world_of (task7 TASK_STATUS.PENDING false None) 50 in
  exists res w',
    @updateTask plain_env alice 7%N [("status", JStr "Finished")] w
    = (Return res, w')
    /\ statusCode res = HTTP_STATUS.BAD_REQUEST
    /\ success res = false
    /\ (exists msg, errors res = [("status", msg)])
    /\ tasks w' = tasks w
    /\ users w' = users w.
Proof.
  intros w.
  apply (@update_rejects_unknown_status plain_env alice 7%N
           [("status", JStr "Finished")] (JStr "Finished")
           (task7 TASK_STATUS.PENDING false None) w).
  - reflexivity.
  - right. reflexivity.
  - reflexivity.
  - discriminate.
Defined.

(** X14: when the user a task is assigned to is no longer in the users,
    the fetch of the task by any employee fails with 500, because the
    check of the assignee reads the id of a populated user that is
    [null]; every other role is served the task. *)
Theorem fetch_when_assignee_is_gone (user : User) (id : ObjectId) (t : Task)
    (w : World) :
  tasks w !! id = Some t ->
  users w !! assignedTo t = None ->
  (role user = USER_ROLES.EMPLOYEE ->
   getTaskById user id w
   = (Return (fail HTTP_STATUS.INTERNAL_SERVER_ERROR
                ERROR_MESSAGES.SERVER_ERROR "Failed to retrieve task"), w))
  /\ (role user <> USER_ROLES.EMPLOYEE ->
      getTaskById user id w
      = (Return (respond HTTP_STATUS.OK (Text "Task retrieved successfully")
                   (TaskData (Some t))), w)).
Proof.
  intros Ht Hgone. split; intros Hr;
    unfold getTaskById, try_catch, bind; rewrite findById_run, Ht;
    cbn [fmap option_fmap option_map doc hydrate].
  - rewrite (bool_decide_eq_true_2 _ Hr).
    unfold populated_assignedTo, bind, User_findById. rewrite Hgone.
    reflexivity.
  - rewrite (bool_decide_eq_false_2 _ Hr). reflexivity.
Qed.

Lemma fetch_when_assignee_is_gone_witness :
  let t := with_assignment 9%N 2%N (task7 TASK_STATUS.PENDING false None) in
  let w := world_of t 50 in
  getTaskById bob 7%N w
  = (Return (fail HTTP_STATUS.INTERNAL_SERVER_ERROR
               ERROR_MESSAGES.SERVER_ERROR "Failed to retrieve task"), w)
  /\ getTaskById root 7%N w
     = (Return (respond HTTP_STATUS.OK (Text "Task retrieved successfully")
                  (TaskData (Some t))), w).
Proof.
  intros t w.
  destruct (fetch_when_assignee_is_gone bob 7%N t w) as [Hemp _];
    [reflexivity | reflexivity |].
  destruct (fetch_when_assignee_is_gone root 7%N t w) as [_ Hadm];
    [reflexivity | reflexivity |].
  split; [apply Hemp; reflexivity | apply Hadm; discriminate].
Defined.

(** ** [reassign] *)

(** X19: [reassign], on a stored schema-valid task, stores the new
    assignee and the new assigner and nothing else of the assignment:
    the status history gets no entry, and the time tracking is as it
    was, a running session included. From then on the timer answers to
    the new assignee alone. *)
Theorem reassign_hands_over (id newAssigneeId assignerId : ObjectId)
    (t : Task) (w : World) :
  tasks w !! id = Some t ->
  validate t = [] ->
  exists d' w',
    reassign newAssigneeId assignerId (hydrate id t) w = (Return d', w')
    /\ tasks w' = <[ id := doc d' ]> (tasks w)
    /\ users w' = users w
    /\ assignedTo (doc d') = newAssigneeId
    /\ assignedBy (doc d') = assignerId
    /\ title (doc d') = title t /\ description (doc d') = description t
    /\ dueDate (doc d') = dueDate t
    /\ statusHistory (doc d') = statusHistory t
    /\ timeTracking (doc d') = timeTracking t
    /\ forall user, user_id user <> newAssigneeId ->
         startTask user id w'
         = (Return (fail HTTP_STATUS.FORBIDDEN
                      ERROR_MESSAGES.TASK_NOT_ASSIGNED
                      "You can only start tasks assigned to you"), w').
Proof.
  intros Ht Hv. unfold reassign.
  set (d := set_modifiedBy _ _).
  assert (Hvd : validate (doc d) = [])
    by (rewrite <- Hv; apply validate_indep; reflexivity).
  destruct (save_spec d w Hvd) as (d' & w' & Hrun & Hpost).
  destruct (save_post_world _ _ _ _ Hpost) as [Hts Hus].
  destruct Hpost as (_ & _ & _ & _ & _ & P1 & P2 & P3 & P4 & P5 & _ & Hh
                     & _ & _ & Htt & _).
  cbn [d doc _id isNew status_modified set_modifiedBy set_doc hydrate
       andb negb with_assignment title description assignedTo assignedBy
       dueDate statusHistory timeTracking] in *.
  exists d', w'. split; [exact Hrun |].
  do 8 (split; [assumption |]).
  split; [apply Htt; auto |].
  intros user Hne.
  unfold startTask, try_catch, bind. rewrite findById_run, Hts.
  rewrite lookup_insert_eq. cbn [fmap option_fmap option_map doc hydrate].
  rewrite bool_decide_eq_true_2 by congruence. reflexivity.
Qed.

Lemma reassign_hands_over_witness :
  let t := task7 TASK_STATUS.IN_PROGRESS true (Some 40) in
  let w := world_of t 50 in
  exists d' w',
    reassign 3%N 2%N (hydrate 7%N t) w = (Return d', w')
    /\ tasks w' = <[ 7%N := doc d' ]> (tasks w)
    /\ users w' = users w
    /\ assignedTo (doc d') = 3%N
    /\ assignedBy (doc d') = 2%N
    /\ title (doc d') = title t /\ description (doc d') = description t
    /\ dueDate (doc d') = dueDate t
    /\ statusHistory (doc d') = statusHistory t
    /\ timeTracking (doc d') = timeTracking t
    /\ forall user, user_id user <> 3%N ->
         startTask user 7%N w'
         = (Return (fail HTTP_STATUS.FORBIDDEN
                      ERROR_MESSAGES.TASK_NOT_ASSIGNED
                      "You can only start tasks assigned to you"), w').
Proof.
  intros t w. apply (reassign_hands_over 7%N 3%N 2%N t w); reflexivity.
Defined.

(** ** The static finders *)

(** X20: [findOverdueTasks] finds exactly the stored tasks whose virtual
    [isOverdue] is true at the time the query is built, whatever their
    status says; it reads the clock once and writes nothing. *)
Theorem findOverdueTasks_is_the_virtual (w : World) :
  exists ts,
    findOverdueTasks w = (Return ts, tick w)
    /\ forall t, t ∈ ts <->
         (exists id, tasks w !! id = Some t)
         /\ isOverdue (clock w 0%nat) t = true.
Proof.
  unfold findOverdueTasks, bind. rewrite new_Date_run.
  unfold Task_find_where. eexists. split; [reflexivity |].
  intros t. rewrite elem_of_List_filter, tasks_tick, elem_of_stored.
  rewrite overdue_criteria_isOverdue. reflexivity.
Qed.

(** X21: [findByAssignee] finds exactly the stored tasks assigned to the
    user, with the status asked for when one is given, whatever the
    order asked for, and writes nothing. *)
Theorem findByAssignee_finds_the_assigned
    (compare_at : string -> Task -> Task -> comparison) (userId : ObjectId)
    (opt_status : option TASK_STATUS.t) (sort : option (string * bool))
    (w : World) :
  exists ts,
    findByAssignee compare_at userId opt_status sort w = (Return ts, w)
    /\ forall t, t ∈ ts <->
         (exists id, tasks w !! id = Some t)
         /\ assignedTo t = userId
         /\ forall s, opt_status = Some s -> status t = s.
Proof.
  unfold findByAssignee. destruct (default _ sort) as [path desc].
  unfold Task_find. eexists. split; [reflexivity |].
  intros t. unfold limit_tasks. rewrite bool_decide_eq_true_2 by reflexivity.
  rewrite drop_0, sort_tasks_Permutation, elem_of_List_filter, elem_of_stored.
  unfold matches. cbn [f_status f_priority f_assignedTo f_assignedBy
                      f_createdAt_gte f_createdAt_lte f_or criterion].
  rewrite !andb_true_r, andb_true_iff, bool_decide_eq_true.
  destruct opt_status as [s |]; cbn [criterion].
  - rewrite bool_decide_eq_true. split.
    + intros (Hs & Hst & Ha). split; [exact Hs |]. split; [exact Ha |].
      intros s' [= <-]. exact Hst.
    + intros (Hs & Ha & Hst). split; [exact Hs |]. split; [| exact Ha].
      apply Hst. reflexivity.
  - split.
    + intros (Hs & _ & Ha). split; [exact Hs |]. split; [exact Ha |].
      discriminate.
    + intros (Hs & Ha & _). auto.
Qed.

(** X22: in a well-formed store, [findActivelyTrackedTasks], which asks
    for [timeTracking.isActive] alone, finds exactly the stored tasks
    whose virtual [isBeingTracked] is true. *)
Theorem findActivelyTrackedTasks_is_the_virtual (w : World) :
  store_wf w ->
  exists ts,
    findActivelyTrackedTasks w = (Return ts, w)
    /\ forall t, t ∈ ts <->
         (exists id, tasks w !! id = Some t) /\ isBeingTracked t = true.
Proof.
  intros Hw. unfold findActivelyTrackedTasks, Task_find_where.
  eexists. split; [reflexivity |].
  intros t. rewrite elem_of_List_filter, elem_of_stored.
  split; intros [[id Hid] Hact]; (split; [eauto |]).
  - destruct (Hw id t Hid) as (_ & Htr & _). unfold isBeingTracked.
    rewrite Hact. cbn [andb]. apply bool_decide_eq_true_2, Htr, Hact.
  - unfold isBeingTracked in Hact. apply andb_true_iff in Hact as [Hact _].
    exact Hact.
Qed.

Lemma findActivelyTrackedTasks_is_the_virtual_witness :
  let w := serve_all [LCreate bob audit; LStart alice 0%N] (empty_world 100) in
  exists ts,
    findActivelyTrackedTasks w = (Return ts, w)
    /\ forall t, t ∈ ts <->
         (exists id, tasks w !! id = Some t) /\ isBeingTracked t = true.
Proof.
  intros w. apply (findActivelyTrackedTasks_is_the_virtual w).
  intros id t Hlk. vm_compute in Hlk.
  destruct id as [| [p | p |]]; try discriminate.
  injection Hlk as <-. split; [reflexivity |]. split.
  - split; [intros _; eexists; reflexivity | reflexivity].
  - split; [discriminate | intros [? ?]; discriminate].
Defined.

(** ** [getTaskStats] *)

Lemma group_count_snoc {K} `{EqDecision K} (key : Task -> K) l t :
  group_count key (l ++ [t]) = count_in (key t) (group_count key l).
Proof. unfold group_count. rewrite foldl_app. reflexivity. Qed.

Lemma count_in_elem {K} `{EqDecision K} (k0 k : K) (n : nat)
    (g : list (K * nat)) :
  NoDup g.*1 ->
  (k, n) ∈ count_in k0 g
  <-> (k <> k0 /\ (k, n) ∈ g)
      \/ (k = k0
          /\ ((exists m, (k0, m) ∈ g /\ n = S m)
              \/ ((k0 ∉ g.*1) /\ n = 1%nat))).
Proof.
  induction g as [| [k' n'] g IH]; cbn [count_in]; intros Hnd.
  - rewrite list_elem_of_singleton. split.
    + intros [= -> ->]. right. split; [reflexivity |]. right.
      split; [apply not_elem_of_nil | reflexivity].
    + intros [[_ Hin] | [-> [(m & Hin & _) | [_ ->]]]];
        try (apply elem_of_nil in Hin; contradiction). reflexivity.
  - rewrite fmap_cons in Hnd. cbn [fst] in Hnd.
    apply NoDup_cons in Hnd as [Hk' Hnd]. specialize (IH Hnd).
    assert (Hfst : forall a b, (a, b) ∈ g -> a ∈ g.*1).
    { intros a b Hin. apply list_elem_of_fmap. exists (a, b). auto. }
    rewrite fmap_cons. cbn [fst].
    assert (Hfresh : forall b, (k', b) ∈ g -> False)
      by (intros b Hin; apply Hk'; eapply Hfst, Hin).
    destruct (decide (k' = k0)) as [-> | Hne].
    + rewrite bool_decide_eq_true_2 by reflexivity. split.
      * intros Hin. apply elem_of_cons in Hin as [Heq | Hin].
        -- injection Heq as -> ->. right. split; [reflexivity |]. left.
           exists n'. split; [left | reflexivity].
        -- left. split; [| right; exact Hin].
           intros ->. exact (Hfresh n Hin).
      * intros [[Hk Hin] | [-> [(m & Hin & ->) | [Hnot _]]]].
        -- apply elem_of_cons in Hin as [Heq | Hin]; [congruence |].
           right. exact Hin.
        -- apply elem_of_cons in Hin as [Heq | Hin];
             [| destruct (Hfresh m Hin)].
           injection Heq as ->. left.
        -- destruct Hnot. left.
    + rewrite bool_decide_eq_false_2 by exact Hne. split.
      * intros Hin. apply elem_of_cons in Hin as [Heq | Hin].
        -- injection Heq as -> ->. left. split; [congruence | left].
        -- apply IH in Hin as [[Hk Hin] | [-> [(m & Hin & ->) | [Hnot ->]]]].
           ++ left. split; [exact Hk | right; exact Hin].
           ++ right. split; [reflexivity |]. left. exists m.
              split; [right; exact Hin | reflexivity].
           ++ right. split; [reflexivity |]. right. split; [| reflexivity].
              intros Hin. apply elem_of_cons in Hin as [Heq | Hin];
                [congruence | contradiction].
      * intros [[Hk Hin] | [-> [(m & Hin & ->) | [Hnot ->]]]].
        -- apply elem_of_cons in Hin as [Heq | Hin].
           ++ injection Heq as -> ->. left.
           ++ right. apply IH. left. split; assumption.
        -- apply elem_of_cons in Hin as [Heq | Hin]; [congruence |].
           right. apply IH. right. split; [reflexivity |]. left.
           exists m. split; [exact Hin | reflexivity].
        -- right. apply IH. right. split; [reflexivity |]. right.
           split; [| reflexivity]. intros Hin. apply Hnot. right. exact Hin.
Qed.

(** There is a group for each value of the key that occurs, and none
    other, with the number of its documents. *)
Lemma group_count_elem {K} `{EqDecision K} (key : Task -> K) (l : list Task)
    (k : K) (n : nat) :
  (k, n) ∈ group_count key l
  <-> (0 < n)%nat
      /\ n = length (List.filter (fun t => bool_decide (key t = k)) l).
Proof.
  revert k n. induction l as [| t l IH] using rev_ind; intros k n.
  - cbn. split; [intros Hin; apply elem_of_nil in Hin; contradiction | lia].
  - destruct (group_count_spec key l) as [_ Hnd].
    rewrite group_count_snoc, (count_in_elem _ _ _ _ Hnd).
    rewrite List.filter_app, length_app. cbn [List.filter].
    assert (Hkeys : forall k0, k0 ∉ (group_count key l).*1
              <-> length (List.filter (fun t => bool_decide (key t = k0)) l)
                  = 0%nat).
    { intros k0. split.
      - intros Hnot.
        destruct (length (List.filter _ l)) as [| c] eqn:Hc; [reflexivity |].
        destruct Hnot. apply list_elem_of_fmap. exists (k0, S c).
        split; [reflexivity |]. apply IH. rewrite Hc. split; [lia | reflexivity].
      - intros Hz Hin. apply list_elem_of_fmap in Hin as ([k1 m] & -> & Hin).
        cbn [fst] in Hz. apply IH in Hin as [Hpos Hm]. lia. }
    destruct (decide (key t = k)) as [Hk | Hk].
    + rewrite (bool_decide_eq_true_2 _ Hk). cbn [length]. subst k. split.
      * intros [[Hne _] | [_ [(m & Hin & ->) | [Hnot ->]]]]; [congruence | |].
        -- apply IH in Hin. lia.
        -- apply Hkeys in Hnot. lia.
      * intros [Hpos ->]. right. split; [reflexivity |].
        destruct (length (List.filter _ l)) as [| c] eqn:Hc.
        -- right. split; [apply Hkeys; exact Hc | reflexivity].
        -- left. exists (S c). split; [| lia]. apply IH. rewrite Hc. lia.
    + rewrite (bool_decide_eq_false_2 _ Hk). cbn [length].
      rewrite Nat.add_0_r. rewrite IH. split.
      * intros [[_ Hin] | [Heq _]]; [exact Hin | congruence].
      * intros Hin. left. split; [congruence | exact Hin].
Qed.

Lemma List_filter_andb {A} (P Q : A -> bool) (l : list A) :
  List.filter (fun x => P x && Q x) l = List.filter Q (List.filter P l).
Proof.
  induction l as [| x l IH]; cbn [List.filter]; [reflexivity |].
  destruct (P x); cbn [andb List.filter]; [| exact IH].
  destruct (Q x); rewrite IH; reflexivity.
Qed.

(** X18: the statistics are those of the tasks in the scope of the role:
    all tasks, for an employee the tasks assigned to them, and with the
    project-manager designation those assigned by them too. [totalTasks]
    is their number; [byStatus] has an entry for a status exactly when a
    task of the scope has it, once, with the number of those tasks, so
    that the entries sum to the total; [overdueTasks] counts the tasks of
    the scope whose virtual [isOverdue] is true at the time of the
    request and [activeTimers] those whose timer runs; and the request
    writes nothing. *)
Theorem stats_add_up (user : User) (w : World) :
  let scope :=
    List.filter (matches (role_filter user empty_filter))
      (map_to_list (tasks w)).*2 in
  exists s w',
    getTaskStats user w
    = (Return {| stats_statusCode := HTTP_STATUS.OK; stats_success := true;
                 stats_message := Text "Task statistics retrieved successfully";
                 stats_error := None; stats_data := Some s |}, w')
    /\ tasks w' = tasks w /\ users w' = users w
    /\ totalTasks s = length scope
    /\ (forall st n,
          (st, n) ∈ byStatus s
          <-> (0 < n)%nat
              /\ n = length (List.filter
                               (fun t => bool_decide (status t = st)) scope))
    /\ NoDup (byStatus s).*1
    /\ sum_list (byStatus s).*2 = totalTasks s
    /\ overdueTasks s
       = length (List.filter (isOverdue (clock w 0%nat)) scope)
    /\ activeTimers s
       = length (List.filter (fun t => isActive (timeTracking t)) scope)
    /\ (overdueTasks s <= totalTasks s)%nat
    /\ (activeTimers s <= totalTasks s)%nat
    /\ (role user <> USER_ROLES.EMPLOYEE -> totalTasks s = size (tasks w))
    /\ (role user = USER_ROLES.EMPLOYEE ->
        designation user <> "project_manager" ->
        totalTasks s
        = length (List.filter
                    (fun t => bool_decide (assignedTo t = user_id user))
                    (map_to_list (tasks w)).*2))
    /\ (role user = USER_ROLES.EMPLOYEE ->
        designation user = "project_manager" ->
        totalTasks s
        = length (List.filter
                    (fun t => bool_decide (assignedTo t = user_id user)
                              || bool_decide (assignedBy t = user_id user))
                    (map_to_list (tasks w)).*2)).
Proof.
  intros scope.
  unfold getTaskStats, try_catch, bind, Task_countDocuments,
    Task_aggregate_count. rewrite new_Date_run.
  unfold Task_count_where, ret. rewrite tasks_tick.
  eexists _, _. split; [reflexivity |].
  cbn [totalTasks byStatus overdueTasks activeTimers].
  split; [reflexivity |]. split; [reflexivity |].
  fold scope.
  destruct (group_count_spec status scope) as [Hsum Hnd].
  rewrite (reduce_counts_id _ Hnd).
  split; [reflexivity |].
  split; [intros st n; apply group_count_elem |].
  split; [exact Hnd |]. split; [exact Hsum |].
  rewrite !List_filter_andb. fold scope.
  split.
  { f_equal. apply filter_ext. intros t. apply overdue_criteria_isOverdue. }
  split; [reflexivity |].
  split; [apply filter_length_le |]. split; [apply filter_length_le |].
  unfold scope, role_filter. split; [| split].
  - intros Hr. rewrite (bool_decide_eq_false_2 _ Hr).
    rewrite (List_filter_true _ _ matches_empty_filter).
    rewrite length_fmap. apply length_map_to_list.
  - intros Hr Hd.
    rewrite (bool_decide_eq_true_2 _ Hr), (bool_decide_eq_false_2 _ Hd).
    f_equal. apply filter_ext. intros t. unfold matches.
    cbn [with_assignedTo empty_filter f_status f_priority f_assignedTo
         f_assignedBy f_createdAt_gte f_createdAt_lte f_or criterion].
    rewrite !andb_true_r. reflexivity.
  - intros Hr Hd.
    rewrite (bool_decide_eq_true_2 _ Hr), (bool_decide_eq_true_2 _ Hd).
    f_equal. apply filter_ext. intros t. unfold matches.
    cbn [with_or empty_filter f_status f_priority f_assignedTo
         f_assignedBy f_createdAt_gte f_createdAt_lte f_or criterion
         existsb clause_matches andb].
    rewrite orb_false_r. reflexivity.
Qed.

(** ** [getAllTasks] *)

Section ListingFacts.
Context `{Externals} (compare_at : string -> Task -> Task -> comparison).

(** X15: every task of a listing is a stored task that meets the
    criteria of the request: the status, the assigner, the two bounds on
    the creation date, both inclusive, and the assignee, which for an
    employee without the project-manager designation is replaced by the
    employee. The listing writes nothing. *)
Theorem listing_honours_criteria (user : User) (q : Query) (w w' : World)
    (res : Response) (ts : list Task) (p : Pagination) (t : Task) :
  getAllTasks compare_at user q w = (Return res, w') ->
  data res = TasksData ts p ->
  t ∈ ts ->
  w' = w
  /\ (exists id, tasks w !! id = Some t)
  /\ (forall s, q_status q = Some s -> status t = s)
  /\ (forall u, q_assignedBy q = Some u -> assignedBy t = u)
  /\ (forall d, q_startDate q = Some d -> d <= createdAt t)
  /\ (forall d, q_endDate q = Some d -> createdAt t <= d)
  /\ (forall u, q_assignedTo q = Some u ->
        role user <> USER_ROLES.EMPLOYEE
        \/ designation user = "project_manager" ->
        assignedTo t = u)
  /\ (role user = USER_ROLES.EMPLOYEE ->
      designation user <> "project_manager" ->
      assignedTo t = user_id user).
Proof.
  intros Hrun Hdata Ht.
  unfold getAllTasks, try_catch, bind in Hrun.
  destruct (validatePagination _ _) as [[validPage validLimit] skip].
  destruct (search_filter q (query_filter q) w) as [[f | e] w1] eqn:Hsf.
  2:{ injection Hrun as <- <-. discriminate Hdata. }
  assert (Hf : w1 = w /\ f_status f = q_status q
               /\ f_assignedTo f = q_assignedTo q
               /\ f_assignedBy f = q_assignedBy q
               /\ f_createdAt_gte f = q_startDate q
               /\ f_createdAt_lte f = q_endDate q).
  { unfold search_filter in Hsf. destruct (truthy (q_search q)) as [s |].
    - destruct (RegExp_i s); [| discriminate].
      injection Hsf as <- <-. repeat split.
    - injection Hsf as <- <-. repeat split. }
  destruct Hf as (-> & F1 & F2 & F3 & F4 & F5).
  unfold Task_find, Task_countDocuments, ret in Hrun.
  injection Hrun as <- <-. cbn [data respond] in Hdata.
  injection Hdata as <- <-.
  apply elem_of_limit_tasks, elem_of_drop, elem_of_sort_tasks in Ht.
  apply elem_of_List_filter in Ht as [Hst Hm].
  apply elem_of_stored in Hst.
  apply matches_criteria in Hm as (M1 & M2 & M3 & M4 & M5).
  split; [reflexivity |]. split; [exact Hst |].
  assert (R : f_status (role_filter user f) = q_status q
              /\ f_assignedBy (role_filter user f) = q_assignedBy q
              /\ f_createdAt_gte (role_filter user f) = q_startDate q
              /\ f_createdAt_lte (role_filter user f) = q_endDate q).
  { unfold role_filter. repeat case_bool_decide; repeat split; assumption. }
  destruct R as (R1 & R3 & R4 & R5). rewrite R1 in M1. rewrite R3 in M3.
  rewrite R4 in M4. rewrite R5 in M5.
  do 4 (split; [assumption |]).
  unfold role_filter in M2. split.
  - intros u Hu Hmay. apply M2. rewrite <- Hu, <- F2.
    destruct Hmay as [Hr | Hd].
    + rewrite (bool_decide_eq_false_2 _ Hr). reflexivity.
    + rewrite (bool_decide_eq_true_2 _ Hd).
      case_bool_decide; reflexivity.
  - intros Hr Hd. apply M2.
    rewrite (bool_decide_eq_true_2 _ Hr), (bool_decide_eq_false_2 _ Hd).
    reflexivity.
Qed.

(** X16: a page of the listing holds at most [itemsPerPage] tasks and at
    most as many as match; for a positive page size, [totalPages] is the
    number of matching tasks divided by the page size and rounded up,
    there is a next page exactly when tasks match beyond the current
    one, and a previous page exactly when the current one is not the
    first. *)
Theorem listing_pages (user : User) (q : Query) (w w' : World)
    (res : Response) (ts : list Task) (p : Pagination) :
  getAllTasks compare_at user q w = (Return res, w') ->
  data res = TasksData ts p ->
  (0 < itemsPerPage p)%nat ->
  (length ts <= itemsPerPage p)%nat
  /\ (length ts <= totalItems p)%nat
  /\ totalPages p
     = Fin ((totalItems p + itemsPerPage p - 1) / itemsPerPage p)%nat
  /\ (hasNextPage p = true
      <-> (currentPage p * itemsPerPage p < totalItems p)%nat)
  /\ (hasPrevPage p = true <-> (1 < currentPage p)%nat).
Proof.
  intros Hrun Hdata Hpos.
  unfold getAllTasks, try_catch, bind in Hrun.
  destruct (validatePagination _ _) as [[validPage validLimit] skip].
  destruct (search_filter q (query_filter q) w) as [[f | e] w1] eqn:Hsf.
  2:{ injection Hrun as <- <-. discriminate Hdata. }
  unfold Task_find, Task_countDocuments, ret in Hrun.
  injection Hrun as <- <-. cbn [data respond] in Hdata.
  injection Hdata as <- <-.
  cbn [itemsPerPage totalItems totalPages hasNextPage hasPrevPage
       currentPage] in *.
  match goal with
  | |- context [limit_tasks validLimit ?l] =>
      destruct (length_limit_tasks validLimit l) as [Hle Hlim];
      assert (Hlen : (length l
                      <= length (List.filter (matches (role_filter user f))
                                   (map_to_list (tasks w1)).*2))%nat)
  end.
  { rewrite length_drop.
    rewrite (Permutation_length (sort_tasks_Permutation _ _ _)). lia. }
  split; [apply Hlim, Hpos |]. split; [lia |]. split.
  - unfold ceil_div. rewrite bool_decide_eq_false_2 by lia. reflexivity.
  - split; [apply lt_ceil_div, Hpos | apply bool_decide_eq_true].
Qed.
End ListingFacts.

Lemma listing_honours_criteria_witness :
  let t := task7 TASK_STATUS.PENDING false None in
  let w := world_of t 50 in
  let q := {| q_page := None; q_limit := None;
              q_status := Some TASK_STATUS.PENDING; q_priority := None;
              q_assignedTo := Some 1%N; q_assignedBy := Some 2%N;
              q_search := None; q_sortBy := None; q_sortOrder := None;
              q_startDate := Some 10; q_endDate := Some 10 |} in
  w = w
  /\ (exists id, tasks w !! id = Some t)
  /\ (forall s, q_status q = Some s -> status t = s)
  /\ (forall u, q_assignedBy q = Some u -> assignedBy t = u)
  /\ (forall d, q_startDate q = Some d -> d <= createdAt t)
  /\ (forall d, q_endDate q = Some d -> createdAt t <= d)
  /\ (forall u, q_assignedTo q = Some u ->
        role root <> USER_ROLES.EMPLOYEE
        \/ designation root = "project_manager" ->
        assignedTo t = u)
  /\ (role root = USER_ROLES.EMPLOYEE ->
      designation root <> "project_manager" ->
      assignedTo t = user_id root).
Proof.
  intros t w q.
  eapply (@listing_honours_criteria plain_env by_createdAt root q w w _ [t]).
  - reflexivity.
  - reflexivity.
  - left.
Defined.

Lemma listing_pages_witness :
  let t := task7 TASK_STATUS.PENDING false None in
  let w := world_of t 50 in
  let p := {| currentPage := 1; totalPages := Fin 1; totalItems := 1;
              itemsPerPage := 10; hasNextPage := false;
              hasPrevPage := false |} in
  (length [t] <= itemsPerPage p)%nat
  /\ (length [t] <= totalItems p)%nat
  /\ totalPages p
     = Fin ((totalItems p + itemsPerPage p - 1) / itemsPerPage p)%nat
  /\ (hasNextPage p = true
      <-> (currentPage p * itemsPerPage p < totalItems p)%nat)
  /\ (hasPrevPage p = true <-> (1 < currentPage p)%nat).
Proof.
  intros t w p.
  eapply (@listing_pages plain_env by_createdAt root no_criteria w w _ [t] p).
  - reflexivity.
  - reflexivity.
  - cbn. lia.
Defined.

(** X8: a completed task stays completed over any sequence of create,
    start, stop and complete requests: no request about its timer and no
    overdue hook takes the status back, and the task keeps a completion
    date. *)
Theorem completed_is_final (rs : list Lifecycle) (id : ObjectId) (t : Task)
    (w : World) :
  tasks w !! id = Some t ->
  status t = TASK_STATUS.COMPLETED ->
  exists t',
    tasks (serve_all rs w) !! id = Some t'
    /\ status t' = TASK_STATUS.COMPLETED
    /\ (task_wf t -> is_Some (completedDate t')).
Proof.
  intros Ht Hs. destruct (serve_all_step rs w) as (_ & Hold & _).
  destruct (Hold id t Ht) as (t' & Ht' & _ & Hwf & Hfinal).
  exists t'. split; [exact Ht' |]. split; [apply Hfinal, Hs |].
  intros Hw. destruct (Hwf Hw) as (_ & _ & Hc). apply Hc, Hfinal, Hs.
Qed.

Lemma completed_is_final_witness :
  let t := with_completedDate (Some 60)
             (task7 TASK_STATUS.COMPLETED false None) in
  let w := world_of t 2000 in
  let rs := [LStart alice 7%N; LStop alice 7%N None; LComplete alice 7%N;
             LStart alice 7%N] in
  exists t',
    tasks (serve_all rs w) !! 7%N = Some t'
    /\ status t' = TASK_STATUS.COMPLETED
    /\ (task_wf t -> is_Some (completedDate t')).
Proof.
  intros t w rs. apply (completed_is_final rs 7%N t w); reflexivity.
Defined.

(** X9: completing a task that is completed already, its timer off, is
    accepted again: the answer is 200, the completion date is replaced by
    the time of the new request, and the status history gets no entry,
    the status being the one it was. *)
Theorem complete_again (user : User) (id : ObjectId) (t : Task) (w : World) :
  tasks w !! id = Some t ->
  assignedTo t = user_id user ->
  status t = TASK_STATUS.COMPLETED ->
  isActive (timeTracking t) = false ->
  validate t = [] ->
  exists t' w',
    completeTask user id w
    = (Return (respond HTTP_STATUS.OK (Succ SUCCESS_MESSAGES.TASK_COMPLETED)
                 (TaskData (Some t'))), w')
    /\ tasks w' = <[ id := t' ]> (tasks w)
    /\ status t' = TASK_STATUS.COMPLETED
    /\ completedDate t' = Some (clock w 0%nat)
    /\ statusHistory t' = statusHistory t
    /\ timeTracking t' = timeTracking t.
Proof.
  intros Ht Ha Hs Hoff Hv.
  unfold completeTask, try_catch, bind. rewrite findById_run, Ht.
  cbn [fmap option_fmap option_map doc hydrate].
  rewrite bool_decide_eq_false_2 by (intros Hne; apply Hne, Ha).
  unfold markAsCompleted, bind. rewrite new_Date_run.
  set (d3 := set_modifiedBy _ _).
  assert (Hd3 : doc d3 = with_completedDate (Some (clock w 0%nat)) t).
  { unfold d3. cbn [doc set_modifiedBy set_doc]. rewrite set_status_doc.
    cbn [doc hydrate]. rewrite <- Hs, with_status_same. reflexivity. }
  assert (Hf3 : _id d3 = id /\ isNew d3 = false /\ status_modified d3 = false).
  { unfold d3. cbn [_id isNew status_modified set_modifiedBy set_doc].
    destruct (set_status_flags TASK_STATUS.COMPLETED (hydrate id t))
      as (-> & -> & _ & _ & ->).
    cbn [_id isNew status_modified hydrate doc].
    rewrite bool_decide_eq_false_2 by (intros Hne; apply Hne, Hs).
    repeat split. }
  destruct Hf3 as (Hi3 & Hn3 & Hm3).
  cbn [doc]. rewrite Hd3. cbn [timeTracking with_completedDate].
  rewrite Hoff. unfold ret.
  assert (Hv3 : validate (doc d3) = [])
    by (rewrite <- Hv, Hd3; apply validate_indep; reflexivity).
  destruct (save_spec d3 (tick w) Hv3) as (d' & w' & Hrun & Hpost).
  rewrite Hrun.
  destruct (save_result _ _ _ _ Hrun) as (_ & _ & Hcd).
  destruct (save_post_world _ _ _ _ Hpost) as [Hts _].
  destruct Hpost as (_ & _ & _ & _ & _ & _ & _ & _ & _ & _
                     & (now & _ & Hst) & Hh & _ & _ & Htt & _).
  rewrite Hm3 in Hh, Hcd, Htt. cbn [andb] in Hh, Hcd, Htt.
  exists (doc d'), w'. split; [reflexivity |].
  split; [rewrite Hts, Hi3; reflexivity |].
  split. { rewrite Hst, Hd3. cbn [status with_completedDate dueDate].
           apply overdue_status_completed_iff, Hs. }
  split; [rewrite Hcd by auto; rewrite Hd3; reflexivity |].
  split; [rewrite Hh, Hd3; reflexivity |].
  rewrite Htt by auto. rewrite Hd3. reflexivity.
Qed.

Lemma complete_again_witness :
  let t := with_completedDate (Some 60)
             (task7 TASK_STATUS.COMPLETED false None) in
  let w := world_of t 100 in
  exists t' w',
    completeTask alice 7%N w
    = (Return (respond HTTP_STATUS.OK (Succ SUCCESS_MESSAGES.TASK_COMPLETED)
                 (TaskData (Some t'))), w')
    /\ tasks w' = <[ 7%N := t' ]> (tasks w)
    /\ status t' = TASK_STATUS.COMPLETED
    /\ completedDate t' = Some (clock w 0%nat)
    /\ statusHistory t' = statusHistory t
    /\ timeTracking t' = timeTracking t.
Proof.
  intros t w. apply (complete_again alice 7%N t w); reflexivity.
Defined.

(** X17: a search that [RegExp] refuses as a pattern fails the whole
    listing: the answer is 500 with "Failed to retrieve tasks", whoever
    asks. *)
Theorem listing_refuses_bad_pattern `{Externals}
    (compare_at : string -> Task -> Task -> comparison) (user : User)
    (q : Query) (search : string) (w : World) :
  truthy (q_search q) = Some search ->
  RegExp_i search = None ->
  getAllTasks compare_at user q w
  = (Return (fail HTTP_STATUS.INTERNAL_SERVER_ERROR
               ERROR_MESSAGES.SERVER_ERROR "Failed to retrieve tasks"), w).
Proof.
  intros Hs Hre. unfold getAllTasks, try_catch, bind.
  destruct (validatePagination _ _) as [[validPage validLimit] skip].
  unfold search_filter. rewrite Hs, Hre. reflexivity.
Qed.

Lemma listing_refuses_bad_pattern_witness :
  let w := world_of (task7 TASK_STATUS.PENDING false None) 50 in
  @getAllTasks strict_env by_createdAt root (with_search "(" no_criteria) w
  = (Return (fail HTTP_STATUS.INTERNAL_SERVER_ERROR
               ERROR_MESSAGES.SERVER_ERROR "Failed to retrieve tasks"), w).
Proof.
  intros w.
  apply (@listing_refuses_bad_pattern strict_env by_createdAt root
           (with_search "(" no_criteria) "(" w); reflexivity.
Defined.


(** ** Comments and watchers *)

Lemma comments_valid_app cs c :
  comments_valid (cs ++ [c])
  <-> comments_valid cs /\ validate_comment (length cs) c = [].
Proof.
  unfold comments_valid. rewrite imap_app, concat_app. cbn [imap concat].
  rewrite app_nil_r, Nat.add_0_r. apply app_nil.
Qed.

Lemma validate_comment_nil i c :
  validate_comment i c = []
  <-> exists s, Comment.message c = Some s
                /\ s <> "" /\ (String.length s <= 1000)%nat.
Proof.
  unfold validate_comment. destruct (Comment.message c) as [s |].
  - rewrite required_string_nil. split; [eauto |].
    intros (s' & [= <-] & Hs). exact Hs.
  - split; [discriminate | intros (s & Hs & _); discriminate].
Qed.

Lemma save_annotated_valid a w :
  comments_valid (comments a) ->
  save_annotated a w
  = match save (subject a) w with
    | (Return d, w') =>
        (Return {| subject := d; comments := comments a;
                   watchers := watchers a |}, w')
    | (Throw e, w') => (Throw e, w')
    end.
Proof.
  unfold comments_valid, save_annotated. intros ->. reflexivity.
Qed.

Lemma save_annotated_invalid a w :
  ~ comments_valid (comments a) ->
  exists e, save_annotated a w = (Throw e, w)
            /\ JsError.name e = "ValidationError".
Proof.
  unfold comments_valid, save_annotated. intros Hc.
  destruct (concat _) as [| x l]; [tauto |].
  eexists. split; reflexivity.
Qed.

Section CommentFacts.
Context (trim : string -> string).

(** X23: the handler [addComment] answers 404 for an id without a task
    and 403 for an employee who is not the assignee of the task, the
    project-manager designation and the authorship of the task
    notwithstanding; neither writes. *)
Theorem comment_refusals (user : User) (id : ObjectId)
    (message : option string) (cs : list Comment.t) (ws : list ObjectId)
    (w : World) :
  (tasks w !! id = None ->
   TaskController.addComment trim user id message cs ws w
   = (Return {| comment_statusCode := HTTP_STATUS.NOT_FOUND;
                comment_success := false;
                comment_message := Err ERROR_MESSAGES.TASK_NOT_FOUND;
                comment_error := Some "Task not found";
                comment_data := None |}, w))
  /\ (forall t,
        tasks w !! id = Some t ->
        role user = USER_ROLES.EMPLOYEE ->
        assignedTo t <> user_id user ->
        TaskController.addComment trim user id message cs ws w
        = (Return {| comment_statusCode := HTTP_STATUS.FORBIDDEN;
                     comment_success := false;
                     comment_message :=
                       Err ERROR_MESSAGES.INSUFFICIENT_PERMISSIONS;
                     comment_error :=
                       Some "You can only comment on your own tasks";
                     comment_data := None |}, w)).
Proof.
  split.
  - intros Hnone. unfold TaskController.addComment, try_catch, bind.
    rewrite findById_run, Hnone. reflexivity.
  - intros t Ht Hr Hne. unfold TaskController.addComment, try_catch, bind.
    rewrite findById_run, Ht. cbn [fmap option_fmap option_map doc hydrate].
    rewrite (bool_decide_eq_true_2 _ Hr), (bool_decide_eq_true_2 _ Hne).
    reflexivity.
Qed.

(** X24: a comment without a message, or whose message is empty or
    longer than 1000 characters once trimmed, fails the validation of
    the [save]; the handler answers 500 with "Failed to add comment",
    not 400, and stores nothing. *)
Theorem comment_without_message_fails (user : User) (id : ObjectId)
    (t : Task) (message : option string) (cs : list Comment.t)
    (ws : list ObjectId) (w : World) :
  tasks w !! id = Some t ->
  role user <> USER_ROLES.EMPLOYEE \/ assignedTo t = user_id user ->
  message = None
  \/ (exists m, message = Some m
                /\ (trim m = "" \/ (1000 < String.length (trim m))%nat)) ->
  exists w',
    TaskController.addComment trim user id message cs ws w
    = (Return {| comment_statusCode := HTTP_STATUS.INTERNAL_SERVER_ERROR;
                 comment_success := false;
                 comment_message := Err ERROR_MESSAGES.SERVER_ERROR;
                 comment_error := Some "Failed to add comment";
                 comment_data := None |}, w')
    /\ tasks w' = tasks w /\ users w' = users w.
Proof.
  intros Ht Hmay Hbad.
  unfold TaskController.addComment, try_catch, bind.
  rewrite findById_run, Ht. cbn [fmap option_fmap option_map doc hydrate].
  assert (Hgate : bool_decide (role user = USER_ROLES.EMPLOYEE)
                  && bool_decide (assignedTo t ≠ user_id user) = false).
  { destruct Hmay as [Hr | Ha].
    - rewrite (bool_decide_eq_false_2 _ Hr). reflexivity.
    - rewrite (bool_decide_eq_false_2 (assignedTo t ≠ user_id user))
        by (intros Hne; apply Hne, Ha).
      apply andb_false_r. }
  rewrite Hgate. unfold addComment, bind. rewrite new_Date_run.
  match goal with
  | |- context [save_annotated ?a (tick w)] =>
      destruct (save_annotated_invalid a (tick w)) as (e & -> & _)
  end.
  - cbn [comments]. rewrite comments_valid_app, validate_comment_nil.
    intros (_ & s & Hs & Hne & Hlen). cbn [Comment.message] in Hs.
    destruct Hbad as [-> | (m & -> & Hm)]; [discriminate |].
    injection Hs as <-. destruct Hm as [Hm | Hm]; [tauto | lia].
  - eexists. split; [reflexivity |]. split; reflexivity.
Qed.

(** X25: a comment with a proper message, on a schema-valid task whose
    comments are valid, is put after the comments there are, with the
    commenter, the trimmed message and the time of the request, and the
    answer is 200 and carries it. The [save] that stores it is a [save]
    like any other: it leaves the followed paths of the task as they
    are, but for the status, which the overdue hook may set. *)
Theorem comment_is_appended (user : User) (id : ObjectId) (t : Task)
    (m : string) (cs : list Comment.t) (ws : list ObjectId) (w : World) :
  tasks w !! id = Some t ->
  role user <> USER_ROLES.EMPLOYEE \/ assignedTo t = user_id user ->
  validate t = [] ->
  comments_valid cs ->
  trim m <> "" ->
  (String.length (trim m) <= 1000)%nat ->
  exists t' w',
    TaskController.addComment trim user id (Some m) cs ws w
    = (Return {| comment_statusCode := HTTP_STATUS.OK;
                 comment_success := true;
                 comment_message := Text "Comment added successfully";
                 comment_error := None;
                 comment_data :=
                   Some (t', cs ++
                     [ {| Comment.user := user_id user;
                          Comment.message := Some (trim m);
                          Comment.timestamp := clock w 0%nat |} ]) |}, w')
    /\ tasks w' = <[ id := t' ]> (tasks w)
    /\ users w' = users w
    /\ title t' = title t /\ description t' = description t
    /\ assignedTo t' = assignedTo t /\ assignedBy t' = assignedBy t
    /\ dueDate t' = dueDate t
    /\ statusHistory t' = statusHistory t
    /\ timeTracking t' = timeTracking t
    /\ exists now, reading w now
                   /\ status t' = overdue_status now (dueDate t) (status t).
Proof.
  intros Ht Hmay Hv Hcs Hne Hlen.
  unfold TaskController.addComment, try_catch, bind.
  rewrite findById_run, Ht. cbn [fmap option_fmap option_map doc hydrate].
  assert (Hgate : bool_decide (role user = USER_ROLES.EMPLOYEE)
                  && bool_decide (assignedTo t ≠ user_id user) = false).
  { destruct Hmay as [Hr | Ha].
    - rewrite (bool_decide_eq_false_2 _ Hr). reflexivity.
    - rewrite (bool_decide_eq_false_2 (assignedTo t ≠ user_id user))
        by (intros Hn; apply Hn, Ha).
      apply andb_false_r. }
  rewrite Hgate. unfold addComment, bind. rewrite new_Date_run.
  rewrite save_annotated_valid.
  2:{ cbn [comments]. apply comments_valid_app. split; [exact Hcs |].
      apply validate_comment_nil. exists (trim m). auto. }
  cbn [subject comments watchers].
  destruct (save_spec (hydrate id t) (tick w) Hv) as (d' & w' & Hrun & Hpost).
  rewrite Hrun. unfold ret. cbn [subject comments].
  destruct (save_post_world _ _ _ _ Hpost) as [Hts Hus].
  destruct Hpost as (_ & _ & _ & _ & _ & P1 & P2 & P3 & P4 & P5
                     & (now & Hnow & Hst) & Hh & _ & _ & Htt & _).
  cbn [hydrate doc _id isNew status_modified andb] in *.
  exists (doc d'), w'. split; [reflexivity |].
  do 8 (split; [assumption |]).
  split; [apply Htt; auto |].
  exists now. split; [| exact Hst].
  eapply reading_later; [apply later_tick | exact Hnow].
Qed.
End CommentFacts.

Lemma comment_without_message_fails_witness :
  let w := world_of (task7 TASK_STATUS.PENDING false None) 50 in
  exists w',
    TaskController.addComment (fun s => s) alice 7%N (Some "") [] [] w
    = (Return {| comment_statusCode := HTTP_STATUS.INTERNAL_SERVER_ERROR;
                 comment_success := false;
                 comment_message := Err ERROR_MESSAGES.SERVER_ERROR;
                 comment_error := Some "Failed to add comment";
                 comment_data := None |}, w')
    /\ tasks w' = tasks w /\ users w' = users w.
Proof.
  intros w.
  apply (comment_without_message_fails (fun s => s) alice 7%N
           (task7 TASK_STATUS.PENDING false None) (Some "") [] [] w).
  - reflexivity.
  - right. reflexivity.
  - right. exists "". split; [reflexivity | left; reflexivity].
Defined.

Lemma comment_is_appended_witness :
  let t := task7 TASK_STATUS.PENDING false None in
  let w := world_of t 50 in
  exists t' w',
    TaskController.addComment (fun s => s) alice 7%N (Some "On it") [] [] w
    = (Return {| comment_statusCode := HTTP_STATUS.OK;
                 comment_success := true;
                 comment_message := Text "Comment added successfully";
                 comment_error := None;
                 comment_data :=
                   Some (t', [] ++
                     [ {| Comment.user := user_id alice;
                          Comment.message := Some "On it";
                          Comment.timestamp := clock w 0%nat |} ]) |}, w')
    /\ tasks w' = <[ 7%N := t' ]> (tasks w)
    /\ users w' = users w
    /\ title t' = title t /\ description t' = description t
    /\ assignedTo t' = assignedTo t /\ assignedBy t' = assignedBy t
    /\ dueDate t' = dueDate t
    /\ statusHistory t' = statusHistory t
    /\ timeTracking t' = timeTracking t
    /\ exists now, reading w now
                   /\ status t' = overdue_status now (dueDate t) (status t).
Proof.
  intros t w.
  apply (comment_is_appended (fun s => s) alice 7%N t "On it" [] [] w).
  - reflexivity.
  - right. reflexivity.
  - reflexivity.
  - reflexivity.
  - discriminate.
  - cbn. lia.
Defined.

Lemma comment_refusals_witness :
  let t := task7 TASK_STATUS.PENDING false None in
  let w := world_of t 50 in
  TaskController.addComment (fun s => s) root 8%N (Some "On it") [] [] w
  = (Return {| comment_statusCode := HTTP_STATUS.NOT_FOUND;
               comment_success := false;
               comment_message := Err ERROR_MESSAGES.TASK_NOT_FOUND;
               comment_error := Some "Task not found";
               comment_data := None |}, w)
  /\ TaskController.addComment (fun s => s) bob 7%N (Some "On it") [] [] w
     = (Return {| comment_statusCode := HTTP_STATUS.FORBIDDEN;
                  comment_success := false;
                  comment_message :=
                    Err ERROR_MESSAGES.INSUFFICIENT_PERMISSIONS;
                  comment_error :=
                    Some "You can only comment on your own tasks";
                  comment_data := None |}, w).
Proof.
  intros t w. split.
  - apply (comment_refusals (fun s => s) root 8%N (Some "On it") [] [] w).
    reflexivity.
  - destruct (comment_refusals (fun s => s) bob 7%N (Some "On it") [] [] w)
      as [_ Hdenied].
    apply (Hdenied t); [reflexivity | reflexivity | discriminate].
Defined.

(** ** Watchers *)

Lemma save_annotated_returns a w a' w' :
  save_annotated a w = (Return a', w') ->
  comments a' = comments a /\ watchers a' = watchers a
  /\ save (subject a) w = (Return (subject a'), w').
Proof.
  unfold save_annotated. destruct (concat _); [| discriminate].
  unfold bind, ret. destruct (save (subject a) w) as [[d | e] w1];
    [| discriminate].
  intros [= <- <-]. repeat split.
Qed.

(** X26: [addWatcher] adds a user once. After an [addWatcher] that
    returned, the user watches, the watchers are without duplicates when
    they were, and the same call again returns the document as it is,
    without a [save]: neither the store nor the clock moves. On a
    schema-valid document with valid comments the call does return. *)
Theorem addWatcher_adds_once (userId : ObjectId) (a : Annotated) (w : World) :
  (forall a1 w1,
     addWatcher userId a w = (Return a1, w1) ->
     userId ∈ watchers a1
     /\ (forall v, v ∈ watchers a1 <-> v = userId \/ v ∈ watchers a)
     /\ (NoDup (watchers a) -> NoDup (watchers a1))
     /\ comments a1 = comments a
     /\ addWatcher userId a1 w1 = (Return a1, w1))
  /\ (validate (doc (subject a)) = [] -> comments_valid (comments a) ->
      exists a1 w1, addWatcher userId a w = (Return a1, w1)).
Proof.
  split.
  - intros a1 w1 Hrun.
    assert (Hin : userId ∈ watchers a1
                  /\ (forall v, v ∈ watchers a1
                                <-> v = userId \/ v ∈ watchers a)
                  /\ (NoDup (watchers a) -> NoDup (watchers a1))
                  /\ comments a1 = comments a).
    { unfold addWatcher in Hrun.
      destruct (bool_decide (userId ∈ watchers a)) eqn:Hmem; cbn [negb] in Hrun.
      - apply bool_decide_eq_true_1 in Hmem. injection Hrun as <- <-.
        split; [exact Hmem |]. split; [| auto].
        intros v. split; [auto |]. intros [-> | Hv]; assumption.
      - apply bool_decide_eq_false_1 in Hmem.
        apply save_annotated_returns in Hrun as (Hc & Hws & _).
        cbn [comments watchers] in Hc, Hws. rewrite Hws.
        split; [apply elem_of_app; right; left |].
        split; [| split; [| exact Hc]].
        + intros v. rewrite elem_of_app, list_elem_of_singleton. tauto.
        + intros Hnd. apply NoDup_app. split; [exact Hnd |].
          split; [| apply NoDup_singleton].
          intros x Hx Hx'. apply list_elem_of_singleton in Hx'. subst x.
          tauto. }
    destruct Hin as (Hin & Hiff & Hnd & Hc).
    repeat (split; [assumption |]).
    unfold addWatcher. rewrite (bool_decide_eq_true_2 _ Hin). reflexivity.
  - intros Hv Hc. unfold addWatcher.
    destruct (bool_decide (userId ∈ watchers a)); cbn [negb];
      [eexists _, _; reflexivity |].
    rewrite save_annotated_valid by exact Hc. cbn [subject].
    destruct (save_spec (subject a) w Hv) as (d' & w' & -> & _).
    eexists _, _. reflexivity.
Qed.

Lemma addWatcher_adds_once_witness :
  let a := {| subject := hydrate 7%N (task7 TASK_STATUS.PENDING false None);
              comments := []; watchers := [2%N] |} in
  let w := world_of (task7 TASK_STATUS.PENDING false None) 50 in
  exists a1 w1,
    addWatcher 3%N a w = (Return a1, w1)
    /\ 3%N ∈ watchers a1
    /\ NoDup (watchers a1)
    /\ addWatcher 3%N a1 w1 = (Return a1, w1).
Proof.
  intros a w.
  destruct (addWatcher_adds_once 3%N a w) as [Hthen Hruns].
  destruct Hruns as (a1 & w1 & Hrun); [reflexivity | reflexivity |].
  destruct (Hthen a1 w1 Hrun) as (Hin & _ & Hnd & _ & Hagain).
  exists a1, w1. split; [exact Hrun |]. split; [exact Hin |].
  split; [| exact Hagain].
  apply Hnd. apply NoDup_singleton.
Defined.

(** X27: after a [removeWatcher] that returned, the user does not watch
    and every other watcher is still there, in the order they were;
    removing a watcher who was just added gives the watchers back as
    they were. On a schema-valid document with valid comments the call
    does return, and it saves even when the user did not watch. *)
Theorem removeWatcher_removes (userId : ObjectId) (a : Annotated)
    (w : World) :
  (forall a1 w1,
     removeWatcher userId a w = (Return a1, w1) ->
     (userId ∉ watchers a1)
     /\ (forall v, v ∈ watchers a1 <-> v ≠ userId /\ v ∈ watchers a)
     /\ (userId ∉ watchers a -> watchers a1 = watchers a)
     /\ comments a1 = comments a
     /\ save (subject a) w = (Return (subject a1), w1))
  /\ (forall a1 w1 a2 w2,
        userId ∉ watchers a ->
        addWatcher userId a w = (Return a1, w1) ->
        removeWatcher userId a1 w1 = (Return a2, w2) ->
        watchers a2 = watchers a)
  /\ (validate (doc (subject a)) = [] -> comments_valid (comments a) ->
      exists a1 w1, removeWatcher userId a w = (Return a1, w1)).
Proof.
  assert (Hkeep : forall l : list ObjectId,
            userId ∉ l -> filter (fun v => v ≠ userId) l = l).
  { induction l as [| x l IH]; [reflexivity |].
    intros Hn. apply not_elem_of_cons in Hn as [Hne Hn].
    rewrite filter_cons_True by congruence. rewrite IH by exact Hn.
    reflexivity. }
  split; [| split].
  - intros a1 w1 Hrun. unfold removeWatcher in Hrun.
    apply save_annotated_returns in Hrun as (Hc & Hws & Hsave).
    cbn [comments watchers subject] in Hc, Hws, Hsave. rewrite Hws.
    split; [rewrite list_elem_of_filter; tauto |].
    split; [intros v; rewrite list_elem_of_filter; reflexivity |].
    split; [apply Hkeep |]. split; [exact Hc | exact Hsave].
  - intros a1 w1 a2 w2 Hnot Hadd Hrem.
    unfold addWatcher in Hadd.
    rewrite (bool_decide_eq_false_2 _ Hnot) in Hadd. cbn [negb] in Hadd.
    apply save_annotated_returns in Hadd as (_ & Hws1 & _).
    unfold removeWatcher in Hrem.
    apply save_annotated_returns in Hrem as (_ & Hws2 & _).
    cbn [watchers] in Hws1, Hws2. rewrite Hws2, Hws1, filter_app.
    rewrite Hkeep by exact Hnot.
    rewrite filter_cons_False by (intros Hne; apply Hne; reflexivity).
    rewrite filter_nil. apply app_nil_r.
  - intros Hv Hc. unfold removeWatcher.
    rewrite save_annotated_valid by exact Hc. cbn [subject].
    destruct (save_spec (subject a) w Hv) as (d' & w' & -> & _).
    eexists _, _. reflexivity.
Qed.

Lemma removeWatcher_removes_witness :
  let a := {| subject := hydrate 7%N (task7 TASK_STATUS.PENDING false None);
              comments := []; watchers := [2%N; 3%N; 2%N] |} in
  let w := world_of (task7 TASK_STATUS.PENDING false None) 50 in
  exists a1 w1,
    removeWatcher 2%N a w = (Return a1, w1)
    /\ (2%N ∉ watchers a1)
    /\ 3%N ∈ watchers a1.
Proof.
  intros a w.
  destruct (removeWatcher_removes 2%N a w) as (Hthen & _ & Hruns).
  destruct Hruns as (a1 & w1 & Hrun); [reflexivity | reflexivity |].
  destruct (Hthen a1 w1 Hrun) as (Hnot & Hiff & _).
  exists a1, w1. split; [exact Hrun |]. split; [exact Hnot |].
  apply Hiff. split; [discriminate |]. right. left.
Defined.
